(** * Group treasurer ledger: the store's computation engine

    A shallow embedding of the ledger store of the group-treasurer application
    (the [StoreProvider] component and [types.ts]) together with the properties
    of its derived views and mutation operations.

    Modelling conventions.
    - A JavaScript [number] is an IEEE 754 binary64 value.  The store is
      embedded twice.  The first embedding reads every amount and rate as
      the exact rational it denotes ([Q]) and adds and compares exactly; it
      carries the properties of structure (which records an operation
      creates, finds or removes, what a filter keeps, what is returned) and
      the bounds that hold term by term.  The second embedding, [Double],
      has the numbers and the operations of the source ([float]: rounding to
      nearest, NaN, signed zeros); every property that depends on how a sum
      or a product is rounded, or on the order in which it is added, is
      stated there.  Equality of exact amounts is [Qeq] ([==]) unless a
      value is copied unchanged.
    - A JavaScript string is a [string]; [<=] and [>] on strings are the
      lexicographic comparisons [String.leb] and [String.ltb], [===] is
      [String.eqb].
    - An optional field ([memberId?: string]) is an [option].
    - The React state of the provider is the record [Store]; an operation
      reads the store it is called on and returns the store after its
      synchronous (optimistic) updates.  Calls to the persistence backend come
      after these updates; a failed durable write only posts a notification
      and requests a reload, both outside the model, except where the
      failure changes the value returned ([addLoan]).
    - [uuidv4()] is an input: every operation takes the identifiers it draws.
    - What the host decides for [Date], the reading of a string that is not
      an ISO calendar date and the local time zone, is an input of [Double]
      ([Double.Engine]); the first embedding treats such a string as not a
      date and takes a time zone without clock changes. *)

From Stdlib Require Import Floats.
From Stdlib Require Import List String Ascii Bool ZArith QArith Qminmax Qabs.
From Stdlib Require Import Lia Permutation Sorted.
From Stdlib Require Import NArith.
Import ListNotations.
Set Warnings "-inexact-float".

Local Open Scope Q_scope.

(** ** Data model ([types.ts]) *)

Inductive AccountType := CASH | MOBILE | BANK | MEMBER.
Inductive FundType := PRINCIPAL | INTEREST.
Inductive TransactionType :=
  CONTRIBUTION | LOAN_GIVEN | LOAN_REPAYMENT | EXPENSE | TRANSFER | OPENING_BALANCE.
Inductive LoanStatus := PAID | OVERDUE | UNPAID.

Record Member := mkMember {
  m_id : string;
  m_name : string;
  m_active : bool;
  m_advance_credit : Q
}.

Record Account := mkAccount {
  a_id : string;
  a_account_name : string;
  a_type : AccountType;
  a_active : bool;
  a_memberId : option string
}.

Record Transaction := mkTransaction {
  t_id : string;
  t_date : string;
  t_memberId : option string;
  t_accountId : string;
  t_fund_type : FundType;
  t_transaction_type : TransactionType;
  t_amount : Q;
  t_related_loan_id : option string;
  t_notes : string
}.

Record Loan := mkLoan {
  l_id : string;
  l_memberId : string;
  l_amount_given : Q;
  l_interest_rate : Q;
  l_date_given : string;
  l_due_date : string
}.

(** The state held by [StoreProvider] that the ledger computations read. *)
Record Store := mkStore {
  members : list Member;
  accounts : list Account;
  transactions : list Transaction;
  loans : list Loan;
  workingDate : string
}.

(** Functional state updates, [setX(prev => f prev)]. *)
Definition setMembers (f : list Member -> list Member) (s : Store) : Store :=
  mkStore (f (members s)) (accounts s) (transactions s) (loans s) (workingDate s).
Definition setAccounts (f : list Account -> list Account) (s : Store) : Store :=
  mkStore (members s) (f (accounts s)) (transactions s) (loans s) (workingDate s).
Definition setTransactions (f : list Transaction -> list Transaction) (s : Store) : Store :=
  mkStore (members s) (accounts s) (f (transactions s)) (loans s) (workingDate s).
Definition setLoans (f : list Loan -> list Loan) (s : Store) : Store :=
  mkStore (members s) (accounts s) (transactions s) (f (loans s)) (workingDate s).
Definition setWorkingDate (date : string) (s : Store) : Store :=
  mkStore (members s) (accounts s) (transactions s) (loans s) date.

(** ** Comparisons of the source language *)

Definition FundType_eqb (a b : FundType) : bool :=
  match a, b with
  | PRINCIPAL, PRINCIPAL | INTEREST, INTEREST => true
  | _, _ => false
  end.

Definition TransactionType_eqb (a b : TransactionType) : bool :=
  match a, b with
  | CONTRIBUTION, CONTRIBUTION | LOAN_GIVEN, LOAN_GIVEN
  | LOAN_REPAYMENT, LOAN_REPAYMENT | EXPENSE, EXPENSE
  | TRANSFER, TRANSFER | OPENING_BALANCE, OPENING_BALANCE => true
  | _, _ => false
  end.

Definition LoanStatus_eqb (a b : LoanStatus) : bool :=
  match a, b with
  | PAID, PAID | OVERDUE, OVERDUE | UNPAID, UNPAID => true
  | _, _ => false
  end.

Definition AccountType_eqb (a b : AccountType) : bool :=
  match a, b with
  | CASH, CASH | MOBILE, MOBILE | BANK, BANK | MEMBER, MEMBER => true
  | _, _ => false
  end.

(** [x === v] for an optional string [x] and a string [v]. *)
Definition optEq (x : option string) (v : string) : bool :=
  match x with
  | Some u => String.eqb u v
  | None => false
  end.

(** [a < b] and [a > b] on numbers. *)
Definition Qltb (a b : Q) : bool := negb (Qle_bool b a).
Definition Qgtb (a b : Q) : bool := Qltb b a.

(** [.reduce((sum, t) => sum + t.amount, 0)] *)
Definition sumAmounts (l : list Transaction) : Q :=
  fold_left (fun sum t => sum + t_amount t) l 0.

(** ** As-of filter, balances and loan state *)

Definition isBeforeOrOnWorkingDate (s : Store) (dateStr : string) : bool :=
  String.leb dateStr (workingDate s).

Record AccountBalance := mkAccountBalance {
  principal : Q;
  interest : Q;
  total : Q
}.

Definition getAccountBalance (s : Store) (accountId : string) : AccountBalance :=
  let accTrans :=
    filter (fun t => String.eqb (t_accountId t) accountId
                     && isBeforeOrOnWorkingDate s (t_date t)) (transactions s) in
  let principal :=
    sumAmounts (filter (fun t => FundType_eqb (t_fund_type t) PRINCIPAL) accTrans) in
  let interest :=
    sumAmounts (filter (fun t => FundType_eqb (t_fund_type t) INTEREST) accTrans) in
  mkAccountBalance principal interest (principal + interest).

Record LoanDetails := mkLoanDetails {
  interestAmount : Q;
  totalDue : Q;
  amountPaid : Q;
  balance : Q;
  status : LoanStatus
}.

Definition getLoanDetails (s : Store) (loan : Loan) : LoanDetails :=
  let interestAmount := l_amount_given loan * (l_interest_rate loan / 100) in
  let totalDue := l_amount_given loan + interestAmount in
  let amountPaid :=
    sumAmounts
      (filter (fun t => optEq (t_related_loan_id t) (l_id loan)
                        && TransactionType_eqb (t_transaction_type t) LOAN_REPAYMENT
                        && isBeforeOrOnWorkingDate s (t_date t))
              (transactions s)) in
  let balance := totalDue - amountPaid in
  let status :=
    if Qle_bool balance 0 then PAID
    else if String.ltb (l_due_date loan) (workingDate s) then OVERDUE
    else UNPAID in
  mkLoanDetails interestAmount totalDue amountPaid balance status.

(** ** The platform's [Date]

    The store uses [Date] in two places: [new Date(d).getTime()] as a sort
    key, and [new Date(date)], [setDate(getDate() + 30)], [toISOString()] for
    a loan's due date.  A time value is a number of milliseconds since the
    epoch ([Z]); [None] stands for the time value NaN of an invalid date.

    The day arithmetic follows ECMA-262 (Day, DayFromYear, MakeDay).  [parse]
    covers the calendar-date form [YYYY-MM-DD] (read as midnight UTC), which
    is the form of every date the ledger stores; any other string is treated
    as not a date.  [setDate] works in local time; with a local time zone of
    constant offset, advancing the day of the month by [n] advances the time
    value by [n] days, which is how [addDays] is written. *)

Module JsDate.
Local Open Scope Z_scope.

Definition msPerDay : Z := 86400000.

Definition InLeapYear (y : Z) : bool :=
  (y mod 4 =? 0) && (negb (y mod 100 =? 0) || (y mod 400 =? 0)).

Definition DayFromYear (y : Z) : Z :=
  365 * (y - 1970) + (y - 1969) / 4 - (y - 1901) / 100 + (y - 1601) / 400.

Definition monthLengths (y : Z) : list Z :=
  [31; if InLeapYear y then 29 else 28; 31; 30; 31; 30; 31; 31; 30; 31; 30; 31].

Definition sumZ (l : list Z) : Z := fold_right Z.add 0 l.

(** Days of year [y] before the first of month [m] (1 to 12). *)
Definition daysBeforeMonth (y m : Z) : Z :=
  sumZ (firstn (Z.to_nat (m - 1)) (monthLengths y)).

Definition daysInMonth (y m : Z) : Z :=
  nth (Z.to_nat (m - 1)) (monthLengths y) 0.

(** Day number of the calendar date [y]-[m]-[d]. *)
Definition MakeDay (y m d : Z) : Z :=
  DayFromYear y + daysBeforeMonth y m + (d - 1).

(** The year whose first day is the latest one not after [day]. *)
Definition YearFromDay (day : Z) : Z :=
  let y := 1970 + day * 400 / 146097 in
  if DayFromYear (y + 1) <=? day then y + 1
  else if day <? DayFromYear y then y - 1
  else y.

(** Month and day of the month of the [r]-th day (from 0) of a year whose
    remaining months have lengths [lens], counting months from [m]. *)
Fixpoint monthAndDate (lens : list Z) (m r : Z) : Z * Z :=
  match lens with
  | [] => (m, r + 1)
  | len :: rest => if r <? len then (m, r + 1) else monthAndDate rest (m + 1) (r - len)
  end.

Definition civilFromDay (day : Z) : Z * Z * Z :=
  let y := YearFromDay day in
  let '(m, d) := monthAndDate (monthLengths y) 1 (day - DayFromYear y) in
  (y, m, d).

Definition digitVal (c : ascii) : option Z :=
  let n := Z.of_nat (nat_of_ascii c) in
  if (48 <=? n) && (n <=? 57) then Some (n - 48) else None.

Definition digits2 (a b : ascii) : option Z :=
  match digitVal a, digitVal b with
  | Some x, Some y => Some (10 * x + y)
  | _, _ => None
  end.

Definition digits4 (a b c d : ascii) : option Z :=
  match digits2 a b, digits2 c d with
  | Some x, Some y => Some (100 * x + y)
  | _, _ => None
  end.

(** [Date.parse] on [YYYY-MM-DD]. *)
Definition parse (str : string) : option Z :=
  match str with
  | String y1 (String y2 (String y3 (String y4 (String sep1
      (String m1 (String m2 (String sep2 (String d1 (String d2 EmptyString))))))))) =>
      if Ascii.eqb sep1 "-" && Ascii.eqb sep2 "-" then
        match digits4 y1 y2 y3 y4, digits2 m1 m2, digits2 d1 d2 with
        | Some y, Some m, Some d =>
            if (1 <=? m) && (m <=? 12) && (1 <=? d) && (d <=? daysInMonth y m)
            then Some (MakeDay y m d * msPerDay)
            else None
        | _, _, _ => None
        end
      else None
  | _ => None
  end.

Definition digitChar (d : Z) : ascii := ascii_of_nat (48 + Z.to_nat d).

(** The [width] low-order decimal digits of [z], zero padded. *)
Fixpoint pad (width : nat) (z : Z) : string :=
  match width with
  | O => EmptyString
  | S w => (pad w (z / 10) ++ String (digitChar (z mod 10)) EmptyString)%string
  end.

Definition yearString (y : Z) : string :=
  if (0 <=? y) && (y <=? 9999) then pad 4 y
  else ((if (y <? 0)%Z then "-" else "+") ++ pad 6 (Z.abs y))%string.

Definition toISOString (t : Z) : string :=
  let day := t / msPerDay in
  let ms := t mod msPerDay in
  let '(y, m, d) := civilFromDay day in
  (yearString y ++ "-" ++ pad 2 m ++ "-" ++ pad 2 d ++ "T"
   ++ pad 2 (ms / 3600000) ++ ":" ++ pad 2 (ms / 60000 mod 60) ++ ":"
   ++ pad 2 (ms / 1000 mod 60) ++ "." ++ pad 3 (ms mod 1000) ++ "Z")%string.

(** [d.setDate(d.getDate() + n)] on a valid date. *)
Definition addDays (n : Z) (t : Z) : Z := t + n * msPerDay.

(** [new Date(str).getTime()]; [None] is NaN. *)
Definition getTime (str : string) : option Z := parse str.

End JsDate.

(** ** [Array.prototype.sort]

    The sort is stable; for a consistent comparator its result is therefore
    determined, and the stable insertion sort below computes it.  A comparator
    result of NaN ([None]) counts as 0, as in SortCompare. *)

Section ArraySort.
Context {A : Type}.
Variable comparefn : A -> A -> option Z.

(** [comparefn x y > 0]: [x] sorts after [y]. *)
Definition sortsAfter (x y : A) : bool :=
  match comparefn x y with
  | Some v => (0 <? v)%Z
  | None => false
  end.

Fixpoint insertSorted (x : A) (l : list A) : list A :=
  match l with
  | [] => [x]
  | y :: l' => if sortsAfter x y then y :: insertSorted x l' else x :: l
  end.

Definition Array_sort (l : list A) : list A := fold_right insertSorted [] l.
End ArraySort.

(** [a - b] on two time values, NaN if either is. *)
Definition timeDiff (a b : option Z) : option Z :=
  match a, b with
  | Some x, Some y => Some (x - y)%Z
  | _, _ => None
  end.

(** ** Member statistics *)

Record MemberStats := mkMemberStats {
  totalContributed : Q;
  activeLoans : nat;
  totalLoanBalance : Q;
  lastContributionDate : option string;
  fundsHeld : Q
}.

(** [(a, b) => new Date(b.date).getTime() - new Date(a.date).getTime()] *)
Definition newestFirst (a b : Transaction) : option Z :=
  timeDiff (JsDate.getTime (t_date b)) (JsDate.getTime (t_date a)).

(** The loans the statistics look at: the member's, given on or before the
    working date. *)
Definition memberLoans (s : Store) (memberId : string) : list Loan :=
  filter (fun l => String.eqb (l_memberId l) memberId
                   && isBeforeOrOnWorkingDate s (l_date_given l)) (loans s).

(** The body of [memberLoans.forEach]: the accumulator is the pair
    [(activeLoans, totalLoanBalance)]. *)
Definition countLoan (s : Store) (acc : nat * Q) (l : Loan) : nat * Q :=
  let details := getLoanDetails s l in
  if negb (LoanStatus_eqb (status details) PAID)
  then (S (fst acc), snd acc + balance details)
  else acc.

Definition getMemberStats (s : Store) (memberId : string) : MemberStats :=
  let memberTransactions :=
    filter (fun t => optEq (t_memberId t) memberId
                     && isBeforeOrOnWorkingDate s (t_date t)) (transactions s) in
  let totalContributed :=
    sumAmounts (filter (fun t => TransactionType_eqb (t_transaction_type t) CONTRIBUTION)
                       memberTransactions) in
  let contributions :=
    Array_sort newestFirst
      (filter (fun t => TransactionType_eqb (t_transaction_type t) CONTRIBUTION)
              memberTransactions) in
  let lastContributionDate :=
    match contributions with
    | c :: _ => Some (t_date c)
    | [] => None
    end in
  let '(activeLoans, totalLoanBalance) :=
    fold_left (countLoan s) (memberLoans s memberId) (O, 0) in
  let memberAccounts :=
    filter (fun a => optEq (a_memberId a) memberId && AccountType_eqb (a_type a) MEMBER)
           (accounts s) in
  let fundsHeld :=
    fold_left (fun held acc => held + total (getAccountBalance s (a_id acc)))
              memberAccounts 0 in
  mkMemberStats totalContributed activeLoans totalLoanBalance lastContributionDate fundsHeld.

(** ** The ledger facade *)

(** The messages the facade returns.  The two that embed a number carry it as
    a value instead of its rendering.
    - [MemberNotFound]: 'Member not found'
    - [InsufficientFunds]: 'Insufficient funds in account'
    - [OutstandingLoan]: 'Member already has an outstanding loan. Please repay it first.'
    - [DatabaseError]: 'Database error'
    - [InsufficientInterestFunds a]: 'Insufficient interest funds. Available: a MK'
    - [CannotDeleteAccount b]: 'Cannot delete account. It has a remaining balance of b MK.' *)
Inductive Message :=
| MemberNotFound
| InsufficientFunds
| OutstandingLoan
| DatabaseError
| InsufficientInterestFunds (availableInterest : Q)
| CannotDeleteAccount (totalBalance : Q).

(** What an operation's promise resolves to: a message, [null], or nothing
    ([undefined], for the operations typed [Promise<void>]). *)
Inductive Returned :=
| RetNull
| RetUndefined
| RetMessage (msg : Message).

(** A caller sees a failure when the value is a message. *)
Definition isFailure (r : Returned) : bool :=
  match r with
  | RetMessage _ => true
  | _ => false
  end.

(** An operation either completes with a value and a store, or throws. *)
Inductive Completion (A : Type) :=
| Normal (a : A)
| ThrowRangeError.
Arguments Normal {A} a.
Arguments ThrowRangeError {A}.

(** [notes || fallback] *)
Definition orDefault (notes fallback : string) : string :=
  if String.eqb notes "" then fallback else notes.

Definition addMember (id : string) (s : Store) (name : string) (startingCredit : Q)
  : string * Store :=
  let newMember := mkMember id name true startingCredit in
  (id, setMembers (fun prev => prev ++ [newMember]) s).

(** [Partial<Member>] *)
Record MemberUpdates := mkMemberUpdates {
  u_id : option string;
  u_name : option string;
  u_active : option bool;
  u_advance_credit : option Q
}.

Definition pick {A : Type} (u : option A) (old : A) : A :=
  match u with
  | Some v => v
  | None => old
  end.

(** [{ ...m, ...updates }] *)
Definition spreadUpdates (m : Member) (updates : MemberUpdates) : Member :=
  mkMember (pick (u_id updates) (m_id m)) (pick (u_name updates) (m_name m))
           (pick (u_active updates) (m_active m))
           (pick (u_advance_credit updates) (m_advance_credit m)).

Definition updateMember (s : Store) (id : string) (updates : MemberUpdates) : Store :=
  setMembers (map (fun m => if String.eqb (m_id m) id then spreadUpdates m updates else m)) s.

Definition advanceCreditOnly (credit : Q) : MemberUpdates :=
  mkMemberUpdates None None None (Some credit).

Definition addAccount (id : string) (s : Store) (name : string) (type : AccountType)
    (memberId : option string) : string * Store :=
  (id, setAccounts (fun prev => prev ++ [mkAccount id name type true memberId]) s).

Definition deleteAccount (s : Store) (id : string) : Returned * Store :=
  let accTrans := filter (fun t => String.eqb (t_accountId t) id) (transactions s) in
  let totalBalance := sumAmounts accTrans in
  if Qgtb (Qabs totalBalance) (1 # 100)
  then (RetMessage (CannotDeleteAccount totalBalance), s)
  else (RetNull, setAccounts (filter (fun a => negb (String.eqb (a_id a) id))) s).

(** The entry is removed from the store only after the backend has removed
    it; [dbError] tells whether the backend refused. *)
Definition deleteTransaction (dbError : bool) (s : Store) (id : string) : Store :=
  if dbError then s
  else setTransactions (filter (fun t => negb (String.eqb (t_id t) id))) s.

(** *** The contribution allocator *)

Definition DAILY_SHARE_CAP : Q := 1000.

Definition existingContributionAmountOnDate (s : Store) (memberId date : string) : Q :=
  sumAmounts
    (filter (fun t => optEq (t_memberId t) memberId
                      && String.eqb (t_date t) date
                      && TransactionType_eqb (t_transaction_type t) CONTRIBUTION)
            (transactions s)).

(** [(a, b) => new Date(a.date_given).getTime() - new Date(b.date_given).getTime()]
    on loans paired with their details. *)
Definition oldestFirst (a b : Loan * LoanDetails) : option Z :=
  timeDiff (JsDate.getTime (l_date_given (fst a))) (JsDate.getTime (l_date_given (fst b))).

(** [{ ...l, ...getLoanDetails(l) }] is the pair of the loan and its details. *)
Definition unpaidLoans (s : Store) (memberId : string) : list (Loan * LoanDetails) :=
  Array_sort oldestFirst
    (filter (fun l => negb (LoanStatus_eqb (status (snd l)) PAID))
       (map (fun l => (l, getLoanDetails s l))
          (filter (fun l => String.eqb (l_memberId l) memberId) (loans s)))).

Definition repaymentEntry (tId date memberId accountId : string) (repaymentAmount : Q)
    (loan : Loan) : Transaction :=
  mkTransaction tId date (Some memberId) accountId PRINCIPAL LOAN_REPAYMENT
                repaymentAmount (Some (l_id loan))
                "Auto-repayment from extra contribution".

(** The [for (const loan of unpaidLoans)] loop.  [drawn] counts the
    identifiers drawn so far; the result is the entries pushed and the final
    [remainingExtra]. *)
Fixpoint autoRepay (uuidv4 : nat -> string) (memberId accountId date : string)
    (unpaid : list (Loan * LoanDetails)) (remainingExtra : Q) (drawn : nat)
  : list Transaction * Q :=
  match unpaid with
  | [] => ([], remainingExtra)
  | loan :: rest =>
      if Qle_bool remainingExtra 0 then ([], remainingExtra)
      else
        let repaymentAmount := Qmin remainingExtra (balance (snd loan)) in
        if Qgtb repaymentAmount 0 then
          let tData := repaymentEntry (uuidv4 drawn) date memberId accountId
                                      repaymentAmount (fst loan) in
          let '(pushed, leftOver) :=
            autoRepay uuidv4 memberId accountId date rest
                      (remainingExtra - repaymentAmount) (S drawn) in
          (tData :: pushed, leftOver)
        else autoRepay uuidv4 memberId accountId date rest remainingExtra drawn
  end.

Definition contributionEntry (tId date memberId accountId : string) (share : Q)
    (notes : string) : Transaction :=
  mkTransaction tId date (Some memberId) accountId PRINCIPAL CONTRIBUTION
                share None (orDefault notes "Daily Share").

Definition addContribution (uuidv4 : nat -> string) (s : Store)
    (memberId : string) (amount : Q) (accountId date notes : string)
  : Returned * Store :=
  match find (fun m => String.eqb (m_id m) memberId) (members s) with
  | None => (RetMessage MemberNotFound, s)
  | Some member =>
      let remainingShareCapacity :=
        Qmax 0 (DAILY_SHARE_CAP - existingContributionAmountOnDate s memberId date) in
      let totalPool := amount + m_advance_credit member in
      let share := Qmin remainingShareCapacity totalPool in
      let extra := totalPool - share in
      let shareEntries :=
        if Qgtb share 0
        then [contributionEntry (uuidv4 O) date memberId accountId share notes]
        else [] in
      let '(repayments, updatedAdvanceCredit) :=
        if Qgtb extra 0
        then autoRepay uuidv4 memberId accountId date (unpaidLoans s memberId)
                       extra (List.length shareEntries)
        else ([], 0) in
      let localNewTransactions := shareEntries ++ repayments in
      (RetNull,
       updateMember (setTransactions (fun prev => prev ++ localNewTransactions) s)
                    memberId (advanceCreditOnly updatedAdvanceCredit))
  end.

(** *** Loans, repayments, expenses, transfers, opening balances *)

(** [lError] tells whether the backend refused the loan record. *)
Definition addLoan (loanId transId : string) (lError : bool) (s : Store)
    (memberId : string) (amount : Q) (accountId date : string) (interestRate : Q)
  : Completion (Returned * Store) :=
  let balance := getAccountBalance s accountId in
  if Qltb (total balance) amount then Normal (RetMessage InsufficientFunds, s)
  else
    let memberLoans := filter (fun l => String.eqb (l_memberId l) memberId) (loans s) in
    let hasActiveLoan :=
      existsb (fun l => negb (LoanStatus_eqb (status (getLoanDetails s l)) PAID))
              memberLoans in
    if hasActiveLoan then Normal (RetMessage OutstandingLoan, s)
    else
      match JsDate.parse date with
      | None => ThrowRangeError
      | Some t =>
          let dueDate := JsDate.addDays 30 t in
          let loan := mkLoan loanId memberId amount interestRate date
                             (JsDate.toISOString dueDate) in
          let entry := mkTransaction transId date (Some memberId) accountId PRINCIPAL
                                     LOAN_GIVEN (- amount) None "Loan given to member" in
          let s' := setTransactions (fun prev => prev ++ [entry])
                      (setLoans (fun prev => prev ++ [loan]) s) in
          Normal (if lError then RetMessage DatabaseError else RetNull, s')
      end.

Definition addRepayment (tId : string) (s : Store) (loanId : string) (amount : Q)
    (accountId date notes : string) : Returned * Store :=
  match find (fun l => String.eqb (l_id l) loanId) (loans s) with
  | None => (RetUndefined, s)
  | Some loan =>
      let entry := mkTransaction tId date (Some (l_memberId loan)) accountId PRINCIPAL
                                 LOAN_REPAYMENT amount (Some loanId)
                                 (orDefault notes "Direct repayment") in
      (RetUndefined, setTransactions (fun prev => prev ++ [entry]) s)
  end.

Definition allInterestIncoming (s : Store) : Q :=
  sumAmounts
    (filter (fun t => FundType_eqb (t_fund_type t) INTEREST
                      && Qgtb (t_amount t) 0
                      && isBeforeOrOnWorkingDate s (t_date t)) (transactions s)).

Definition allInterestOutgoing (s : Store) : Q :=
  sumAmounts
    (filter (fun t => TransactionType_eqb (t_transaction_type t) EXPENSE
                      && FundType_eqb (t_fund_type t) INTEREST
                      && isBeforeOrOnWorkingDate s (t_date t)) (transactions s)).

Definition availableInterest (s : Store) : Q :=
  allInterestIncoming s - allInterestOutgoing s.

Definition addExpense (tId : string) (s : Store) (amount : Q)
    (accountId date notes : string) : Returned * Store :=
  if Qltb (availableInterest s) amount
  then (RetMessage (InsufficientInterestFunds (availableInterest s)), s)
  else
    let entry := mkTransaction tId date None accountId INTEREST EXPENSE
                               (- amount) None notes in
    (RetNull, setTransactions (fun prev => prev ++ [entry]) s).

(** [accounts.find(a => a.id === id)?.account_name] inside a template string. *)
Definition accountNameOf (s : Store) (id : string) : string :=
  match find (fun a => String.eqb (a_id a) id) (accounts s) with
  | Some a => a_account_name a
  | None => "undefined"
  end.

Definition addTransfer (t1Id t2Id : string) (s : Store)
    (fromAccountId toAccountId : string) (amount : Q) (fundType : FundType)
    (date notes : string) : Returned * Store :=
  let trans1 :=
    mkTransaction t1Id date None fromAccountId fundType TRANSFER (- amount) None
                  ("Transfer to " ++ accountNameOf s toAccountId ++ ": " ++ notes)%string in
  let trans2 :=
    mkTransaction t2Id date None toAccountId fundType TRANSFER amount None
                  ("Transfer from " ++ accountNameOf s fromAccountId ++ ": " ++ notes)%string in
  (RetUndefined, setTransactions (fun prev => prev ++ [trans1; trans2]) s).

Definition addOpeningBalance (tId : string) (s : Store) (accountId : string)
    (amount : Q) (fundType : FundType) (date notes : string) : Returned * Store :=
  let entry := mkTransaction tId date None accountId fundType OPENING_BALANCE amount None
                             (orDefault notes "Opening Balance") in
  (RetUndefined, setTransactions (fun prev => prev ++ [entry]) s).

Definition resetData (s : Store) : Store :=
  setAccounts (fun _ => []) (setLoans (fun _ => [])
    (setTransactions (fun _ => []) (setMembers (fun _ => []) s))).

(** *** The mutation operations as one step function

    Every operation of the facade that changes the members, accounts, loans
    or entries held in memory, with the inputs it draws from outside (fresh
    identifiers, backend verdicts). *)
Inductive Mutation :=
| AddMember (id name : string) (startingCredit : Q)
| UpdateMember (id : string) (updates : MemberUpdates)
| AddAccount (id name : string) (type : AccountType) (memberId : option string)
| DeleteAccount (id : string)
| AddContribution (uuidv4 : nat -> string) (memberId : string) (amount : Q)
                  (accountId date notes : string)
| AddLoan (loanId transId : string) (lError : bool) (memberId : string) (amount : Q)
          (accountId date : string) (interestRate : Q)
| AddRepayment (tId loanId : string) (amount : Q) (accountId date notes : string)
| AddExpense (tId : string) (amount : Q) (accountId date notes : string)
| AddTransfer (t1Id t2Id fromAccountId toAccountId : string) (amount : Q)
              (fundType : FundType) (date notes : string)
| AddOpeningBalance (tId accountId : string) (amount : Q) (fundType : FundType)
                    (date notes : string)
| DeleteTransaction (dbError : bool) (id : string)
| SetWorkingDate (date : string)
| ResetData.

Definition run (op : Mutation) (s : Store) : Store :=
  match op with
  | AddMember id name startingCredit => snd (addMember id s name startingCredit)
  | UpdateMember id updates => updateMember s id updates
  | AddAccount id name type memberId => snd (addAccount id s name type memberId)
  | DeleteAccount id => snd (deleteAccount s id)
  | AddContribution uuidv4 memberId amount accountId date notes =>
      snd (addContribution uuidv4 s memberId amount accountId date notes)
  | AddLoan loanId transId lError memberId amount accountId date interestRate =>
      match addLoan loanId transId lError s memberId amount accountId date interestRate with
      | Normal r => snd r
      | ThrowRangeError => s
      end
  | AddRepayment tId loanId amount accountId date notes =>
      snd (addRepayment tId s loanId amount accountId date notes)
  | AddExpense tId amount accountId date notes =>
      snd (addExpense tId s amount accountId date notes)
  | AddTransfer t1Id t2Id fromAccountId toAccountId amount fundType date notes =>
      snd (addTransfer t1Id t2Id s fromAccountId toAccountId amount fundType date notes)
  | AddOpeningBalance tId accountId amount fundType date notes =>
      snd (addOpeningBalance tId s accountId amount fundType date notes)
  | DeleteTransaction dbError id => deleteTransaction dbError s id
  | SetWorkingDate date => setWorkingDate date s
  | ResetData => resetData s
  end.

(** The entries an operation appended: those past the end of the old log. *)
Definition appended (s s' : Store) : list Transaction :=
  skipn (List.length (transactions s)) (transactions s').

(** * Notions the properties are stated with *)

(** The share the allocator books for [member], as the source computes it. *)
Definition allocatedShare (s : Store) (member : Member) (memberId : string)
    (amount : Q) (date : string) : Q :=
  Qmin (Qmax 0 (DAILY_SHARE_CAP - existingContributionAmountOnDate s memberId date))
       (amount + m_advance_credit member).

(** The waterfall as the specification words it: for each loan in order,
    while [extra > 0], repay [min(extra, balance)] against that loan and
    decrement [extra] by it.  The result lists the loan identifier and amount
    of each repayment, and the [extra] left at the end. *)
Fixpoint waterfall (queue : list (Loan * LoanDetails)) (extra : Q)
  : list (string * Q) * Q :=
  match queue with
  | [] => ([], extra)
  | loan :: rest =>
      if Qgtb extra 0 then
        let repaid := Qmin extra (balance (snd loan)) in
        let '(more, final) := waterfall rest (extra - repaid) in
        ((l_id (fst loan), repaid) :: more, final)
      else ([], extra)
  end.

(** A repayment entry as the allocator writes it for this call. *)
Definition autoRepaymentShape (memberId accountId date : string) (t : Transaction) : Prop :=
  t_transaction_type t = LOAN_REPAYMENT
  /\ t_fund_type t = PRINCIPAL
  /\ t_accountId t = accountId
  /\ t_date t = date
  /\ t_memberId t = Some memberId.

(** The member record with its carried credit replaced by [credit]. *)
Definition withCredit (memberId : string) (credit : Q) (m : Member) : Member :=
  if String.eqb (m_id m) memberId
  then mkMember (m_id m) (m_name m) (m_active m) credit
  else m.

(** The loan is the member's and not paid as of the working date. *)
Definition owedBy (s : Store) (memberId : string) (l : Loan) : bool :=
  String.eqb (l_memberId l) memberId
  && negb (LoanStatus_eqb (status (getLoanDetails s l)) PAID).

(** The entry's amount is at most the balance that the loan it references
    has in [s] as of the working date. *)
Definition withinBalance (s : Store) (t : Transaction) : Prop :=
  exists loan, In loan (loans s)
               /\ t_related_loan_id t = Some (l_id loan)
               /\ t_amount t <= balance (getLoanDetails s loan).

Definition isDirectRepayment (op : Mutation) : bool :=
  match op with
  | AddRepayment _ _ _ _ _ _ => true
  | _ => false
  end.

(** An account's balance in one fund pool. *)
Definition inPool (fundType : FundType) (b : AccountBalance) : Q :=
  match fundType with
  | PRINCIPAL => principal b
  | INTEREST => interest b
  end.

(** ** Tests deciding the notions above *)


(** ** Example ledgers *)

Section ExampleLedgers.
Local Open Scope string_scope.

Definition demoIds (n : nat) : string :=
  match n with
  | O => "t0"
  | S O => "t1"
  | _ => "t2"
  end.

(** One member without credit, one account, nothing recorded yet. *)
Definition ledgerA : Store :=
  mkStore [mkMember "m1" "Ann" true 0] [mkAccount "acc" "Cash" CASH true None]
          [] [] "2024-03-10".

Definition loanL1 : Loan :=
  mkLoan "L1" "m1" 1000 10 "2024-02-01" "2024-03-02T00:00:00.000Z".

(** The member has reached the cap on 2024-03-10 and owes 300 on [loanL1]. *)
Definition ledgerD : Store :=
  mkStore [mkMember "m1" "Ann" true 0] [mkAccount "acc" "Cash" CASH true None]
          [mkTransaction "c1" "2024-03-10" (Some "m1") "acc" PRINCIPAL CONTRIBUTION
                         1000 None "Daily Share";
           mkTransaction "r1" "2024-03-01" (Some "m1") "acc" PRINCIPAL LOAN_REPAYMENT
                         800 (Some "L1") "Direct repayment"]
          [loanL1] "2024-03-10".

(** [loanL1] without any repayment, seen the day after it fell due. *)
Definition ledgerE : Store :=
  mkStore [mkMember "m1" "Ann" true 0] [mkAccount "acc" "Cash" CASH true None]
          [] [loanL1] "2024-03-03".

(** Two accounts: [acc] holds 500, [old] has been emptied by a transfer. *)
Definition ledgerT : Store :=
  mkStore [] [mkAccount "acc" "Cash" CASH true None; mkAccount "old" "Box" CASH true None]
          [mkTransaction "o1" "2024-03-01" None "old" PRINCIPAL OPENING_BALANCE
                         500 None "Opening Balance";
           mkTransaction "x1" "2024-03-02" None "old" PRINCIPAL TRANSFER
                         (- 500) None "Transfer to Cash: close box";
           mkTransaction "x2" "2024-03-02" None "acc" PRINCIPAL TRANSFER
                         500 None "Transfer from Box: close box"]
          [] "2024-03-10".


End ExampleLedgers.

(** * Further notions: allocation, the offline backend *)

Definition countsFor (s : Store) (accountId : string) (fundType : FundType)
    (t : Transaction) : bool :=
  String.eqb (t_accountId t) accountId
  && String.leb (t_date t) (workingDate s)
  && FundType_eqb (t_fund_type t) fundType.

Definition loanGranted (ret : Returned) : Prop :=
  ret = RetNull \/ ret = RetMessage DatabaseError.

Definition outstandingLoans (s : Store) (memberId : string) : list Loan :=
  filter (owedBy s memberId) (loans s).

Definition singleOutstandingLoan (s : Store) : Prop :=
  forall memberId, (List.length (outstandingLoans s memberId) <= 1)%nat.

(** The test [getLoanDetails] applies to an entry when it adds up what was
    paid on [loan]. *)
Definition paidOn (s : Store) (loan : Loan) (t : Transaction) : bool :=
  optEq (t_related_loan_id t) (l_id loan)
  && TransactionType_eqb (t_transaction_type t) LOAN_REPAYMENT
  && isBeforeOrOnWorkingDate s (t_date t).

(** ** The offline backend ([createMockClient])

    The mock client keeps each table as a JSON array under its own key of
    the browser's local storage.  A row is a JSON object; [Storage] gives for
    each table name the rows that [getTable] reads (none when the key is
    absent or does not parse).  Rows are JSON data, so writing and reading
    them back is the identity.  [setTable] can fail (the storage is full);
    the failure is swallowed, which [writeOk] models. *)

Module Mock.

#[warnings="-register-all"] Inductive Json :=
| JNull
| JBool (b : bool)
| JNum (q : Q)
| JStr (s : string)
| JArr (items : list Json)
| JObj (fields : list (string * Json)).

Definition Row := list (string * Json).

(** [item[col]]; [None] is [undefined]. *)
Fixpoint field (item : Row) (col : string) : option Json :=
  match item with
  | [] => None
  | (k, v) :: rest => if String.eqb k col then Some v else field rest col
  end.

(** [x === y] where [x] was read from a parsed row: arrays and objects are
    fresh references and equal to nothing. *)
Definition strictEq (x y : option Json) : bool :=
  match x, y with
  | None, None => true
  | Some JNull, Some JNull => true
  | Some (JBool a), Some (JBool b) => Bool.eqb a b
  | Some (JNum a), Some (JNum b) => Qeq_bool a b
  | Some (JStr a), Some (JStr b) => String.eqb a b
  | _, _ => false
  end.

(** Assigning a property: an existing key keeps its place. *)
Fixpoint setField (item : Row) (k : string) (v : Json) : Row :=
  match item with
  | [] => [(k, v)]
  | (k', v') :: rest =>
      if String.eqb k' k then (k', v) :: rest else (k', v') :: setField rest k v
  end.

(** [{ ...item, ...updates }] *)
Definition spread (item updates : Row) : Row :=
  fold_left (fun acc kv => setField acc (fst kv) (snd kv)) updates item.

Definition Storage := string -> list Row.

Definition getTable (st : Storage) (table : string) : list Row := st table.

Definition setTable (writeOk : bool) (st : Storage) (table : string) (data : list Row)
  : Storage :=
  if writeOk then fun t => if String.eqb t table then data else st t else st.

(** What a call resolves to: [{ data, error: null }]. *)
Record Response := mkResponse {
  data : option (list Row);
  error : option string
}.

Section Order.
(** The platform's [<] on two property values. *)
Variable lessThan : option Json -> option Json -> bool.

(** The comparator of [order(column, { ascending })]. *)
Definition orderCompare (column : string) (ascending : bool) (a b : Row) : option Z :=
  if lessThan (field a column) (field b column)
  then Some (if ascending then (-1)%Z else 1%Z)
  else if lessThan (field b column) (field a column)
  then Some (if ascending then 1%Z else (-1)%Z)
  else Some 0%Z.

(** [from(table).select()] awaited, after an optional [.order(...)]. *)
Definition select (st : Storage) (table : string) (order : option (string * bool))
  : Response :=
  let currentData := getTable st table in
  let sorted :=
    match order with
    | Some (column, ascending) => Array_sort (orderCompare column ascending) currentData
    | None => currentData
    end in
  mkResponse (Some sorted) None.
End Order.

Inductive RowOrRows :=
| OneRow (row : Row)
| ManyRows (rows : list Row).

Definition insert (writeOk : bool) (st : Storage) (table : string) (rowOrRows : RowOrRows)
  : Response * Storage :=
  let rows := match rowOrRows with
              | ManyRows l => l
              | OneRow r => [r]
              end in
  let current := getTable st table in
  let newData := current ++ rows in
  (mkResponse (Some rows) None, setTable writeOk st table newData).

Definition update_eq (writeOk : bool) (st : Storage) (table : string) (updates : Row)
    (col : string) (val : option Json) : Response * Storage :=
  let current := getTable st table in
  let newData :=
    map (fun item => if strictEq (field item col) val then spread item updates else item)
        current in
  (mkResponse (Some [updates]) None, setTable writeOk st table newData).

Definition delete_eq (writeOk : bool) (st : Storage) (table : string)
    (col : string) (val : option Json) : Response * Storage :=
  let current := getTable st table in
  let newData := filter (fun item => negb (strictEq (field item col) val)) current in
  (mkResponse None None, setTable writeOk st table newData).

Definition delete_neq (writeOk : bool) (st : Storage) (table : string)
    (col : string) (val : option Json) : Response * Storage :=
  let current := getTable st table in
  let newData := filter (fun item => strictEq (field item col) val) current in
  (mkResponse None None, setTable writeOk st table newData).

(** The string a row holds in a column (empty when it holds none). *)
Definition columnString (column : string) (row : Row) : string :=
  match field row column with
  | Some (JStr str) => str
  | _ => EmptyString
  end.

Definition holdsString (column : string) (row : Row) : Prop :=
  exists str, field row column = Some (JStr str).

End Mock.

(** ** The store on the offline backend

    What each operation of the store sends to the backend, run against the
    mock client.  In offline mode no call returns an error, so the inputs
    [lError] and [dbError] of the operations are [false]. *)

Module Offline.
Import Mock.
Local Open Scope string_scope.

Definition AccountType_name (t : AccountType) : string :=
  match t with
  | CASH => "CASH"
  | MOBILE => "MOBILE"
  | BANK => "BANK"
  | MEMBER => "MEMBER"
  end.

Definition FundType_name (f : FundType) : string :=
  match f with
  | PRINCIPAL => "PRINCIPAL"
  | INTEREST => "INTEREST"
  end.

Definition TransactionType_name (k : TransactionType) : string :=
  match k with
  | CONTRIBUTION => "CONTRIBUTION"
  | LOAN_GIVEN => "LOAN_GIVEN"
  | LOAN_REPAYMENT => "LOAN_REPAYMENT"
  | EXPENSE => "EXPENSE"
  | TRANSFER => "TRANSFER"
  | OPENING_BALANCE => "OPENING_BALANCE"
  end.

(** A property that is written only when the value is there. *)
Definition whenPresent (k : string) (v : option string) : Row :=
  match v with
  | Some x => [(k, JStr x)]
  | None => []
  end.

(** [{ id, name, active: true, advance_credit }] *)
Definition memberRow (m : Member) : Row :=
  [("id", JStr (m_id m)); ("name", JStr (m_name m)); ("active", JBool (m_active m));
   ("advance_credit", JNum (m_advance_credit m))].

(** [{ id, account_name, type, active, member_id: memberId || null }] *)
Definition accountRow (a : Account) : Row :=
  [("id", JStr (a_id a)); ("account_name", JStr (a_account_name a));
   ("type", JStr (AccountType_name (a_type a))); ("active", JBool (a_active a));
   ("member_id", match a_memberId a with
                 | Some m => if String.eqb m "" then JNull else JStr m
                 | None => JNull
                 end)].

(** [{ id, member_id, amount_given, interest_rate, date_given, due_date }] *)
Definition loanRow (l : Loan) : Row :=
  [("id", JStr (l_id l)); ("member_id", JStr (l_memberId l));
   ("amount_given", JNum (l_amount_given l)); ("interest_rate", JNum (l_interest_rate l));
   ("date_given", JStr (l_date_given l)); ("due_date", JStr (l_due_date l))].

(** The [tData], [transDB], [trans1] and [trans2] objects: [member_id] and
    [related_loan_id] are there only in the operations that have them. *)
Definition transactionRow (t : Transaction) : Row :=
  ([("id", JStr (t_id t)); ("date", JStr (t_date t))]
   ++ whenPresent "member_id" (t_memberId t)
   ++ [("account_id", JStr (t_accountId t));
       ("fund_type", JStr (FundType_name (t_fund_type t)));
       ("transaction_type", JStr (TransactionType_name (t_transaction_type t)));
       ("amount", JNum (t_amount t))]
   ++ whenPresent "related_loan_id" (t_related_loan_id t)
   ++ [("notes", JStr (t_notes t))])%list.

(** A [Partial<Member>] as the object passed to [update]. *)
Definition updatesRow (u : MemberUpdates) : Row :=
  (whenPresent "id" (u_id u) ++ whenPresent "name" (u_name u)
   ++ match u_active u with Some b => [("active", JBool b)] | None => [] end
   ++ match u_advance_credit u with Some q => [("advance_credit", JNum q)] | None => [] end)%list.

Definition zeroId : string := "00000000-0000-0000-0000-000000000000".

(** The entries and the credit the allocator computes for a registered
    member: [localNewTransactions] and [updatedAdvanceCredit]. *)
Definition contributionBatch (uuidv4 : nat -> string) (s : Store) (member : Member)
    (memberId : string) (amount : Q) (accountId date notes : string)
  : list Transaction * Q :=
  let remainingShareCapacity :=
    Qmax 0 (DAILY_SHARE_CAP - existingContributionAmountOnDate s memberId date) in
  let totalPool := (amount + m_advance_credit member)%Q in
  let share := Qmin remainingShareCapacity totalPool in
  let extra := (totalPool - share)%Q in
  let shareEntries :=
    if Qgtb share 0
    then [contributionEntry (uuidv4 O) date memberId accountId share notes]
    else [] in
  let '(repayments, updatedAdvanceCredit) :=
    if Qgtb extra 0
    then autoRepay uuidv4 memberId accountId date (unpaidLoans s memberId)
                   extra (List.length shareEntries)
    else ([], 0%Q) in
  ((shareEntries ++ repayments)%list, updatedAdvanceCredit).

(** The backend calls of each operation, on the store it was called on. *)
Definition persist (op : Mutation) (s : Store) (st : Storage) : Storage :=
  match op with
  | AddMember id name startingCredit =>
      snd (insert true st "members" (OneRow (memberRow (mkMember id name true startingCredit))))
  | UpdateMember id updates =>
      snd (update_eq true st "members" (updatesRow updates) "id" (Some (JStr id)))
  | AddAccount id name type memberId =>
      snd (insert true st "accounts" (OneRow (accountRow (mkAccount id name type true memberId))))
  | DeleteAccount id =>
      let accTrans := filter (fun t => String.eqb (t_accountId t) id) (transactions s) in
      let totalBalance := sumAmounts accTrans in
      if Qgtb (Qabs totalBalance) (1 # 100) then st
      else snd (delete_eq true st "accounts" "id" (Some (JStr id)))
  | AddContribution uuidv4 memberId amount accountId date notes =>
      match find (fun m => String.eqb (m_id m) memberId) (members s) with
      | None => st
      | Some member =>
          let '(newTransactions, updatedAdvanceCredit) :=
            contributionBatch uuidv4 s member memberId amount accountId date notes in
          let st1 := snd (update_eq true st "members"
                            (updatesRow (advanceCreditOnly updatedAdvanceCredit))
                            "id" (Some (JStr memberId))) in
          match newTransactions with
          | [] => st1
          | _ => snd (insert true st1 "transactions"
                        (ManyRows (map transactionRow newTransactions)))
          end
      end
  | AddLoan loanId transId lError memberId amount accountId date interestRate =>
      if Qltb (total (getAccountBalance s accountId)) amount then st
      else if existsb (fun l => negb (LoanStatus_eqb (status (getLoanDetails s l)) PAID))
                      (filter (fun l => String.eqb (l_memberId l) memberId) (loans s))
      then st
      else
        match JsDate.parse date with
        | None => st
        | Some t =>
            let loanDB :=
              loanRow (mkLoan loanId memberId amount interestRate date
                              (JsDate.toISOString (JsDate.addDays 30 t))) in
            let transDB :=
              transactionRow
                (mkTransaction transId date (Some memberId) accountId PRINCIPAL
                               LOAN_GIVEN (- amount) None "Loan given to member") in
            let st1 := snd (insert true st "loans" (OneRow loanDB)) in
            snd (insert true st1 "transactions" (OneRow transDB))
        end
  | AddRepayment tId loanId amount accountId date notes =>
      match find (fun l => String.eqb (l_id l) loanId) (loans s) with
      | None => st
      | Some loan =>
          snd (insert true st "transactions"
                 (OneRow (transactionRow
                            (mkTransaction tId date (Some (l_memberId loan)) accountId
                                           PRINCIPAL LOAN_REPAYMENT amount (Some loanId)
                                           (orDefault notes "Direct repayment")))))
      end
  | AddExpense tId amount accountId date notes =>
      if Qltb (availableInterest s) amount then st
      else snd (insert true st "transactions"
                  (OneRow (transactionRow
                             (mkTransaction tId date None accountId INTEREST EXPENSE
                                            (- amount) None notes))))
  | AddTransfer t1Id t2Id fromAccountId toAccountId amount fundType date notes =>
      snd (insert true st "transactions"
             (ManyRows
                [transactionRow
                   (mkTransaction t1Id date None fromAccountId fundType TRANSFER (- amount) None
                      ("Transfer to " ++ accountNameOf s toAccountId ++ ": " ++ notes));
                 transactionRow
                   (mkTransaction t2Id date None toAccountId fundType TRANSFER amount None
                      ("Transfer from " ++ accountNameOf s fromAccountId ++ ": " ++ notes))]))
  | AddOpeningBalance tId accountId amount fundType date notes =>
      snd (insert true st "transactions"
             (OneRow (transactionRow
                        (mkTransaction tId date None accountId fundType OPENING_BALANCE amount
                                       None (orDefault notes "Opening Balance")))))
  | DeleteTransaction dbError id =>
      snd (delete_eq true st "transactions" "id" (Some (JStr id)))
  | SetWorkingDate date => st
  | ResetData =>
      let wipe := fun table st => snd (delete_neq true st table "id" (Some (JStr zeroId))) in
      wipe "members" (wipe "accounts" (wipe "loans" (wipe "transactions"
        (wipe "ai_chat_history" st))))
  end.

(** The tables hold the rows of what the store holds in memory. *)
Definition mirrors (s : Store) (st : Storage) : Prop :=
  getTable st "members" = map memberRow (members s)
  /\ getTable st "accounts" = map accountRow (accounts s)
  /\ getTable st "loans" = map loanRow (loans s)
  /\ getTable st "transactions" = map transactionRow (transactions s).

(** The verdicts the operations get in offline mode: never an error. *)
Definition offlineInputs (op : Mutation) : bool :=
  match op with
  | AddLoan _ _ lError _ _ _ _ _ => negb lError
  | DeleteTransaction dbError _ => negb dbError
  | _ => true
  end.

(** No record carries the identifier that [resetData] spares. *)
Definition noZeroId (s : Store) : Prop :=
  (forall m, In m (members s) -> m_id m <> zeroId)
  /\ (forall a, In a (accounts s) -> a_id a <> zeroId)
  /\ (forall l, In l (loans s) -> l_id l <> zeroId)
  /\ (forall t, In t (transactions s) -> t_id t <> zeroId).

End Offline.

(** ** More example data *)

Section MoreExamples.
Local Open Scope string_scope.

(** [ledgerT] after a loan of 300 to [m1] from [acc] on 2024-03-05. *)
Definition ledgerT_lent : Store :=
  match addLoan "L9" "g9" false ledgerT "m1" 300 "acc" "2024-03-05" 10 with
  | Normal r => snd r
  | ThrowRangeError => ledgerT
  end.

(** [<] on two strings; nothing else is compared in the examples. *)
Definition stringsLessThan (x y : option Mock.Json) : bool :=
  match x, y with
  | Some (Mock.JStr a), Some (Mock.JStr b) => String.ltb a b
  | _, _ => false
  end.

(** Two members, stored out of alphabetical order. *)
Definition twoMembers : Mock.Storage :=
  fun table =>
    if String.eqb table "members"
    then [Offline.memberRow (mkMember "m2" "Zoe" true 0);
          Offline.memberRow (mkMember "m1" "Ann" true 0)]
    else [].

End MoreExamples.

(** ** Loading the store from the backend ([fetchData])

    [fetchData] reads the four tables and turns each row into the record of
    [types.ts]: the properties are taken as they are, [member_id],
    [account_id] and [related_loan_id] are copied to the names the store
    uses.  A row is read here by the properties its interface declares; a
    row that lacks one of them or holds a value of another type is outside
    the model ([None]).  A [member_id] or [related_loan_id] that is absent
    or [null] never equals an identifier and is read as absent. *)

Module Reload.
Import Mock Offline.
Local Open Scope string_scope.

Definition readAccountType (v : option Json) : option AccountType :=
  match v with
  | Some (JStr name) =>
      if String.eqb name "CASH" then Some CASH
      else if String.eqb name "MOBILE" then Some MOBILE
      else if String.eqb name "BANK" then Some BANK
      else if String.eqb name "MEMBER" then Some MEMBER
      else None
  | _ => None
  end.

Definition readFundType (v : option Json) : option FundType :=
  match v with
  | Some (JStr name) =>
      if String.eqb name "PRINCIPAL" then Some PRINCIPAL
      else if String.eqb name "INTEREST" then Some INTEREST
      else None
  | _ => None
  end.

Definition readTransactionType (v : option Json) : option TransactionType :=
  match v with
  | Some (JStr name) =>
      if String.eqb name "CONTRIBUTION" then Some CONTRIBUTION
      else if String.eqb name "LOAN_GIVEN" then Some LOAN_GIVEN
      else if String.eqb name "LOAN_REPAYMENT" then Some LOAN_REPAYMENT
      else if String.eqb name "EXPENSE" then Some EXPENSE
      else if String.eqb name "TRANSFER" then Some TRANSFER
      else if String.eqb name "OPENING_BALANCE" then Some OPENING_BALANCE
      else None
  | _ => None
  end.

(** An optional reference: absent or [null] is no reference. *)
Definition readReference (v : option Json) : option (option string) :=
  match v with
  | None | Some JNull => Some None
  | Some (JStr id) => Some (Some id)
  | _ => None
  end.

Definition readMember (row : Row) : option Member :=
  match field row "id", field row "name", field row "active", field row "advance_credit" with
  | Some (JStr id), Some (JStr name), Some (JBool active), Some (JNum credit) =>
      Some (mkMember id name active credit)
  | _, _, _, _ => None
  end.

(** [{ ...a, memberId: a.member_id }] *)
Definition readAccount (row : Row) : option Account :=
  match field row "id", field row "account_name", readAccountType (field row "type"),
        field row "active", readReference (field row "member_id") with
  | Some (JStr id), Some (JStr name), Some type, Some (JBool active), Some memberId =>
      Some (mkAccount id name type active memberId)
  | _, _, _, _, _ => None
  end.

(** [{ ...l, memberId: l.member_id }] *)
Definition readLoan (row : Row) : option Loan :=
  match field row "id", field row "member_id", field row "amount_given",
        field row "interest_rate", field row "date_given", field row "due_date" with
  | Some (JStr id), Some (JStr memberId), Some (JNum amount), Some (JNum rate),
    Some (JStr given), Some (JStr due) =>
      Some (mkLoan id memberId amount rate given due)
  | _, _, _, _, _, _ => None
  end.

(** [{ ...t, memberId: t.member_id, accountId: t.account_id,
       related_loan_id: t.related_loan_id }] *)
Definition readTransaction (row : Row) : option Transaction :=
  match field row "id", field row "date", readReference (field row "member_id"),
        field row "account_id", readFundType (field row "fund_type"),
        readTransactionType (field row "transaction_type"), field row "amount",
        readReference (field row "related_loan_id"), field row "notes" with
  | Some (JStr id), Some (JStr date), Some memberId, Some (JStr accountId), Some fund,
    Some kind, Some (JNum amount), Some loanId, Some (JStr notes) =>
      Some (mkTransaction id date memberId accountId fund kind amount loanId notes)
  | _, _, _, _, _, _, _, _, _ => None
  end.

(** [rows.map(read)], when every row can be read. *)
Fixpoint readAll {A : Type} (read : Row -> option A) (rows : list Row) : option (list A) :=
  match rows with
  | [] => Some []
  | row :: rest =>
      match read row, readAll read rest with
      | Some x, Some xs => Some (x :: xs)
      | _, _ => None
      end
  end.

(** The accounts created when the backend has none. *)
Definition defaultAccounts (uuidv4 : nat -> string) : list Account :=
  [mkAccount (uuidv4 0%nat) "Cash" CASH true None;
   mkAccount (uuidv4 1%nat) "Airtel Money" MOBILE true None;
   mkAccount (uuidv4 2%nat) "Mpamba" MOBILE true None;
   mkAccount (uuidv4 3%nat) "Bank" BANK true None].

(** [{ id, account_name, type, active }]: the default accounts are stored
    without a [member_id]. *)
Definition defaultAccountRow (a : Account) : Row :=
  [("id", JStr (a_id a)); ("account_name", JStr (a_account_name a));
   ("type", JStr (AccountType_name (a_type a))); ("active", JBool (a_active a))].

Section FetchData.
Variable lessThan : option Json -> option Json -> bool.

(** [const { data } = await supabase.from(table).select('*')], each row
    read; no [data] leaves what the store holds. *)
Definition fetched {A : Type} (read : Row -> option A) (st : Storage) (table : string)
    (held : list A) : option (list A) :=
  match data (select lessThan st table None) with
  | Some rows => readAll read rows
  | None => Some held
  end.

(** [fetchData] on the mock client, whose calls return no error: the store
    and the tables after the reload.  The chat history and the
    notifications are not part of [Store]. *)
Definition fetchData (uuidv4 : nat -> string) (writeOk : bool) (s : Store) (st : Storage)
  : option (Store * Storage) :=
  match fetched readMember st "members" (members s),
        fetched readAccount st "accounts" (accounts s),
        fetched readLoan st "loans" (loans s),
        fetched readTransaction st "transactions" (transactions s) with
  | Some membersData, Some accountsData, Some loansData, Some transData =>
      let '(newAccounts, st') :=
        match data (select lessThan st "accounts" None) with
        | Some [] =>
            (defaultAccounts uuidv4,
             snd (insert writeOk st "accounts"
                    (ManyRows (map defaultAccountRow (defaultAccounts uuidv4)))))
        | _ => (accountsData, st)
        end in
      Some (mkStore membersData newAccounts transData loansData (workingDate s), st')
  | _, _, _, _ => None
  end.
End FetchData.

(** Reading the four tables gives what the store holds. *)
Definition readsBack (s : Store) (st : Storage) : Prop :=
  readAll readMember (getTable st "members") = Some (members s)
  /\ readAll readAccount (getTable st "accounts") = Some (accounts s)
  /\ readAll readLoan (getTable st "loans") = Some (loans s)
  /\ readAll readTransaction (getTable st "transactions") = Some (transactions s).

(** [memberId || null] keeps the link: the account is not linked to the
    empty identifier. *)
Definition keepsLink (op : Mutation) : bool :=
  match op with
  | AddAccount _ _ _ (Some memberId) => negb (String.eqb memberId "")
  | _ => true
  end.

End Reload.

Section ReloadExamples.
Local Open Scope string_scope.

(** A store that holds nothing yet, and the empty local storage. *)
Definition ledgerNew : Store := mkStore [] [] [] [] "2024-03-10".

Definition emptyStorage : Mock.Storage := fun _ => [].

(** The store and the tables after the first start on an empty local
    storage. *)
Definition ledgerStarted : Store :=
  setAccounts (fun _ => Reload.defaultAccounts demoIds) ledgerNew.

Definition storageStarted : Mock.Storage :=
  snd (Mock.insert true emptyStorage "accounts"
         (Mock.ManyRows (map Reload.defaultAccountRow (Reload.defaultAccounts demoIds)))).

End ReloadExamples.

(** * The store over binary64 numbers

    A JavaScript [number] is an IEEE 754 binary64 value: [float], with the
    operations of [PrimFloat] (round to nearest, ties to even; NaN compares
    false with everything; [-0] equals [+0]).  This part restates the views
    and operations whose result depends on the arithmetic with the numbers
    and the operations the source has, each sum added in the order of
    [reduce].  What the host decides for [Date] (the reading of a string
    that is not an ISO calendar date, and the local time zone) is the record
    [Engine]. *)

Module Double.
Local Open Scope float_scope.

(** [Math.max(a, b)] and [Math.min(a, b)]: NaN if either is, and [-0] is
    below [+0]. *)
Definition Math_max (a b : float) : float :=
  if is_nan a || is_nan b then nan
  else if a <? b then b
  else if b <? a then a
  else if get_sign a then b else a.

Definition Math_min (a b : float) : float :=
  if is_nan a || is_nan b then nan
  else if a <? b then a
  else if b <? a then b
  else if get_sign a then a else b.

Record Member := mkMember {
  m_id : string;
  m_name : string;
  m_active : bool;
  m_advance_credit : float
}.

Record Transaction := mkTransaction {
  t_id : string;
  t_date : string;
  t_memberId : option string;
  t_accountId : string;
  t_fund_type : FundType;
  t_transaction_type : TransactionType;
  t_amount : float;
  t_related_loan_id : option string;
  t_notes : string
}.

Record Loan := mkLoan {
  l_id : string;
  l_memberId : string;
  l_amount_given : float;
  l_interest_rate : float;
  l_date_given : string;
  l_due_date : string
}.

Record Store := mkStore {
  members : list Member;
  accounts : list Account;
  transactions : list Transaction;
  loans : list Loan;
  workingDate : string
}.

Definition setMembers (f : list Member -> list Member) (s : Store) : Store :=
  mkStore (f (members s)) (accounts s) (transactions s) (loans s) (workingDate s).
Definition setAccounts (f : list Account -> list Account) (s : Store) : Store :=
  mkStore (members s) (f (accounts s)) (transactions s) (loans s) (workingDate s).
Definition setTransactions (f : list Transaction -> list Transaction) (s : Store) : Store :=
  mkStore (members s) (accounts s) (f (transactions s)) (loans s) (workingDate s).
Definition setLoans (f : list Loan -> list Loan) (s : Store) : Store :=
  mkStore (members s) (accounts s) (transactions s) (f (loans s)) (workingDate s).
Definition setWorkingDate (date : string) (s : Store) : Store :=
  mkStore (members s) (accounts s) (transactions s) (loans s) date.

(** [.reduce((sum, t) => sum + t.amount, 0)] *)
Definition sumAmounts (l : list Transaction) : float :=
  fold_left (fun sum t => sum + t_amount t) l 0.

Definition isBeforeOrOnWorkingDate (s : Store) (dateStr : string) : bool :=
  String.leb dateStr (workingDate s).

Record AccountBalance := mkAccountBalance {
  principal : float;
  interest : float;
  total : float
}.

Definition getAccountBalance (s : Store) (accountId : string) : AccountBalance :=
  let accTrans :=
    filter (fun t => String.eqb (t_accountId t) accountId
                     && isBeforeOrOnWorkingDate s (t_date t)) (transactions s) in
  let principal :=
    sumAmounts (filter (fun t => FundType_eqb (t_fund_type t) PRINCIPAL) accTrans) in
  let interest :=
    sumAmounts (filter (fun t => FundType_eqb (t_fund_type t) INTEREST) accTrans) in
  mkAccountBalance principal interest (principal + interest).

Record LoanDetails := mkLoanDetails {
  interestAmount : float;
  totalDue : float;
  amountPaid : float;
  balance : float;
  status : LoanStatus
}.

Definition getLoanDetails (s : Store) (loan : Loan) : LoanDetails :=
  let interestAmount := l_amount_given loan * (l_interest_rate loan / 100) in
  let totalDue := l_amount_given loan + interestAmount in
  let amountPaid :=
    sumAmounts
      (filter (fun t => optEq (t_related_loan_id t) (l_id loan)
                        && TransactionType_eqb (t_transaction_type t) LOAN_REPAYMENT
                        && isBeforeOrOnWorkingDate s (t_date t))
              (transactions s)) in
  let balance := totalDue - amountPaid in
  let status :=
    if balance <=? 0 then PAID
    else if String.ltb (l_due_date loan) (workingDate s) then OVERDUE
    else UNPAID in
  mkLoanDetails interestAmount totalDue amountPaid balance status.

(** ** [Date] on a host

    [Date.parse] reads an ISO calendar date [YYYY-MM-DD] of an existing day
    as midnight UTC of that day on every host ([JsDate.parse]); what it
    makes of any other string is left to the host ([legacyParse]; [None] is
    NaN).  [LocalTZA t isUTC] is the offset of local time in milliseconds at
    the time value [t], read as UTC or as local time. *)
Record Engine := mkEngine {
  legacyParse : string -> option Z;
  LocalTZA : Z -> bool -> Z
}.

Definition Date_parse (host : Engine) (str : string) : option Z :=
  match JsDate.parse str with
  | Some t => Some t
  | None => legacyParse host str
  end.

(** [new Date(str).getTime()] *)
Definition getTime (host : Engine) (str : string) : option Z := Date_parse host str.

Definition TimeClip (time : Z) : option Z :=
  if (Z.abs time <=? 8640000000000000)%Z then Some time else None.

Definition LocalTime (host : Engine) (t : Z) : Z := (t + LocalTZA host t true)%Z.

Definition UTC (host : Engine) (t : Z) : Z := (t - LocalTZA host t false)%Z.

(** [d.getDate()]: the day of the month in local time. *)
Definition getDate (host : Engine) (t : Z) : Z :=
  let '(_, _, date) := JsDate.civilFromDay (LocalTime host t / JsDate.msPerDay) in
  date.

(** [d.setDate(dt)]: the local day of the month is replaced and the local
    time of day kept; the result is the new time value. *)
Definition setDate (host : Engine) (t : Z) (dt : Z) : option Z :=
  let localTime := LocalTime host t in
  let '(year, month, _) := JsDate.civilFromDay (localTime / JsDate.msPerDay) in
  let newDate :=
    (JsDate.MakeDay year month dt * JsDate.msPerDay + localTime mod JsDate.msPerDay)%Z in
  TimeClip (UTC host newDate).

(** ** Member statistics *)

Record MemberStats := mkMemberStats {
  totalContributed : float;
  activeLoans : nat;
  totalLoanBalance : float;
  lastContributionDate : option string;
  fundsHeld : float
}.

(** [(a, b) => new Date(b.date).getTime() - new Date(a.date).getTime()] *)
Definition newestFirst (host : Engine) (a b : Transaction) : option Z :=
  timeDiff (getTime host (t_date b)) (getTime host (t_date a)).

(** The loans the statistics look at: the member's, given on or before the
    working date. *)
Definition memberLoans (s : Store) (memberId : string) : list Loan :=
  filter (fun l => String.eqb (l_memberId l) memberId
                   && isBeforeOrOnWorkingDate s (l_date_given l)) (loans s).

(** The body of [memberLoans.forEach]: the accumulator is the pair
    [(activeLoans, totalLoanBalance)]. *)
Definition countLoan (s : Store) (acc : nat * float) (l : Loan) : nat * float :=
  let details := getLoanDetails s l in
  if negb (LoanStatus_eqb (status details) PAID)
  then (S (fst acc), snd acc + balance details)
  else acc.

Definition getMemberStats (host : Engine) (s : Store) (memberId : string) : MemberStats :=
  let memberTransactions :=
    filter (fun t => optEq (t_memberId t) memberId
                     && isBeforeOrOnWorkingDate s (t_date t)) (transactions s) in
  let totalContributed :=
    sumAmounts (filter (fun t => TransactionType_eqb (t_transaction_type t) CONTRIBUTION)
                       memberTransactions) in
  let contributions :=
    Array_sort (newestFirst host)
      (filter (fun t => TransactionType_eqb (t_transaction_type t) CONTRIBUTION)
              memberTransactions) in
  let lastContributionDate :=
    match contributions with
    | c :: _ => Some (t_date c)
    | [] => None
    end in
  let '(activeLoans, totalLoanBalance) :=
    fold_left (countLoan s) (memberLoans s memberId) (O, 0) in
  let memberAccounts :=
    filter (fun a => optEq (a_memberId a) memberId && AccountType_eqb (a_type a) MEMBER)
           (accounts s) in
  let fundsHeld :=
    fold_left (fun held acc => held + total (getAccountBalance s (a_id acc)))
              memberAccounts 0 in
  mkMemberStats totalContributed activeLoans totalLoanBalance lastContributionDate fundsHeld.

(** ** The ledger facade *)

Inductive Message :=
| MemberNotFound
| InsufficientFunds
| OutstandingLoan
| DatabaseError
| InsufficientInterestFunds (availableInterest : float)
| CannotDeleteAccount (totalBalance : float).

Inductive Returned :=
| RetNull
| RetUndefined
| RetMessage (msg : Message).

Definition isFailure (r : Returned) : bool :=
  match r with
  | RetMessage _ => true
  | _ => false
  end.

(** [updateMember(memberId, { advance_credit })] *)
Definition updateAdvanceCredit (s : Store) (id : string) (credit : float) : Store :=
  setMembers
    (map (fun m => if String.eqb (m_id m) id
                   then mkMember (m_id m) (m_name m) (m_active m) credit
                   else m)) s.

Definition deleteAccount (s : Store) (id : string) : Returned * Store :=
  let accTrans := filter (fun t => String.eqb (t_accountId t) id) (transactions s) in
  let totalBalance := sumAmounts accTrans in
  if 0.01 <? abs totalBalance
  then (RetMessage (CannotDeleteAccount totalBalance), s)
  else (RetNull, setAccounts (filter (fun a => negb (String.eqb (a_id a) id))) s).

Definition existingContributionAmountOnDate (s : Store) (memberId date : string) : float :=
  sumAmounts
    (filter (fun t => optEq (t_memberId t) memberId
                      && String.eqb (t_date t) date
                      && TransactionType_eqb (t_transaction_type t) CONTRIBUTION)
            (transactions s)).

(** [(a, b) => new Date(a.date_given).getTime() - new Date(b.date_given).getTime()] *)
Definition oldestFirst (host : Engine) (a b : Loan * LoanDetails) : option Z :=
  timeDiff (getTime host (l_date_given (fst a))) (getTime host (l_date_given (fst b))).

Definition unpaidLoans (host : Engine) (s : Store) (memberId : string)
  : list (Loan * LoanDetails) :=
  Array_sort (oldestFirst host)
    (filter (fun l => negb (LoanStatus_eqb (status (snd l)) PAID))
       (map (fun l => (l, getLoanDetails s l))
          (filter (fun l => String.eqb (l_memberId l) memberId) (loans s)))).

Definition repaymentEntry (tId date memberId accountId : string) (repaymentAmount : float)
    (loan : Loan) : Transaction :=
  mkTransaction tId date (Some memberId) accountId PRINCIPAL LOAN_REPAYMENT
                repaymentAmount (Some (l_id loan))
                "Auto-repayment from extra contribution".

(** The [for (const loan of unpaidLoans)] loop; [drawn] counts the
    identifiers drawn so far. *)
Fixpoint autoRepay (uuidv4 : nat -> string) (memberId accountId date : string)
    (unpaid : list (Loan * LoanDetails)) (remainingExtra : float) (drawn : nat)
  : list Transaction * float :=
  match unpaid with
  | [] => ([], remainingExtra)
  | loan :: rest =>
      if remainingExtra <=? 0 then ([], remainingExtra)
      else
        let repaymentAmount := Math_min remainingExtra (balance (snd loan)) in
        if 0 <? repaymentAmount then
          let tData := repaymentEntry (uuidv4 drawn) date memberId accountId
                                      repaymentAmount (fst loan) in
          let '(pushed, leftOver) :=
            autoRepay uuidv4 memberId accountId date rest
                      (remainingExtra - repaymentAmount) (S drawn) in
          (tData :: pushed, leftOver)
        else autoRepay uuidv4 memberId accountId date rest remainingExtra drawn
  end.

Definition contributionEntry (tId date memberId accountId : string) (share : float)
    (notes : string) : Transaction :=
  mkTransaction tId date (Some memberId) accountId PRINCIPAL CONTRIBUTION
                share None (orDefault notes "Daily Share").

Definition addContribution (host : Engine) (uuidv4 : nat -> string) (s : Store)
    (memberId : string) (amount : float) (accountId date notes : string)
  : Returned * Store :=
  match find (fun m => String.eqb (m_id m) memberId) (members s) with
  | None => (RetMessage MemberNotFound, s)
  | Some member =>
      let existing := existingContributionAmountOnDate s memberId date in
      let remainingShareCapacity := Math_max 0 (1000 - existing) in
      let totalPool := amount + m_advance_credit member in
      let share := Math_min remainingShareCapacity totalPool in
      let extra := totalPool - share in
      let shareEntries :=
        if 0 <? share
        then [contributionEntry (uuidv4 O) date memberId accountId share notes]
        else [] in
      let '(repayments, updatedAdvanceCredit) :=
        if 0 <? extra
        then autoRepay uuidv4 memberId accountId date (unpaidLoans host s memberId)
                       extra (List.length shareEntries)
        else ([], 0) in
      let localNewTransactions := shareEntries ++ repayments in
      (RetNull,
       updateAdvanceCredit (setTransactions (fun prev => prev ++ localNewTransactions) s)
                           memberId updatedAdvanceCredit)
  end.

(** [lError] tells whether the backend refused the loan record. *)
Definition addLoan (host : Engine) (loanId transId : string) (lError : bool) (s : Store)
    (memberId : string) (amount : float) (accountId date : string) (interestRate : float)
  : Completion (Returned * Store) :=
  let balance := getAccountBalance s accountId in
  if total balance <? amount then Normal (RetMessage InsufficientFunds, s)
  else
    let memberLoans := filter (fun l => String.eqb (l_memberId l) memberId) (loans s) in
    let hasActiveLoan :=
      existsb (fun l => negb (LoanStatus_eqb (status (getLoanDetails s l)) PAID))
              memberLoans in
    if hasActiveLoan then Normal (RetMessage OutstandingLoan, s)
    else
      match Date_parse host date with
      | None => ThrowRangeError
      | Some t =>
          match setDate host t (getDate host t + 30) with
          | None => ThrowRangeError
          | Some dueDate =>
              let loan := mkLoan loanId memberId amount interestRate date
                                 (JsDate.toISOString dueDate) in
              let entry := mkTransaction transId date (Some memberId) accountId PRINCIPAL
                                         LOAN_GIVEN (- amount) None "Loan given to member" in
              let s' := setTransactions (fun prev => prev ++ [entry])
                          (setLoans (fun prev => prev ++ [loan]) s) in
              Normal (if lError then RetMessage DatabaseError else RetNull, s')
          end
      end.

Definition addRepayment (tId : string) (s : Store) (loanId : string) (amount : float)
    (accountId date notes : string) : Returned * Store :=
  match find (fun l => String.eqb (l_id l) loanId) (loans s) with
  | None => (RetUndefined, s)
  | Some loan =>
      let entry := mkTransaction tId date (Some (l_memberId loan)) accountId PRINCIPAL
                                 LOAN_REPAYMENT amount (Some loanId)
                                 (orDefault notes "Direct repayment") in
      (RetUndefined, setTransactions (fun prev => prev ++ [entry]) s)
  end.

Definition allInterestIncoming (s : Store) : float :=
  sumAmounts
    (filter (fun t => FundType_eqb (t_fund_type t) INTEREST
                      && (0 <? t_amount t)
                      && isBeforeOrOnWorkingDate s (t_date t)) (transactions s)).

Definition allInterestOutgoing (s : Store) : float :=
  sumAmounts
    (filter (fun t => TransactionType_eqb (t_transaction_type t) EXPENSE
                      && FundType_eqb (t_fund_type t) INTEREST
                      && isBeforeOrOnWorkingDate s (t_date t)) (transactions s)).

Definition availableInterest (s : Store) : float :=
  allInterestIncoming s - allInterestOutgoing s.

Definition addExpense (tId : string) (s : Store) (amount : float)
    (accountId date notes : string) : Returned * Store :=
  if availableInterest s <? amount
  then (RetMessage (InsufficientInterestFunds (availableInterest s)), s)
  else
    let entry := mkTransaction tId date None accountId INTEREST EXPENSE
                               (- amount) None notes in
    (RetNull, setTransactions (fun prev => prev ++ [entry]) s).

(** ** Notions the properties of the binary64 store are stated with *)

(** The sum of numbers added one after the other, starting from 0: no
    number adds up to 0, and the numbers up to a last one add up to what
    those before it add up to, plus the last. *)
Fixpoint sumUpTo (latestFirst : list float) : float :=
  match latestFirst with
  | [] => 0
  | last :: before => sumUpTo before + last
  end.

Definition sumInOrder (numbers : list float) : float := sumUpTo (rev numbers).

Definition amounts (l : list Transaction) : list float := map t_amount l.

Definition contributedOn (memberId date : string) (t : Transaction) : Prop :=
  t_memberId t = Some memberId
  /\ t_transaction_type t = CONTRIBUTION
  /\ t_date t = date.


Definition countsTowards (s : Store) (loan : Loan) (t : Transaction) : Prop :=
  t_transaction_type t = LOAN_REPAYMENT
  /\ t_related_loan_id t = Some (l_id loan)
  /\ String.leb (t_date t) (workingDate s) = true.

(** Tests deciding the notions above. *)
Definition contributedOnb (memberId date : string) (t : Transaction) : bool :=
  optEq (t_memberId t) memberId
  && TransactionType_eqb (t_transaction_type t) CONTRIBUTION
  && String.eqb (t_date t) date.

Definition countsTowardsb (s : Store) (loan : Loan) (t : Transaction) : bool :=
  TransactionType_eqb (t_transaction_type t) LOAN_REPAYMENT
  && optEq (t_related_loan_id t) (l_id loan)
  && String.leb (t_date t) (workingDate s).



Definition onAccountb (id : string) (t : Transaction) : bool :=
  String.eqb (t_accountId t) id.

(** The share the allocator books for [member], as the source computes it. *)
Definition allocatedShare (s : Store) (member : Member) (memberId : string)
    (amount : float) (date : string) : float :=
  Math_min (Math_max 0 (1000 - existingContributionAmountOnDate s memberId date))
           (amount + m_advance_credit member).

(** The waterfall as the specification words it: for each loan in order,
    while [extra > 0], repay [min(extra, balance)] against that loan and
    decrement [extra] by it.  The result lists the loan identifier and amount
    of each repayment, and the [extra] left at the end. *)
Fixpoint waterfall (queue : list (Loan * LoanDetails)) (extra : float)
  : list (string * float) * float :=
  match queue with
  | [] => ([], extra)
  | loan :: rest =>
      if 0 <? extra then
        let repaid := Math_min extra (balance (snd loan)) in
        let '(more, final) := waterfall rest (extra - repaid) in
        ((l_id (fst loan), repaid) :: more, final)
      else ([], extra)
  end.

(** What a repayment entry says about the waterfall: the loan and the amount. *)
Definition repaymentView (t : Transaction) : option string * float :=
  (t_related_loan_id t, t_amount t).

(** A repayment entry as the allocator writes it for this call. *)
Definition autoRepaymentShape (memberId accountId date : string) (t : Transaction) : Prop :=
  t_transaction_type t = LOAN_REPAYMENT
  /\ t_fund_type t = PRINCIPAL
  /\ t_accountId t = accountId
  /\ t_date t = date
  /\ t_memberId t = Some memberId.

(** The member record with its carried credit replaced by [credit]. *)
Definition withCredit (memberId : string) (credit : float) (m : Member) : Member :=
  if String.eqb (m_id m) memberId
  then mkMember (m_id m) (m_name m) (m_active m) credit
  else m.

(** The loan is the member's and not paid as of the working date. *)
Definition owedBy (s : Store) (memberId : string) (l : Loan) : bool :=
  String.eqb (l_memberId l) memberId
  && negb (LoanStatus_eqb (status (getLoanDetails s l)) PAID).

(** The string is an existing day of the calendar written [YYYY-MM-DD]. *)
Definition calendarDate (str : string) : Prop :=
  exists t, JsDate.parse str = Some t.

(** [a] was issued no later than [b]: calendar dates written [YYYY-MM-DD]
    are in the order of their strings. *)
Definition issuedNoLaterThan (a b : Loan) : Prop :=
  String.leb (l_date_given a) (l_date_given b) = true.

(** A contribution of the member that is in the log and dated on or before
    the working date. *)
Definition visibleContribution (s : Store) (memberId : string) (t : Transaction) : Prop :=
  In t (transactions s)
  /\ t_memberId t = Some memberId
  /\ String.leb (t_date t) (workingDate s) = true
  /\ t_transaction_type t = CONTRIBUTION.

(** The day number of a calendar date (0 for any other string). *)
Definition dayOf (str : string) : Z :=
  match JsDate.parse str with
  | Some t => t
  | None => 0%Z
  end.


End Double.

(** ** Example hosts and ledgers of the binary64 store *)

Module DoubleExamples.
Import Double.
Local Open Scope string_scope.
Local Open Scope list_scope.
Local Open Scope float_scope.

(** A host two hours ahead of UTC all year, which reads ISO calendar dates
    only. *)
Definition malawi : Engine := mkEngine (fun _ => None) (fun _ _ => 7200000%Z).


Definition cash : Account := mkAccount "acc" "Cash" CASH true None.

Definition contribution (id date : string) (amount : float) : Transaction :=
  mkTransaction id date (Some "m1") "acc" PRINCIPAL CONTRIBUTION amount None "Daily Share".

Definition repayment (id date loanId : string) (amount : float) : Transaction :=
  mkTransaction id date (Some "m1") "acc" PRINCIPAL LOAN_REPAYMENT amount (Some loanId)
                "Direct repayment".



Definition loanTen : Loan :=
  mkLoan "L1" "m1" 100 10 "2024-02-01" "2024-03-02T00:00:00.000Z".

Definition loanSeven : Loan :=
  mkLoan "L7" "m1" 100 7 "2024-02-01" "2024-03-02T00:00:00.000Z".

(** Three repayments of [loanTen] up to the working date and one after it,
    and a repayment of [loanSeven]. *)
Definition threeRepayments : Store :=
  mkStore [mkMember "m1" "Ann" true 0] [cash]
    [repayment "r1" "2024-02-10" "L1" 55.89; repayment "r2" "2024-02-20" "L1" 46.62;
     repayment "r0" "2024-02-25" "L7" 5;
     repayment "r3" "2024-03-01" "L1" 7.49; repayment "r4" "2024-03-20" "L1" 1]
    [loanTen; loanSeven] "2024-03-10".


(** [old] holds 0.07 less 0.06, [box] has been emptied after the working
    date. *)
Definition threeBoxes : Store :=
  mkStore [] [cash; mkAccount "old" "Old" CASH true None; mkAccount "box" "Box" CASH true None]
    [mkTransaction "o1" "2024-03-01" None "old" PRINCIPAL OPENING_BALANCE 0.07 None
                   "Opening Balance";
     mkTransaction "x1" "2024-03-02" None "old" PRINCIPAL TRANSFER (-0.06) None
                   "Transfer to Cash: ";
     mkTransaction "x2" "2024-03-02" None "acc" PRINCIPAL TRANSFER 0.06 None
                   "Transfer from Old: ";
     mkTransaction "o2" "2024-03-01" None "box" PRINCIPAL OPENING_BALANCE 500 None
                   "Opening Balance";
     mkTransaction "x3" "2024-03-20" None "box" PRINCIPAL TRANSFER (-500) None
                   "Transfer to Cash: ";
     mkTransaction "x4" "2024-03-20" None "acc" PRINCIPAL TRANSFER 500 None
                   "Transfer from Box: "]
    [] "2024-03-10".

Definition loanRepaid : Loan :=
  mkLoan "L0" "m1" 200 10 "2023-12-01" "2023-12-31T00:00:00.000Z".
Definition loanFirst : Loan :=
  mkLoan "L1" "m1" 300 10 "2024-01-15" "2024-02-14T00:00:00.000Z".
Definition loanSecond : Loan :=
  mkLoan "L2" "m1" 500 10 "2024-02-20" "2024-03-21T00:00:00.000Z".
Definition loanOfBen : Loan :=
  mkLoan "L3" "m2" 400 10 "2024-01-01" "2024-01-31T00:00:00.000Z".

(** Ann carries a credit of 25, has contributed 600 today, has repaid
    [loanRepaid] and owes on [loanFirst] and on [loanSecond], which comes first in the
    list of loans; [loanOfBen] is Ben's. *)
Definition twoLoansOwed : Store :=
  mkStore [mkMember "m1" "Ann" true 25; mkMember "m2" "Ben" true 10] [cash]
    [repayment "r0" "2023-12-20" "L0" 220;
     repayment "r1" "2024-02-01" "L1" 100.55;
     contribution "c1" "2024-03-10" 600]
    [loanSecond; loanOfBen; loanRepaid; loanFirst] "2024-03-10".

(** The account receives 500 four days after the working date. *)
Definition fundedLater : Store :=
  mkStore [mkMember "m1" "Ann" true 0] [cash]
    [mkTransaction "o1" "2024-03-05" None "acc" PRINCIPAL OPENING_BALANCE 500 None
                   "Opening Balance"]
    [] "2024-03-01".

Definition loanOdd : Loan :=
  mkLoan "L1" "m1" 1457.86 10 "2024-02-01" "2024-03-02T00:00:00.000Z".

(** Ann has reached the cap today and has repaid 255.76, 290.54 and 25.63
    on [loanOdd]; the account holds 5000 more. *)
Definition oddBalance : Store :=
  mkStore [mkMember "m1" "Ann" true 0] [cash]
    [repayment "r1" "2024-02-10" "L1" 255.76; repayment "r2" "2024-02-20" "L1" 290.54;
     repayment "r3" "2024-03-01" "L1" 25.63;
     contribution "c1" "2024-03-10" 1000;
     mkTransaction "o1" "2024-03-01" None "acc" PRINCIPAL OPENING_BALANCE 5000 None
                   "Opening Balance"]
    [loanOdd] "2024-03-10".

(** Interest of 0.09, a transfer of 0.26 out of the principal, interest of
    0.18. *)
Definition mixedPools : Store :=
  mkStore [] [cash]
    [mkTransaction "i1" "2024-03-01" None "acc" INTEREST OPENING_BALANCE 0.09 None
                   "Opening Balance";
     mkTransaction "p1" "2024-03-02" None "acc" PRINCIPAL TRANSFER (-0.26) None
                   "Transfer to Box: ";
     mkTransaction "i2" "2024-03-03" None "acc" INTEREST OPENING_BALANCE 0.18 None
                   "Opening Balance"]
    [] "2024-03-10".

(** Contributions of [m1] on 5, 9 and 7 March, in that order in the log, one
    after the working date, and one of another member. *)
Definition threeDays : Store :=
  mkStore [mkMember "m1" "Ann" true 0; mkMember "m2" "Ben" true 0] [cash]
    [contribution "c1" "2024-03-05" 200; contribution "c2" "2024-03-09" 300;
     contribution "c3" "2024-03-07" 100; contribution "c4" "2024-03-12" 100;
     mkTransaction "c5" "2024-03-10" (Some "m2") "acc" PRINCIPAL CONTRIBUTION 100 None
                   "Daily Share"]
    [] "2024-03-10".

(** A host that reads any string that is not a calendar date as the
    beginning of 1970. *)
Definition lenient : Engine := mkEngine (fun _ => Some 0%Z) (fun _ _ => 0%Z).

End DoubleExamples.

(** * Properties *)

(** ** Comparisons and sums *)

Lemma Qltb_lt (a b : Q) : Qltb a b = true <-> a < b.
Proof.
  unfold Qltb. rewrite negb_true_iff, <- not_true_iff_false, Qle_bool_iff.
  split; [apply Qnot_le_lt | apply Qlt_not_le].
Qed.

Lemma Qltb_ge (a b : Q) : Qltb a b = false <-> b <= a.
Proof.
  unfold Qltb. rewrite negb_false_iff. apply Qle_bool_iff.
Qed.

Lemma Qgtb_gt (a b : Q) : Qgtb a b = true <-> b < a.
Proof. apply Qltb_lt. Qed.

Lemma Qle_bool_false (a b : Q) : Qle_bool a b = false <-> b < a.
Proof.
  rewrite <- not_true_iff_false, Qle_bool_iff.
  split; [apply Qnot_le_lt | apply Qlt_not_le].
Qed.

Lemma TransactionType_eqb_eq (a b : TransactionType) :
  TransactionType_eqb a b = true <-> a = b.
Proof. destruct a, b; simpl; split; congruence. Qed.


Lemma LoanStatus_eqb_eq (a b : LoanStatus) : LoanStatus_eqb a b = true <-> a = b.
Proof. destruct a, b; simpl; split; congruence. Qed.

Lemma LoanStatus_neqb (a b : LoanStatus) :
  negb (LoanStatus_eqb a b) = true <-> a <> b.
Proof.
  rewrite negb_true_iff, <- not_true_iff_false, LoanStatus_eqb_eq. tauto.
Qed.

Lemma optEq_eq (x : option string) (v : string) : optEq x v = true <-> x = Some v.
Proof.
  destruct x as [u|]; simpl.
  - rewrite String.eqb_eq. split; congruence.
  - split; discriminate.
Qed.

(** Two boolean tests that accept the same elements select the same sublist. *)
Lemma filter_agree {A : Type} (f g : A -> bool) (l : list A) :
  (forall x, f x = true <-> g x = true) -> filter f l = filter g l.
Proof.
  intros H. apply filter_ext. intros x.
  specialize (H x). destruct (f x), (g x); intuition congruence.
Qed.


Lemma sum_from (l : list Transaction) (a : Q) :
  fold_left (fun sum t => sum + t_amount t) l a == a + sumAmounts l.
Proof.
  unfold sumAmounts. revert a.
  induction l as [|t l IH]; intros a; simpl.
  - ring.
  - rewrite (IH (a + t_amount t)), (IH (0 + t_amount t)). ring.
Qed.

Lemma sumAmounts_cons (t : Transaction) (l : list Transaction) :
  sumAmounts (t :: l) == t_amount t + sumAmounts l.
Proof.
  unfold sumAmounts at 1. simpl. rewrite sum_from. ring.
Qed.

Lemma sumAmounts_app (l l' : list Transaction) :
  sumAmounts (l ++ l') == sumAmounts l + sumAmounts l'.
Proof.
  induction l as [|t l IH]; simpl.
  - unfold sumAmounts at 2. simpl. ring.
  - rewrite !sumAmounts_cons, IH. ring.
Qed.

(** ** Sorting *)

Section ArraySortFacts.
Context {A : Type}.
Variable comparefn : A -> A -> option Z.

Lemma insertSorted_perm (x : A) (l : list A) :
  Permutation (insertSorted comparefn x l) (x :: l).
Proof.
  induction l as [|y l IH]; simpl.
  - apply Permutation_refl.
  - destruct (sortsAfter comparefn x y).
    + eapply Permutation_trans; [apply perm_skip, IH | apply perm_swap].
    + apply Permutation_refl.
Qed.

Lemma Array_sort_perm (l : list A) : Permutation (Array_sort comparefn l) l.
Proof.
  induction l as [|x l IH]; simpl.
  - apply perm_nil.
  - eapply Permutation_trans; [apply insertSorted_perm | apply perm_skip, IH].
Qed.

(** When the comparator is the difference of a key on the elements at
    hand, the result is in ascending key order. *)
Variable key : A -> Z.
Variable valid : A -> Prop.
Hypothesis comparefn_key :
  forall x y, valid x -> valid y -> comparefn x y = Some (key x - key y)%Z.

Lemma insertSorted_sorted (x : A) (l : list A) :
  valid x -> Forall valid l ->
  StronglySorted (fun a b => (key a <= key b)%Z) l ->
  StronglySorted (fun a b => (key a <= key b)%Z) (insertSorted comparefn x l).
Proof.
  intros Hx Hl Hs. induction Hs as [|y l Hs IH Hy]; simpl.
  - constructor; [constructor | constructor].
  - inversion Hl as [|? ? Hvy Hvl]; subst.
    unfold sortsAfter. rewrite (comparefn_key x y Hx Hvy).
    destruct (0 <? key x - key y)%Z eqn:E.
    + apply Z.ltb_lt in E. constructor; [apply IH, Hvl|].
      eapply Permutation_Forall;
        [apply Permutation_sym, insertSorted_perm|].
      constructor; [lia | exact Hy].
    + apply Z.ltb_ge in E. constructor; [constructor; assumption|].
      constructor; [lia|].
      eapply Forall_impl; [|exact Hy]. simpl. intros a Ha. lia.
Qed.

Lemma Array_sort_sorted (l : list A) :
  Forall valid l ->
  StronglySorted (fun a b => (key a <= key b)%Z) (Array_sort comparefn l).
Proof.
  induction 1 as [|x l Hx Hl IH]; simpl.
  - constructor.
  - apply insertSorted_sorted; [exact Hx | | exact IH].
    eapply Permutation_Forall; [apply Permutation_sym, Array_sort_perm | exact Hl].
Qed.
End ArraySortFacts.

(** ** The contribution allocator *)

Section AutoRepay.
Variable uuidv4 : nat -> string.
Variables memberId accountId date : string.


(** Each repayment pushed is positive and at most the balance the loan
    had when the queue was built. *)
Lemma autoRepay_bounded (queue : list (Loan * LoanDetails)) (extra : Q) (drawn : nat) :
  Forall (fun t => exists loan, In loan queue
                     /\ t_related_loan_id t = Some (l_id (fst loan))
                     /\ 0 < t_amount t
                     /\ t_amount t <= balance (snd loan))
         (fst (autoRepay uuidv4 memberId accountId date queue extra drawn)).
Proof.
  revert extra drawn.
  induction queue as [|loan rest IH]; intros extra drawn; simpl.
  - constructor.
  - destruct (Qle_bool extra 0); [constructor|].
    destruct (Qgtb (Qmin extra (balance (snd loan))) 0) eqn:Epos.
    + specialize (IH (extra - Qmin extra (balance (snd loan))) (S drawn)).
      destruct (autoRepay _ _ _ _ rest _ _) as [pushed leftOver]. simpl in *.
      constructor.
      * exists loan. simpl. repeat split; auto.
        -- apply Qgtb_gt in Epos. exact Epos.
        -- apply Q.le_min_r.
      * eapply Forall_impl; [|exact IH].
        intros t (l & Hin & Hrest). exists l. split; [right; exact Hin | exact Hrest].
    + eapply Forall_impl; [|apply IH].
      intros t (l & Hin & Hrest). exists l. split; [right; exact Hin | exact Hrest].
Qed.

End AutoRepay.

(** *** The queue of unpaid loans *)

Lemma unpaid_filter_map (s : Store) (memberId : string) (l : list Loan) :
  filter (fun p : Loan * LoanDetails => negb (LoanStatus_eqb (status (snd p)) PAID))
    (map (fun l => (l, getLoanDetails s l))
       (filter (fun l => String.eqb (l_memberId l) memberId) l))
  = map (fun l => (l, getLoanDetails s l)) (filter (owedBy s memberId) l).
Proof.
  induction l as [|x l IH]; [reflexivity|].
  cbn [filter]. unfold owedBy at 1.
  destruct (String.eqb (l_memberId x) memberId); cbn [andb map filter snd]; [|exact IH].
  destruct (negb (LoanStatus_eqb (status (getLoanDetails s x)) PAID));
    cbn [map]; [f_equal|]; exact IH.
Qed.

Lemma unpaidLoans_perm (s : Store) (memberId : string) :
  Permutation (unpaidLoans s memberId)
    (map (fun l => (l, getLoanDetails s l)) (filter (owedBy s memberId) (loans s))).
Proof.
  unfold unpaidLoans. rewrite unpaid_filter_map. apply Array_sort_perm.
Qed.

Lemma owedBy_spec (s : Store) (memberId : string) (l : Loan) :
  owedBy s memberId l = true
  <-> l_memberId l = memberId /\ status (getLoanDetails s l) <> PAID.
Proof.
  unfold owedBy. rewrite andb_true_iff, String.eqb_eq, LoanStatus_neqb. tauto.
Qed.

Lemma unpaidLoans_Forall (s : Store) (memberId : string) :
  Forall (fun p => In (fst p) (loans s)
                   /\ l_memberId (fst p) = memberId
                   /\ snd p = getLoanDetails s (fst p)
                   /\ status (snd p) <> PAID)
         (unpaidLoans s memberId).
Proof.
  eapply Permutation_Forall; [apply Permutation_sym, unpaidLoans_perm|].
  apply Forall_forall. intros p Hp.
  apply in_map_iff in Hp. destruct Hp as (l & <- & Hl).
  apply filter_In in Hl. destruct Hl as [Hin Howed].
  apply owedBy_spec in Howed. simpl. tauto.
Qed.

Lemma StronglySorted_weaken {A : Type} (R R' : A -> A -> Prop) (P : A -> Prop)
    (l : list A) :
  (forall a b, P a -> P b -> R a b -> R' a b) ->
  Forall P l -> StronglySorted R l -> StronglySorted R' l.
Proof.
  intros HR HP Hs. induction Hs as [|x l Hs IH Hx]; [constructor|].
  inversion HP as [|? ? Px Pl]; subst.
  constructor; [apply IH, Pl|].
  rewrite Forall_forall in *. intros y Hy. apply HR; auto.
Qed.

(** *** The allocator's effect on the store *)

Lemma addContribution_found (uuidv4 : nat -> string) (s : Store) (memberId : string)
    (amount : Q) (accountId date notes : string) (member : Member) :
  find (fun m => String.eqb (m_id m) memberId) (members s) = Some member ->
  let share := allocatedShare s member memberId amount date in
  let extra := amount + m_advance_credit member - share in
  let shareEntries :=
    if Qgtb share 0
    then [contributionEntry (uuidv4 O) date memberId accountId share notes]
    else [] in
  let auto :=
    if Qgtb extra 0
    then autoRepay uuidv4 memberId accountId date (unpaidLoans s memberId) extra
                   (List.length shareEntries)
    else ([], 0) in
  addContribution uuidv4 s memberId amount accountId date notes
  = (RetNull,
     updateMember (setTransactions (fun prev => prev ++ shareEntries ++ fst auto) s)
                  memberId (advanceCreditOnly (snd auto))).
Proof.
  intros Hfind. unfold addContribution. rewrite Hfind. cbv zeta.
  fold (allocatedShare s member memberId amount date).
  destruct (if Qgtb (amount + m_advance_credit member
                     - allocatedShare s member memberId amount date) 0
            then _ else _) as [repayments credit].
  reflexivity.
Qed.

(** ** Repayments and the balance owed *)

Lemma appended_app (s s' : Store) (new : list Transaction) :
  transactions s' = transactions s ++ new -> appended s s' = new.
Proof.
  intros E. unfold appended. rewrite E, skipn_app, skipn_all, Nat.sub_diag.
  reflexivity.
Qed.

Lemma appended_same (s s' : Store) :
  transactions s' = transactions s -> appended s s' = [].
Proof.
  intros E. apply appended_app. rewrite E, app_nil_r. reflexivity.
Qed.

Lemma appended_filter (s s' : Store) (f : Transaction -> bool) :
  transactions s' = filter f (transactions s) -> appended s s' = [].
Proof.
  intros E. unfold appended. rewrite E. apply skipn_all2, filter_length_le.
Qed.

Lemma transactions_updateMember (s : Store) (id : string) (u : MemberUpdates) :
  transactions (updateMember s id u) = transactions s.
Proof. reflexivity. Qed.

(** C4, as the code has it.  Whatever mutation other than the direct
    repayment [addRepayment] is run, every LOAN_REPAYMENT entry it appends
    has an amount at most the balance of the loan it references, as the loan
    evaluator gives it on the store the operation started from. *)
Theorem repayments_within_balance (op : Mutation) (s : Store)
    (Hop : isDirectRepayment op = false) :
  Forall (fun t => t_transaction_type t = LOAN_REPAYMENT -> withinBalance s t)
         (appended s (run op s)).
Proof.
  destruct op; try discriminate Hop; cbn [run].
  - (* addMember *) rewrite appended_same; [constructor | reflexivity].
  - (* updateMember *) rewrite appended_same; [constructor | reflexivity].
  - (* addAccount *) rewrite appended_same; [constructor | reflexivity].
  - (* deleteAccount *)
    rewrite appended_same; [constructor|].
    unfold deleteAccount. destruct (Qgtb _ _); reflexivity.
  - (* addContribution *)
    destruct (find (fun m => String.eqb (m_id m) memberId) (members s)) as [member|] eqn:Hfind.
    + rewrite (addContribution_found uuidv4 s memberId amount accountId date notes
                 member Hfind).
      cbn [snd]. erewrite appended_app by (rewrite transactions_updateMember; reflexivity).
      apply Forall_app. split.
      * destruct (Qgtb _ 0); repeat constructor. discriminate.
      * destruct (Qgtb (amount + m_advance_credit member - _) 0); [|constructor].
        eapply Forall_impl; [|apply autoRepay_bounded].
        intros t (p & Hin & Hrel & _ & Hle) _.
        pose proof (unpaidLoans_Forall s memberId) as Hq.
        rewrite Forall_forall in Hq. destruct (Hq p Hin) as (Hl & _ & Hd & _).
        exists (fst p). rewrite <- Hd. auto.
    + unfold addContribution. rewrite Hfind.
      rewrite appended_same; [constructor | reflexivity].
  - (* addLoan *)
    unfold addLoan. destruct (Qltb _ amount).
    { rewrite appended_same; [constructor | reflexivity]. }
    destruct (existsb _ _).
    { rewrite appended_same; [constructor | reflexivity]. }
    destruct (JsDate.parse date).
    + cbn [snd]. erewrite appended_app by reflexivity.
      repeat constructor. discriminate.
    + rewrite appended_same; [constructor | reflexivity].
  - (* addExpense *)
    unfold addExpense. destruct (Qltb _ amount).
    + rewrite appended_same; [constructor | reflexivity].
    + cbn [snd]. erewrite appended_app by reflexivity.
      repeat constructor. discriminate.
  - (* addTransfer *)
    unfold addTransfer. cbn [snd]. erewrite appended_app by reflexivity.
    repeat constructor; discriminate.
  - (* addOpeningBalance *)
    unfold addOpeningBalance. cbn [snd]. erewrite appended_app by reflexivity.
    repeat constructor. discriminate.
  - (* deleteTransaction *)
    unfold deleteTransaction. destruct dbError.
    + rewrite appended_same; [constructor | reflexivity].
    + erewrite appended_filter by reflexivity. constructor.
  - (* setWorkingDate *) rewrite appended_same; [constructor | reflexivity].
  - (* resetData *)
    unfold appended. cbn. rewrite skipn_nil. constructor.
Qed.

(** C4 as stated fails on [addRepayment]: a direct repayment of 5000 on a
    loan whose balance is 1100 is appended as it is. *)
Lemma addRepayment_exceeds_balance :
  ~ Forall (fun t => t_transaction_type t = LOAN_REPAYMENT -> withinBalance ledgerE t)
           (appended ledgerE
              (run (AddRepayment "r9" "L1" 5000 "acc" "2024-03-03" "") ledgerE)).
Proof.
  intros H. inversion H as [|t l Ht _]; subst.
  destruct (Ht eq_refl) as (loan & Hin & _ & Hle).
  destruct Hin as [<-|[]].
  vm_compute in Hle. apply Hle. reflexivity.
Qed.

(** ** Calendar dates

    The day arithmetic of [JsDate] is consistent: a day number splits into
    a year, month and day of the month that [MakeDay] puts together again,
    and a calendar date written by [toISOString] reads back with [parse]. *)

Module JsDateFacts.
Import JsDate.
Local Open Scope Z_scope.

Lemma DayFromYear_step (y : Z) :
  DayFromYear (y + 1) - DayFromYear y = if InLeapYear y then 366 else 365.
Proof.
  unfold DayFromYear, InLeapYear.
  destruct (y mod 4 =? 0) eqn:E4; destruct (y mod 100 =? 0) eqn:E100;
    destruct (y mod 400 =? 0) eqn:E400; cbn [andb orb negb];
    rewrite ?Z.eqb_eq, ?Z.eqb_neq in *;
    Z.div_mod_to_equations; lia.
Qed.

Lemma YearFromDay_spec (day : Z) :
  DayFromYear (YearFromDay day) <= day < DayFromYear (YearFromDay day + 1).
Proof.
  unfold YearFromDay.
  set (y := 1970 + day * 400 / 146097).
  assert (Hlo : DayFromYear (y - 1) <= day).
  { subst y. unfold DayFromYear. Z.div_mod_to_equations. lia. }
  assert (Hhi : day < DayFromYear (y + 2)).
  { subst y. unfold DayFromYear. Z.div_mod_to_equations. lia. }
  destruct (DayFromYear (y + 1) <=? day) eqn:E1.
  - apply Z.leb_le in E1. replace (y + 1 + 1) with (y + 2) by lia. lia.
  - apply Z.leb_gt in E1. destruct (day <? DayFromYear y) eqn:E2.
    + apply Z.ltb_lt in E2. replace (y - 1 + 1) with y by lia. lia.
    + apply Z.ltb_ge in E2. lia.
Qed.

Lemma DayFromYear_mono (a b : Z) : a <= b -> DayFromYear a <= DayFromYear b.
Proof. unfold DayFromYear. intros H. Z.div_mod_to_equations. lia. Qed.

Lemma monthAndDate_spec (y r : Z) :
  0 <= r < (if InLeapYear y then 366 else 365) ->
  let md := monthAndDate (monthLengths y) 1 r in
  1 <= fst md <= 12
  /\ 1 <= snd md <= daysInMonth y (fst md)
  /\ daysBeforeMonth y (fst md) + (snd md - 1) = r.
Proof.
  unfold monthLengths, daysInMonth, daysBeforeMonth, monthLengths, sumZ.
  destruct (InLeapYear y); intros Hr; cbn [monthAndDate];
    repeat match goal with
           | |- context [if ?a <? ?b then _ else _] => destruct (Z.ltb_spec a b)
           end;
    cbn [fst snd];
    repeat match goal with
           | |- context [Z.to_nat ?e] =>
               let n := eval vm_compute in (Z.to_nat e) in
               change (Z.to_nat e) with n
           end;
    cbn [nth firstn fold_right]; lia.
Qed.

Lemma civilFromDay_spec (day : Z) :
  let '(y, m, d) := civilFromDay day in
  DayFromYear y <= day < DayFromYear (y + 1)
  /\ 1 <= m <= 12 /\ 1 <= d <= daysInMonth y m
  /\ MakeDay y m d = day.
Proof.
  unfold civilFromDay.
  pose proof (YearFromDay_spec day) as Hy.
  set (y := YearFromDay day) in *.
  pose proof (DayFromYear_step y) as Hstep.
  pose proof (monthAndDate_spec y (day - DayFromYear y)) as Hmd.
  destruct (monthAndDate (monthLengths y) 1 (day - DayFromYear y)) as [m d].
  cbn [fst snd] in Hmd.
  destruct Hmd as (Hm & Hd & Hsum); [destruct (InLeapYear y); lia|].
  unfold MakeDay. repeat split; lia.
Qed.

Lemma digitVal_digitChar (d : Z) : 0 <= d <= 9 -> digitVal (digitChar d) = Some d.
Proof.
  intros H.
  assert (C : d = 0 \/ d = 1 \/ d = 2 \/ d = 3 \/ d = 4 \/ d = 5 \/ d = 6 \/ d = 7
              \/ d = 8 \/ d = 9) by lia.
  repeat (destruct C as [->|C]; [reflexivity|]). subst d. reflexivity.
Qed.

Lemma digitVal_range (c : ascii) (n : Z) : digitVal c = Some n -> 0 <= n <= 9.
Proof.
  unfold digitVal.
  destruct ((48 <=? Z.of_nat (nat_of_ascii c)) && (Z.of_nat (nat_of_ascii c) <=? 57)) eqn:E;
    [|discriminate].
  intros Hn. assert (Hn' : n = Z.of_nat (nat_of_ascii c) - 48) by congruence.
  apply andb_true_iff in E. destruct E as [E1 E2].
  apply Z.leb_le in E1. apply Z.leb_le in E2. lia.
Qed.

Lemma digits2_range (a b : ascii) (n : Z) : digits2 a b = Some n -> 0 <= n <= 99.
Proof.
  unfold digits2.
  destruct (digitVal a) as [x|] eqn:Ea; [|discriminate].
  destruct (digitVal b) as [y|] eqn:Eb; [|discriminate].
  intros E. assert (Hn : n = 10 * x + y) by congruence.
  apply digitVal_range in Ea. apply digitVal_range in Eb. lia.
Qed.

Lemma digits4_range (a b c d : ascii) (n : Z) :
  digits4 a b c d = Some n -> 0 <= n <= 9999.
Proof.
  unfold digits4.
  destruct (digits2 a b) as [x|] eqn:Ea; [|discriminate].
  destruct (digits2 c d) as [y|] eqn:Eb; [|discriminate].
  intros E. assert (Hn : n = 100 * x + y) by congruence.
  apply digits2_range in Ea. apply digits2_range in Eb. lia.
Qed.

Lemma digits2_pad (n : Z) :
  0 <= n <= 99 ->
  exists a b, pad 2 n = String a (String b EmptyString) /\ digits2 a b = Some n.
Proof.
  intros H. exists (digitChar (n / 10 mod 10)), (digitChar (n mod 10)).
  split; [reflexivity|].
  unfold digits2.
  rewrite !digitVal_digitChar by (Z.div_mod_to_equations; lia).
  f_equal. Z.div_mod_to_equations. lia.
Qed.

Lemma digits4_pad (n : Z) :
  0 <= n <= 9999 ->
  exists a b c d,
    pad 4 n = String a (String b (String c (String d EmptyString)))
    /\ digits4 a b c d = Some n.
Proof.
  intros H.
  exists (digitChar (n / 10 / 10 / 10 mod 10)), (digitChar (n / 10 / 10 mod 10)),
         (digitChar (n / 10 mod 10)), (digitChar (n mod 10)).
  split; [reflexivity|].
  unfold digits4, digits2.
  rewrite !digitVal_digitChar by (Z.div_mod_to_equations; lia).
  f_equal. Z.div_mod_to_equations. lia.
Qed.

Lemma sumZ_firstn_nonneg (n : nat) (l : list Z) :
  Forall (fun x => 0 <= x) l -> 0 <= sumZ (firstn n l).
Proof.
  revert l. induction n as [|n IH]; intros l Hl; [cbn; lia|].
  destruct Hl as [|x l Hx Hl]; [cbn; lia|].
  specialize (IH l Hl). cbn [firstn]. unfold sumZ in *. cbn [fold_right]. lia.
Qed.

(** A string that parses denotes a day at or after the first day of year 0. *)
Lemma parse_spec (str : string) (t : Z) :
  parse str = Some t ->
  exists day, t = day * msPerDay /\ DayFromYear 0 <= day.
Proof.
  unfold parse.
  destruct str as [|y1 [|y2 [|y3 [|y4 [|sep1 [|m1 [|m2 [|sep2 [|d1 [|d2 [|]]]]]]]]]]];
    try discriminate.
  destruct (_ && _); [|discriminate].
  destruct (digits4 y1 y2 y3 y4) as [y|] eqn:Ey; [|discriminate].
  destruct (digits2 m1 m2) as [m|] eqn:Em; [|discriminate].
  destruct (digits2 d1 d2) as [d|] eqn:Ed; [|discriminate].
  destruct (_ && _) eqn:Evalid; [|discriminate].
  intros E. exists (MakeDay y m d). split; [congruence|].
  apply digits4_range in Ey.
  rewrite !andb_true_iff in Evalid. destruct Evalid as [[[_ _] Hd] _].
  apply Z.leb_le in Hd.
  pose proof (DayFromYear_mono 0 y ltac:(lia)) as Hmono.
  unfold MakeDay.
  assert (0 <= daysBeforeMonth y m).
  { unfold daysBeforeMonth, monthLengths. apply sumZ_firstn_nonneg.
    destruct (InLeapYear y); repeat constructor; lia. }
  lia.
Qed.

Lemma daysInMonth_le_31 (y m : Z) : daysInMonth y m <= 31.
Proof.
  unfold daysInMonth.
  destruct (nth_in_or_default (Z.to_nat (m - 1)) (monthLengths y) 0) as [Hin|E];
    [|rewrite E; lia].
  revert Hin. generalize (nth (Z.to_nat (m - 1)) (monthLengths y) 0). intros x.
  unfold monthLengths. destruct (InLeapYear y); cbn [In]; intuition lia.
Qed.

(** Midnight of a day of the years 0 to 9999 is written as its calendar
    date followed by the zero time of day, and the calendar date reads back
    as that day. *)
Lemma toISOString_midnight (day : Z) :
  DayFromYear 0 <= day < DayFromYear 10000 ->
  exists due,
    toISOString (day * msPerDay) = (due ++ "T00:00:00.000Z")%string
    /\ parse due = Some (day * msPerDay).
Proof.
  intros Hrange. unfold toISOString.
  rewrite Z.div_mul, Z.mod_mul by discriminate.
  pose proof (civilFromDay_spec day) as Hcivil.
  destruct (civilFromDay day) as [[y m] d].
  destruct Hcivil as (Hy & Hm & Hd & Hmake).
  assert (Hyear : 0 <= y <= 9999).
  { split.
    - destruct (Z_lt_le_dec y 0) as [Hneg|]; [|assumption].
      pose proof (DayFromYear_mono (y + 1) 0 ltac:(lia)). lia.
    - destruct (Z_lt_le_dec y 10000) as [|Hbig]; [lia|].
      pose proof (DayFromYear_mono 10000 y Hbig). lia. }
  pose proof (daysInMonth_le_31 y m) as H31.
  destruct (digits4_pad y Hyear) as (y1 & y2 & y3 & y4 & Hpy & Hdy).
  destruct (digits2_pad m ltac:(lia)) as (m1 & m2 & Hpm & Hdm).
  destruct (digits2_pad d ltac:(lia)) as (d1 & d2 & Hpd & Hdd).
  unfold yearString.
  replace ((0 <=? y) && (y <=? 9999)) with true
    by (symmetry; apply andb_true_iff; split; apply Z.leb_le; lia).
  rewrite Hpy, Hpm, Hpd.
  exists (String y1 (String y2 (String y3 (String y4 (String "-"
            (String m1 (String m2 (String "-" (String d1 (String d2 EmptyString)))))))))).
  split; [reflexivity|].
  unfold parse. cbn [Ascii.eqb Bool.eqb andb].
  rewrite Hdy, Hdm, Hdd.
  replace ((1 <=? m) && (m <=? 12) && (1 <=? d) && (d <=? daysInMonth y m)) with true
    by (symmetry; rewrite !andb_true_iff; repeat split; apply Z.leb_le; lia).
  rewrite Hmake. reflexivity.
Qed.

Example parse_epoch : parse "1970-01-01" = Some 0.
Proof. reflexivity. Qed.

Example parse_leap_day : parse "2024-02-29" = Some 1709164800000.
Proof. reflexivity. Qed.

Example parse_no_such_day : parse "2023-02-29" = None.
Proof. reflexivity. Qed.

Example toISOString_epoch : toISOString 0 = "1970-01-01T00:00:00.000Z"%string.
Proof. reflexivity. Qed.

Example toISOString_across_february :
  option_map (fun t => toISOString (addDays 30 t)) (parse "2024-02-10")
  = Some "2024-03-11T00:00:00.000Z"%string.
Proof. reflexivity. Qed.

Lemma dueDate_thirty_days_later (date : string) (t : Z) :
  parse date = Some t ->
  addDays 30 t < DayFromYear 10000 * msPerDay ->
  exists due,
    toISOString (addDays 30 t) = (due ++ "T00:00:00.000Z")%string
    /\ parse due = Some (t + 30 * msPerDay).
Proof.
  intros Hparse Hbound.
  destruct (parse_spec date t Hparse) as (day & -> & Hday).
  unfold addDays in *.
  replace (day * msPerDay + 30 * msPerDay) with ((day + 30) * msPerDay) in * by ring.
  apply toISOString_midnight. unfold msPerDay in Hbound. lia.
Qed.

End JsDateFacts.

(** ** Loan issuance *)

Lemma hasActiveLoan_spec (s : Store) (memberId : string) :
  existsb (fun l => negb (LoanStatus_eqb (status (getLoanDetails s l)) PAID))
          (filter (fun l => String.eqb (l_memberId l) memberId) (loans s)) = true
  <-> exists l, In l (loans s) /\ l_memberId l = memberId
                /\ status (getLoanDetails s l) <> PAID.
Proof.
  rewrite existsb_exists. split.
  - intros (l & Hin & Hst). apply filter_In in Hin. destruct Hin as [Hin Hm].
    apply String.eqb_eq in Hm. apply LoanStatus_neqb in Hst. eauto.
  - intros (l & Hin & Hm & Hst). exists l. split.
    + apply filter_In. split; [exact Hin | apply String.eqb_eq, Hm].
    + apply LoanStatus_neqb, Hst.
Qed.

(** ** Transfers *)

(** The balance after appending [new] is the balance before plus what the
    entries of [new] on that account, in that pool and visible at the
    working date add up to. *)
Lemma balance_after_append (s : Store) (new : list Transaction) (accountId : string)
    (fundType : FundType) :
  inPool fundType
    (getAccountBalance (setTransactions (fun prev => prev ++ new) s) accountId)
  == inPool fundType (getAccountBalance s accountId)
     + sumAmounts
         (filter (fun t => FundType_eqb (t_fund_type t) fundType)
            (filter (fun t => String.eqb (t_accountId t) accountId
                              && isBeforeOrOnWorkingDate s (t_date t)) new)).
Proof.
  unfold getAccountBalance.
  change (transactions (setTransactions (fun prev => prev ++ new) s))
    with (transactions s ++ new).
  change (isBeforeOrOnWorkingDate (setTransactions (fun prev => prev ++ new) s))
    with (isBeforeOrOnWorkingDate s).
  rewrite filter_app.
  destruct fundType; cbn [inPool principal interest];
    rewrite filter_app, sumAmounts_app; reflexivity.
Qed.

Lemma FundType_eqb_refl (f : FundType) : FundType_eqb f f = true.
Proof. destruct f; reflexivity. Qed.

(** C7, as the code has it.  [addTransfer] appends exactly two TRANSFER
    entries, -amount on the source account and +amount on the destination
    account, with the same fund pool and date, so that their amounts sum to
    zero.  When the date of the transfer is on or before the working date
    and the two accounts differ, the source account's balance in that pool
    changes by -amount and the destination's by +amount. *)
Theorem addTransfer_spec (t1Id t2Id : string) (s : Store)
    (fromAccountId toAccountId : string) (amount : Q) (fundType : FundType)
    (date notes : string) :
  let s' := snd (addTransfer t1Id t2Id s fromAccountId toAccountId amount fundType
                             date notes) in
  exists out inc,
    transactions s' = transactions s ++ [out; inc]
    /\ (t_transaction_type out = TRANSFER /\ t_accountId out = fromAccountId
        /\ t_amount out = - amount /\ t_fund_type out = fundType /\ t_date out = date)
    /\ (t_transaction_type inc = TRANSFER /\ t_accountId inc = toAccountId
        /\ t_amount inc = amount /\ t_fund_type inc = fundType /\ t_date inc = date)
    /\ t_amount out + t_amount inc == 0
    /\ (String.leb date (workingDate s) = true -> fromAccountId <> toAccountId ->
        inPool fundType (getAccountBalance s' fromAccountId)
        == inPool fundType (getAccountBalance s fromAccountId) - amount
        /\ inPool fundType (getAccountBalance s' toAccountId)
           == inPool fundType (getAccountBalance s toAccountId) + amount).
Proof.
  intros s'. subst s'. unfold addTransfer. cbn [snd].
  eexists. eexists. split; [reflexivity|].
  split; [repeat split|]. split; [repeat split|].
  cbn [t_amount]. split; [ring|].
  intros Hdate Hdiff.
  rewrite !balance_after_append.
  unfold isBeforeOrOnWorkingDate. cbn [filter t_accountId t_date t_fund_type].
  rewrite Hdate, !String.eqb_refl.
  apply String.eqb_neq in Hdiff. rewrite Hdiff.
  rewrite String.eqb_sym in Hdiff. rewrite Hdiff.
  cbn [andb filter t_fund_type]. rewrite FundType_eqb_refl.
  rewrite !sumAmounts_cons. cbn [t_amount]. change (sumAmounts []) with 0.
  split; ring.
Qed.

(** C7 as stated fails on a transfer dated after the working date: the
    source account's principal balance is what it was, not 200 less. *)
Lemma addTransfer_future_dated :
  let s' := snd (addTransfer "t1" "t2" ledgerT "acc" "old" 200 PRINCIPAL
                             "2024-04-01" "") in
  String.leb "2024-04-01" (workingDate ledgerT) = false
  /\ inPool PRINCIPAL (getAccountBalance s' "acc")
     == inPool PRINCIPAL (getAccountBalance ledgerT "acc")
  /\ ~ (inPool PRINCIPAL (getAccountBalance s' "acc")
        == inPool PRINCIPAL (getAccountBalance ledgerT "acc") - 200).
Proof.
  split; [reflexivity|]. split; [reflexivity|].
  vm_compute. discriminate.
Qed.

(** ** Operations on an entity that is not there *)

(** C8, as the code has it.  When the member of [addContribution] is not
    registered the operation returns the message 'Member not found' and
    leaves the store as it was; when the loan of [addRepayment] does not
    exist the operation leaves the store as it was and returns nothing
    ([undefined]), which is also what it returns on success. *)
Theorem missing_entity_no_change (uuidv4 : nat -> string) (tId : string) (s : Store)
    (memberId loanId : string) (amount : Q) (accountId date notes : string) :
  (find (fun m => String.eqb (m_id m) memberId) (members s) = None ->
   addContribution uuidv4 s memberId amount accountId date notes
   = (RetMessage MemberNotFound, s))
  /\ (find (fun l => String.eqb (l_id l) loanId) (loans s) = None ->
      addRepayment tId s loanId amount accountId date notes = (RetUndefined, s))
  /\ (forall loan, find (fun l => String.eqb (l_id l) loanId) (loans s) = Some loan ->
      fst (addRepayment tId s loanId amount accountId date notes) = RetUndefined).
Proof.
  unfold addContribution, addRepayment. split; [|split].
  - intros H. rewrite H. reflexivity.
  - intros H. rewrite H. reflexivity.
  - intros loan H. rewrite H. reflexivity.
Qed.

(** C8 as stated fails on [addRepayment]: with no such loan, the caller gets
    no failure. *)
Lemma addRepayment_missing_loan_silent :
  find (fun l => String.eqb (l_id l) "L7") (loans ledgerE) = None
  /\ isFailure (fst (addRepayment "r9" ledgerE "L7" 50 "acc" "2024-03-03" "")) = false.
Proof. split; reflexivity. Qed.

(** ** Member statistics and the date a loan was given *)



(** ** The tests decide the notions *)


(** ** Worked examples *)

Section WorkedExamples.
Local Open Scope string_scope.

Lemma repayments_within_balance_witness :
  isDirectRepayment (AddContribution demoIds "m1" 50 "acc" "2024-03-10" "") = false
  /\ Forall (fun t => t_transaction_type t = LOAN_REPAYMENT -> withinBalance ledgerD t)
       (appended ledgerD
          (run (AddContribution demoIds "m1" 50 "acc" "2024-03-10" "") ledgerD)).
Proof.
  split; [reflexivity|].
  apply (repayments_within_balance
           (AddContribution demoIds "m1" 50 "acc" "2024-03-10" "") ledgerD).
  reflexivity.
Defined.

Lemma addTransfer_spec_witness :
  let s' := snd (addTransfer "t1" "t2" ledgerT "acc" "old" 200 PRINCIPAL
                             "2024-03-05" "float") in
  inPool PRINCIPAL (getAccountBalance s' "acc")
  == inPool PRINCIPAL (getAccountBalance ledgerT "acc") - 200
  /\ inPool PRINCIPAL (getAccountBalance s' "old")
     == inPool PRINCIPAL (getAccountBalance ledgerT "old") + 200.
Proof.
  destruct (addTransfer_spec "t1" "t2" ledgerT "acc" "old" 200 PRINCIPAL
              "2024-03-05" "float")
    as (out & inc & _ & _ & _ & _ & Hbalances).
  apply Hbalances; [reflexivity | discriminate].
Defined.

Lemma missing_entity_no_change_witness :
  addContribution demoIds ledgerA "m7" 100 "acc" "2024-03-10" ""
  = (RetMessage MemberNotFound, ledgerA)
  /\ addRepayment "r9" ledgerA "L7" 100 "acc" "2024-03-10" "" = (RetUndefined, ledgerA).
Proof.
  destruct (missing_entity_no_change demoIds "r9" ledgerA "m7" "L7" 100 "acc"
              "2024-03-10" "")
    as (Hmember & Hloan & _).
  split; [apply Hmember | apply Hloan]; reflexivity.
Defined.


End WorkedExamples.

(** * Further properties *)

(** ** Balances *)

Lemma balance_after_entry (s : Store) (e : Transaction) (accountId : string)
    (fundType : FundType) :
  inPool fundType
    (getAccountBalance (setTransactions (fun prev => prev ++ [e]) s) accountId)
  == inPool fundType (getAccountBalance s accountId)
     + (if countsFor s accountId fundType e then t_amount e else 0).
Proof.
  rewrite balance_after_append. unfold countsFor, isBeforeOrOnWorkingDate.
  cbn [filter].
  destruct (String.eqb (t_accountId e) accountId && String.leb (t_date e) (workingDate s));
    cbn [andb filter]; [|reflexivity].
  destruct (FundType_eqb (t_fund_type e) fundType); [|reflexivity].
  rewrite sumAmounts_cons. change (sumAmounts []) with 0. ring.
Qed.

(** X2. An opening balance changes one figure only: the balance of its own
    account in its own fund pool goes up by the amount when the entry is
    dated on or before the working date; every other balance, and this one
    for a later-dated entry, stays as it was. *)
Theorem addOpeningBalance_balance (tId : string) (s : Store) (accountId : string)
    (amount : Q) (fundType : FundType) (date notes : string)
    (other : string) (pool : FundType) :
  let s' := snd (addOpeningBalance tId s accountId amount fundType date notes) in
  inPool pool (getAccountBalance s' other)
  == inPool pool (getAccountBalance s other)
     + (if String.eqb accountId other && String.leb date (workingDate s)
           && FundType_eqb fundType pool
        then amount else 0).
Proof.
  intros s'. subst s'. unfold addOpeningBalance. cbn [snd].
  rewrite balance_after_entry. reflexivity.
Qed.

(** ** Loans *)

Lemma addLoan_inv (loanId transId : string) (lError : bool) (s : Store)
    (memberId : string) (amount : Q) (accountId date : string) (interestRate : Q)
    (ret : Returned) (s' : Store) :
  addLoan loanId transId lError s memberId amount accountId date interestRate
  = Normal (ret, s') ->
  (~ loanGranted ret /\ s' = s)
  \/ (loanGranted ret
      /\ amount <= total (getAccountBalance s accountId)
      /\ (forall l, In l (loans s) -> l_memberId l = memberId ->
                    status (getLoanDetails s l) = PAID)
      /\ exists t,
           JsDate.parse date = Some t
           /\ s' = setTransactions
                     (fun prev => prev ++ [mkTransaction transId date (Some memberId)
                                             accountId PRINCIPAL LOAN_GIVEN (- amount)
                                             None "Loan given to member"])
                     (setLoans
                        (fun prev => prev ++ [mkLoan loanId memberId amount interestRate
                                                date (JsDate.toISOString
                                                        (JsDate.addDays 30 t))]) s)).
Proof.
  unfold addLoan, loanGranted.
  destruct (Qltb _ amount) eqn:Efunds.
  { intros [= <- <-]. left. split; [|reflexivity]. intros [H|H]; discriminate H. }
  destruct (existsb _ _) eqn:Eowes.
  { intros [= <- <-]. left. split; [|reflexivity]. intros [H|H]; discriminate H. }
  destruct (JsDate.parse date) as [t|]; [|discriminate].
  intros [= <- <-]. right.
  split; [destruct lError; auto|].
  split; [apply Qltb_ge, Efunds|].
  split.
  - intros l Hin Hm.
    destruct (status (getLoanDetails s l)) eqn:Est; [reflexivity| |];
      exfalso; apply not_true_iff_false in Eowes; apply Eowes;
      apply hasActiveLoan_spec; exists l; rewrite Est; repeat split; auto; discriminate.
  - exists t. split; reflexivity.
Qed.

Lemma status_PAID_iff (s : Store) (l : Loan) :
  status (getLoanDetails s l) = PAID <-> balance (getLoanDetails s l) <= 0.
Proof.
  unfold getLoanDetails. cbn [status balance].
  destruct (Qle_bool _ 0) eqn:E.
  - apply Qle_bool_iff in E. tauto.
  - apply Qle_bool_false in E. split.
    + destruct (String.ltb _ _); discriminate.
    + intros Hle. exfalso. exact (Qlt_not_le _ _ E Hle).
Qed.

Lemma filter_none {A : Type} (f : A -> bool) (l : list A) :
  (forall x, In x l -> f x = false) -> filter f l = [].
Proof.
  induction l as [|x l IH]; intros H; [reflexivity|].
  cbn [filter]. rewrite (H x (or_introl eq_refl)). apply IH.
  intros y Hy. apply H. right. exact Hy.
Qed.

(** Entries that do not count as paid on [l] leave its details as they are;
    the registries of loans, members and accounts play no part. *)
Lemma getLoanDetails_ignores (s : Store) (new : list Transaction) (l : Loan)
    (g : list Loan -> list Loan) :
  (forall t, In t new -> paidOn s l t = false) ->
  getLoanDetails (setTransactions (fun prev => prev ++ new) (setLoans g s)) l
  = getLoanDetails s l.
Proof.
  intros Hnew. unfold getLoanDetails.
  cbn [transactions setTransactions setLoans workingDate].
  change (isBeforeOrOnWorkingDate
            (setTransactions (fun prev => prev ++ new) (setLoans g s)))
    with (isBeforeOrOnWorkingDate s).
  rewrite filter_app.
  replace (filter _ new) with (@nil Transaction)
    by (symmetry; apply filter_none; exact Hnew).
  rewrite app_nil_r. reflexivity.
Qed.

(** X8. [addLoan] keeps the rule of one loan at a time: if no member has
    more than one loan that is not PAID before the call, none has after. *)
Theorem addLoan_keeps_single_outstanding (loanId transId : string) (lError : bool)
    (s : Store) (memberId : string) (amount : Q) (accountId date : string)
    (interestRate : Q) (ret : Returned) (s' : Store)
    (Hinv : singleOutstandingLoan s)
    (Hrun : addLoan loanId transId lError s memberId amount accountId date interestRate
            = Normal (ret, s')) :
  singleOutstandingLoan s'.
Proof.
  destruct (addLoan_inv _ _ _ _ _ _ _ _ _ _ _ Hrun)
    as [[_ ->]|(_ & _ & Hfree & t & _ & ->)]; [exact Hinv|].
  intros m. unfold outstandingLoans.
  assert (Hsame : forall l,
             owedBy (setTransactions
                       (fun prev => prev ++ [mkTransaction transId date (Some memberId)
                                               accountId PRINCIPAL LOAN_GIVEN (- amount)
                                               None "Loan given to member"])
                       (setLoans
                          (fun prev => prev ++ [mkLoan loanId memberId amount interestRate
                                                  date (JsDate.toISOString
                                                          (JsDate.addDays 30 t))]) s)) m l
             = owedBy s m l).
  { intros l. unfold owedBy. rewrite getLoanDetails_ignores; [reflexivity|].
    intros e [<-|[]]. unfold paidOn. cbn [t_transaction_type t_related_loan_id optEq].
    reflexivity. }
  rewrite (filter_ext _ _ Hsame).
  cbn [loans setTransactions setLoans]. rewrite filter_app, length_app.
  destruct (String.eqb memberId m) eqn:Em.
  - apply String.eqb_eq in Em. subst m.
    rewrite (filter_none (owedBy s memberId) (loans s)).
    + cbn [List.length filter]. destruct (owedBy s memberId _); cbn; lia.
    + intros l Hin. destruct (owedBy s memberId l) eqn:E; [|reflexivity].
      apply owedBy_spec in E. destruct E as [Hm Hst].
      exfalso. apply Hst, Hfree; assumption.
  - cbn [filter]. unfold owedBy at 2. cbn [l_memberId]. rewrite Em. cbn [andb List.length].
    specialize (Hinv m). unfold outstandingLoans in Hinv. lia.
Qed.

(** X9. After a loan of a positive principal at a non-negative rate under
    an identifier no entry refers to yet, every further [addLoan] for the
    same member is refused, for lack of funds or for the outstanding loan,
    and changes nothing. *)
Theorem addLoan_blocks_next_loan (loanId transId : string) (lError : bool)
    (s : Store) (memberId : string) (amount : Q) (accountId date : string)
    (interestRate : Q) (ret : Returned) (s' : Store)
    (Hrun : addLoan loanId transId lError s memberId amount accountId date interestRate
            = Normal (ret, s'))
    (Hgranted : loanGranted ret)
    (Hfresh : forall t, In t (transactions s) -> t_related_loan_id t <> Some loanId)
    (Hamount : 0 < amount) (Hrate : 0 <= interestRate) :
  forall (loanId2 transId2 : string) (lError2 : bool) (amount2 : Q)
         (accountId2 date2 : string) (interestRate2 : Q),
  exists msg,
    addLoan loanId2 transId2 lError2 s' memberId amount2 accountId2 date2 interestRate2
    = Normal (RetMessage msg, s')
    /\ (msg = InsufficientFunds \/ msg = OutstandingLoan).
Proof.
  destruct (addLoan_inv _ _ _ _ _ _ _ _ _ _ _ Hrun)
    as [[Hno _]|(_ & _ & _ & t & _ & Hs')]; [contradiction|].
  set (loan := mkLoan loanId memberId amount interestRate date
                      (JsDate.toISOString (JsDate.addDays 30 t))) in *.
  assert (Hin : In loan (loans s')).
  { rewrite Hs'. cbn [loans setTransactions setLoans]. apply in_or_app. right. left.
    reflexivity. }
  assert (Hunpaid : status (getLoanDetails s' loan) <> PAID).
  { rewrite status_PAID_iff, Hs'.
    rewrite getLoanDetails_ignores.
    - unfold getLoanDetails. cbn [balance]. fold (paidOn s loan).
      rewrite (filter_none (paidOn s loan) (transactions s)).
      + change (sumAmounts []) with 0. cbn [l_amount_given l_interest_rate loan].
        apply Qlt_not_le.
        assert (0 <= amount * (interestRate / 100)).
        { apply Qmult_le_0_compat; [apply Qlt_le_weak, Hamount|].
          apply Qle_shift_div_l; [reflexivity|]. rewrite Qmult_0_l. exact Hrate. }
        apply Qlt_le_trans with (y := amount); [exact Hamount|].
        apply (Qplus_le_r _ _ (- amount)). ring_simplify. assumption.
      + intros e He. unfold paidOn.
        destruct (optEq (t_related_loan_id e) (l_id loan)) eqn:E; [|reflexivity].
        apply optEq_eq in E. exfalso. exact (Hfresh e He E).
    - intros e [<-|[]]. reflexivity. }
  intros loanId2 transId2 lError2 amount2 accountId2 date2 interestRate2.
  unfold addLoan. destruct (Qltb _ amount2).
  - exists InsufficientFunds. split; [reflexivity | left; reflexivity].
  - assert (Howes : existsb (fun l => negb (LoanStatus_eqb (status (getLoanDetails s' l)) PAID))
                      (filter (fun l => String.eqb (l_memberId l) memberId) (loans s'))
                    = true).
    { apply hasActiveLoan_spec. exists loan. repeat split; assumption. }
    rewrite Howes. exists OutstandingLoan. split; [reflexivity | right; reflexivity].
Qed.

(** ** The allocator: where the money goes *)

Section AutoRepayMoney.
Variable uuidv4 : nat -> string.
Variables memberId accountId date : string.

Lemma autoRepay_left_nonneg (queue : list (Loan * LoanDetails)) (extra : Q) (drawn : nat) :
  0 <= extra ->
  0 <= snd (autoRepay uuidv4 memberId accountId date queue extra drawn).
Proof.
  revert extra drawn.
  induction queue as [|loan rest IH]; intros extra drawn Hextra; cbn [autoRepay].
  - exact Hextra.
  - destruct (Qle_bool extra 0); [exact Hextra|].
    destruct (Qgtb (Qmin extra (balance (snd loan))) 0); [|apply IH, Hextra].
    assert (Hnext : 0 <= extra - Qmin extra (balance (snd loan))).
    { pose proof (Q.le_min_l extra (balance (snd loan))) as Hmin.
      apply (Qplus_le_r _ _ (Qmin extra (balance (snd loan)))). ring_simplify. exact Hmin. }
    specialize (IH _ (S drawn) Hnext).
    destruct (autoRepay _ _ _ _ rest _ _) as [pushed leftOver]. exact IH.
Qed.

End AutoRepayMoney.

(** What the allocator does to a store where the member is registered:
    the new entries and the new credit. *)
Lemma addContribution_effect (uuidv4 : nat -> string) (s : Store) (memberId : string)
    (amount : Q) (accountId date notes : string) (member : Member) :
  find (fun m => String.eqb (m_id m) memberId) (members s) = Some member ->
  let share := allocatedShare s member memberId amount date in
  let extra := amount + m_advance_credit member - share in
  let s' := snd (addContribution uuidv4 s memberId amount accountId date notes) in
  exists shareEntries repayments credit,
    transactions s' = transactions s ++ shareEntries ++ repayments
    /\ members s' = map (withCredit memberId credit) (members s)
    /\ loans s' = loans s /\ workingDate s' = workingDate s
    /\ shareEntries = (if Qgtb share 0
                       then [contributionEntry (uuidv4 O) date memberId accountId share notes]
                       else [])
    /\ (repayments, credit)
       = (if Qgtb extra 0
          then autoRepay uuidv4 memberId accountId date (unpaidLoans s memberId) extra
                         (List.length shareEntries)
          else ([], 0)).
Proof.
  intros Hfind share extra s'.
  pose proof (addContribution_found uuidv4 s memberId amount accountId date notes
                member Hfind) as Hrun.
  cbv zeta in Hrun. fold share extra in Hrun. subst s'. rewrite Hrun. cbn [snd].
  set (shareEntries := if Qgtb share 0 then _ else _).
  set (auto := if Qgtb extra 0 then _ else _).
  exists shareEntries, (fst auto), (snd auto).
  split; [reflexivity|]. split; [reflexivity|].
  split; [reflexivity|]. split; [reflexivity|]. split; [reflexivity|].
  subst auto. destruct (if Qgtb extra 0 then _ else _). reflexivity.
Qed.

(** X12. After a contribution of a registered member the carried credit
    of that member is never negative, whatever the amount given. *)
Theorem addContribution_credit_nonneg (uuidv4 : nat -> string) (s : Store)
    (memberId : string) (amount : Q) (accountId date notes : string) (member : Member)
    (Hmember : find (fun m => String.eqb (m_id m) memberId) (members s) = Some member) :
  let s' := snd (addContribution uuidv4 s memberId amount accountId date notes) in
  forall m, In m (members s') -> m_id m = memberId -> 0 <= m_advance_credit m.
Proof.
  intros s' m Hin Hid.
  destruct (addContribution_effect uuidv4 s memberId amount accountId date notes member
              Hmember)
    as (shareEntries & repayments & credit & _ & Hmembers & _ & _ & _ & Hauto).
  fold s' in Hmembers. rewrite Hmembers in Hin.
  apply in_map_iff in Hin. destruct Hin as (m0 & <- & _).
  unfold withCredit in *. destruct (String.eqb (m_id m0) memberId) eqn:E.
  - cbn [m_advance_credit].
    destruct (Qgtb _ 0) eqn:Eextra in Hauto.
    + pose proof (autoRepay_left_nonneg uuidv4 memberId accountId date
                    (unpaidLoans s memberId) _ (List.length shareEntries)
                    (Qlt_le_weak _ _ (proj1 (Qgtb_gt _ _) Eextra))) as Hleft.
      rewrite <- Hauto in Hleft. exact Hleft.
    + injection Hauto as _ ->. apply Qle_refl.
  - apply String.eqb_neq in E. contradiction.
Qed.

Lemma filter_all {A : Type} (f : A -> bool) (l : list A) :
  (forall x, In x l -> f x = true) -> filter f l = l.
Proof.
  induction l as [|x l IH]; intros H; [reflexivity|].
  cbn [filter]. rewrite (H x (or_introl eq_refl)). f_equal. apply IH.
  intros y Hy. apply H. right. exact Hy.
Qed.


(** ** Entries by identifier *)

Lemma Store_eta (s : Store) :
  mkStore (members s) (accounts s) (transactions s) (loans s) (workingDate s) = s.
Proof. destruct s; reflexivity. Qed.

Lemma filter_app_fresh (l : list Transaction) (e : Transaction) :
  (forall t, In t l -> t_id t <> t_id e) ->
  filter (fun t => negb (String.eqb (t_id t) (t_id e))) (l ++ [e]) = l.
Proof.
  intros Hfresh. rewrite filter_app. cbn [filter]. rewrite String.eqb_refl. cbn [negb].
  rewrite app_nil_r. apply filter_all. intros t Ht.
  apply negb_true_iff, String.eqb_neq, Hfresh, Ht.
Qed.

Lemma deleteTransaction_undoes_append (s : Store) (e : Transaction) :
  (forall t, In t (transactions s) -> t_id t <> t_id e) ->
  deleteTransaction false (setTransactions (fun prev => prev ++ [e]) s) (t_id e) = s.
Proof.
  intros Hfresh. unfold deleteTransaction, setTransactions.
  cbn [members accounts transactions loans workingDate].
  rewrite (filter_app_fresh _ e Hfresh). apply Store_eta.
Qed.

(** X16. Deleting the entry just appended restores the store: with an
    identifier no entry has yet, [deleteTransaction] after
    [addOpeningBalance], [addRepayment] or [addExpense] gives back the store
    the operation started from. *)
Theorem deleteTransaction_undoes_single_entry (tId : string) (s : Store)
    (Hfresh : forall t, In t (transactions s) -> t_id t <> tId) :
  (forall accountId amount fundType date notes,
     deleteTransaction false
       (snd (addOpeningBalance tId s accountId amount fundType date notes)) tId = s)
  /\ (forall loanId amount accountId date notes,
        deleteTransaction false
          (snd (addRepayment tId s loanId amount accountId date notes)) tId = s)
  /\ (forall amount accountId date notes,
        deleteTransaction false
          (snd (addExpense tId s amount accountId date notes)) tId = s).
Proof.
  assert (Hnone : deleteTransaction false s tId = s).
  { unfold deleteTransaction, setTransactions.
    rewrite filter_all; [apply Store_eta|].
    intros t Ht. apply negb_true_iff, String.eqb_neq, Hfresh, Ht. }
  split; [|split].
  - intros. unfold addOpeningBalance. cbn [snd].
    apply (deleteTransaction_undoes_append s
             (mkTransaction tId date None accountId fundType OPENING_BALANCE amount None
                            (orDefault notes "Opening Balance"))).
    exact Hfresh.
  - intros. unfold addRepayment.
    destruct (find _ (loans s)) as [loan|]; cbn [snd]; [|exact Hnone].
    apply (deleteTransaction_undoes_append s
             (mkTransaction tId date (Some (l_memberId loan)) accountId PRINCIPAL
                            LOAN_REPAYMENT amount (Some loanId)
                            (orDefault notes "Direct repayment"))).
    exact Hfresh.
  - intros. unfold addExpense.
    destruct (Qltb _ amount); cbn [snd]; [exact Hnone|].
    apply (deleteTransaction_undoes_append s
             (mkTransaction tId date None accountId INTEREST EXPENSE (- amount) None notes)).
    exact Hfresh.
Qed.

(** X17. [deleteTransaction] leaves the store as it is when the backend
    refuses or when no entry has the identifier; otherwise exactly the
    entries with that identifier go, and members, accounts and loans are
    untouched. *)
Theorem deleteTransaction_removes_by_id (dbError : bool) (s : Store) (id : string) :
  let s' := deleteTransaction dbError s id in
  (dbError = true -> s' = s)
  /\ ((forall t, In t (transactions s) -> t_id t <> id) -> s' = s)
  /\ (dbError = false ->
      (forall t, In t (transactions s') <-> In t (transactions s) /\ t_id t <> id)
      /\ members s' = members s /\ accounts s' = accounts s /\ loans s' = loans s).
Proof.
  intros s'. subst s'. unfold deleteTransaction. split; [|split].
  - intros ->. reflexivity.
  - intros Hnone. destruct dbError; [reflexivity|].
    unfold setTransactions. rewrite filter_all; [apply Store_eta|].
    intros t Ht. apply negb_true_iff, String.eqb_neq, Hnone, Ht.
  - intros ->. split; [|repeat split].
    intros t. cbn [transactions setTransactions].
    rewrite filter_In, negb_true_iff, String.eqb_neq. tauto.
Qed.

(** ** Members and accounts *)

Lemma find_app_fresh {A : Type} (f : A -> bool) (l : list A) (x : A) :
  (forall y, In y l -> f y = false) ->
  find f (l ++ [x]) = (if f x then Some x else None).
Proof.
  induction l as [|y l IH]; intros H; [reflexivity|].
  cbn [app find]. rewrite (H y (or_introl eq_refl)). apply IH.
  intros z Hz. apply H. right. exact Hz.
Qed.

Lemma find_app_other {A : Type} (f : A -> bool) (l : list A) (x : A) :
  f x = false -> find f (l ++ [x]) = find f l.
Proof.
  intros Hx. induction l as [|y l IH]; cbn [app find]; [rewrite Hx; reflexivity|].
  destruct (f y); [reflexivity | exact IH].
Qed.

(** X18. A member added under an identifier not in use is found by that
    identifier with the starting credit given, lookups of other identifiers
    are unchanged, and contributions for the new member are accepted. *)
Theorem addMember_then_found (id : string) (s : Store) (name : string)
    (startingCredit : Q)
    (Hfresh : forall m, In m (members s) -> m_id m <> id) :
  let s' := snd (addMember id s name startingCredit) in
  find (fun m => String.eqb (m_id m) id) (members s')
  = Some (mkMember id name true startingCredit)
  /\ (forall other, other <> id ->
        find (fun m => String.eqb (m_id m) other) (members s')
        = find (fun m => String.eqb (m_id m) other) (members s))
  /\ (forall uuidv4 amount accountId date notes,
        fst (addContribution uuidv4 s' id amount accountId date notes) = RetNull).
Proof.
  intros s'. subst s'. unfold addMember. cbn [snd members setMembers].
  assert (Hfound : find (fun m => String.eqb (m_id m) id)
                        (members s ++ [mkMember id name true startingCredit])
                   = Some (mkMember id name true startingCredit)).
  { rewrite find_app_fresh.
    - cbn [m_id]. rewrite String.eqb_refl. reflexivity.
    - intros m Hm. apply String.eqb_neq, Hfresh, Hm. }
  split; [exact Hfound|]. split.
  - intros other Hother. apply find_app_other. cbn [m_id].
    apply String.eqb_neq. congruence.
  - intros uuidv4 amount accountId date notes.
    erewrite addContribution_found by exact Hfound. reflexivity.
Qed.

(** X19. [updateMember] keeps the number of members, leaves the store as
    it is when no member has the identifier, and never touches a member with
    another identifier. *)
Theorem updateMember_unknown_id (s : Store) (id : string) (updates : MemberUpdates) :
  List.length (members (updateMember s id updates)) = List.length (members s)
  /\ ((forall m, In m (members s) -> m_id m <> id) -> updateMember s id updates = s)
  /\ (forall m, In m (members s) -> m_id m <> id ->
                In m (members (updateMember s id updates))).
Proof.
  unfold updateMember, setMembers. cbn [members]. split; [apply length_map|]. split.
  - intros Hnone.
    rewrite (map_ext_in _ (fun m => m)), map_id; [apply Store_eta|].
    intros m Hm. apply (Hnone m) in Hm. apply String.eqb_neq in Hm. rewrite Hm. reflexivity.
  - intros m Hin Hid. apply in_map_iff. exists m. split; [|exact Hin].
    apply String.eqb_neq in Hid. rewrite Hid. reflexivity.
Qed.

(** X20. An account added under an identifier not in use, on which no
    entry is booked, can be deleted again at once, and the store is then
    what it was before the account was added. *)
Theorem deleteAccount_undoes_addAccount (id : string) (s : Store) (name : string)
    (type : AccountType) (memberId : option string)
    (Hfresh : forall a, In a (accounts s) -> a_id a <> id)
    (Hunused : forall t, In t (transactions s) -> t_accountId t <> id) :
  deleteAccount (snd (addAccount id s name type memberId)) id = (RetNull, s).
Proof.
  unfold addAccount, deleteAccount. cbn [snd transactions setAccounts].
  rewrite (filter_none (fun t => String.eqb (t_accountId t) id) (transactions s)).
  - change (Qgtb (Qabs (sumAmounts [])) (1 # 100)) with false. cbv iota.
    f_equal. unfold setAccounts. cbn [members accounts transactions loans workingDate].
    rewrite filter_app. cbn [filter a_id]. rewrite String.eqb_refl. cbn [negb].
    rewrite app_nil_r, filter_all; [apply Store_eta|].
    intros a Ha. apply negb_true_iff, String.eqb_neq, Hfresh, Ha.
  - intros t Ht. apply String.eqb_neq, Hunused, Ht.
Qed.

(** ** The order of date strings *)

Lemma ascii_compare_N (a b : ascii) :
  Ascii.compare a b = N.compare (N_of_ascii a) (N_of_ascii b).
Proof. reflexivity. Qed.

Lemma string_compare_trans (a b c : string) :
  String.compare a b <> Gt -> String.compare b c <> Gt -> String.compare a c <> Gt.
Proof.
  revert b c. induction a as [|x a IH]; intros [|y b] [|z c]; cbn [String.compare];
    try congruence.
  rewrite !ascii_compare_N.
  destruct (N.compare_spec (N_of_ascii x) (N_of_ascii y)) as [Exy|Exy|Exy];
    destruct (N.compare_spec (N_of_ascii y) (N_of_ascii z)) as [Eyz|Eyz|Eyz];
    destruct (N.compare_spec (N_of_ascii x) (N_of_ascii z)) as [Exz|Exz|Exz];
    try congruence; try lia.
  apply IH.
Qed.

Lemma string_leb_trans (a b c : string) :
  String.leb a b = true -> String.leb b c = true -> String.leb a c = true.
Proof.
  unfold String.leb. intros Hab Hbc.
  pose proof (string_compare_trans a b c) as H.
  destruct (String.compare a b); try discriminate;
    destruct (String.compare b c); try discriminate;
    destruct (String.compare a c); try reflexivity;
    exfalso; apply H; congruence.
Qed.

(** X4. Moving the working date later only adds to what is seen: a date
    that passes the as-of filter still passes it, and the entries of an
    account that counted towards its balance still count. *)
Theorem later_working_date_sees_more (s : Store) (later : string)
    (Hlater : String.leb (workingDate s) later = true) :
  (forall d, isBeforeOrOnWorkingDate s d = true ->
             isBeforeOrOnWorkingDate (setWorkingDate later s) d = true)
  /\ (forall accountId t,
        In t (filter (fun t => String.eqb (t_accountId t) accountId
                               && isBeforeOrOnWorkingDate s (t_date t))
                     (transactions s)) ->
        In t (filter (fun t => String.eqb (t_accountId t) accountId
                               && isBeforeOrOnWorkingDate (setWorkingDate later s) (t_date t))
                     (transactions (setWorkingDate later s)))).
Proof.
  assert (Hmono : forall d, isBeforeOrOnWorkingDate s d = true ->
                            isBeforeOrOnWorkingDate (setWorkingDate later s) d = true).
  { intros d Hd. unfold isBeforeOrOnWorkingDate in *. cbn [workingDate setWorkingDate].
    exact (string_leb_trans _ _ _ Hd Hlater). }
  split; [exact Hmono|].
  intros accountId t. rewrite !filter_In, !andb_true_iff.
  intros (Hin & Hacc & Hd). repeat split; auto.
Qed.

Module DateOrder.
Import JsDate JsDateFacts.
Local Open Scope Z_scope.

Lemma parse_inv (str : string) (t : Z) :
  parse str = Some t ->
  exists y1 y2 y3 y4 m1 m2 d1 d2 y m d,
    str = String y1 (String y2 (String y3 (String y4 (String "-"
            (String m1 (String m2 (String "-" (String d1 (String d2 EmptyString)))))))))
    /\ digits4 y1 y2 y3 y4 = Some y /\ digits2 m1 m2 = Some m /\ digits2 d1 d2 = Some d
    /\ 1 <= m <= 12 /\ 1 <= d <= daysInMonth y m
    /\ t = MakeDay y m d * msPerDay.
Proof.
  unfold parse.
  destruct str as [|y1 [|y2 [|y3 [|y4 [|sep1 [|m1 [|m2 [|sep2 [|d1 [|d2 [|]]]]]]]]]]];
    try discriminate.
  destruct (Ascii.eqb sep1 "-") eqn:E1; [|discriminate].
  destruct (Ascii.eqb sep2 "-") eqn:E2; [|discriminate].
  apply Ascii.eqb_eq in E1. apply Ascii.eqb_eq in E2. subst sep1 sep2. cbn [andb].
  destruct (digits4 y1 y2 y3 y4) as [y|] eqn:Ey; [|discriminate].
  destruct (digits2 m1 m2) as [m|] eqn:Em; [|discriminate].
  destruct (digits2 d1 d2) as [d|] eqn:Ed; [|discriminate].
  destruct (_ && _) eqn:Evalid; [|discriminate].
  intros E. rewrite !andb_true_iff, !Z.leb_le in Evalid.
  exists y1, y2, y3, y4, m1, m2, d1, d2, y, m, d.
  repeat split; try tauto; try lia. congruence.
Qed.

Ltac enum_month m :=
  let C := fresh "C" in
  assert (C : m = 1 \/ m = 2 \/ m = 3 \/ m = 4 \/ m = 5 \/ m = 6 \/ m = 7 \/ m = 8
              \/ m = 9 \/ m = 10 \/ m = 11 \/ m = 12) by lia;
  repeat (destruct C as [C|C]; [subst m|]); [..|subst m].

Ltac month_arith :=
  unfold daysBeforeMonth, daysInMonth, monthLengths, sumZ;
  repeat match goal with
         | |- context [Z.to_nat ?e] =>
             let n := eval vm_compute in (Z.to_nat e) in
             change (Z.to_nat e) with n
         end;
  cbn [nth firstn fold_right]; lia.

Lemma month_in_year (y m : Z) :
  1 <= m <= 12 ->
  0 <= daysBeforeMonth y m
  /\ daysBeforeMonth y m + daysInMonth y m <= (if InLeapYear y then 366 else 365).
Proof.
  intros Hm. enum_month m; destruct (InLeapYear y) eqn:E;
    unfold daysBeforeMonth, daysInMonth, monthLengths, sumZ; rewrite ?E;
    month_arith.
Qed.

Lemma month_before (y m m' : Z) :
  1 <= m -> m < m' -> m' <= 12 ->
  daysBeforeMonth y m + daysInMonth y m <= daysBeforeMonth y m'.
Proof.
  intros H1 H2 H3. enum_month m; enum_month m'; try lia;
    unfold daysBeforeMonth, daysInMonth, monthLengths, sumZ;
    destruct (InLeapYear y); month_arith.
Qed.

(** The number [10000 y + 100 m + d] orders calendar dates as [MakeDay] does. *)
Lemma MakeDay_lt (y m d y' m' d' : Z) :
  1 <= m <= 12 -> 1 <= d <= daysInMonth y m ->
  1 <= m' <= 12 -> 1 <= d' <= daysInMonth y' m' ->
  10000 * y + 100 * m + d < 10000 * y' + 100 * m' + d' ->
  MakeDay y m d < MakeDay y' m' d'.
Proof.
  intros Hm Hd Hm' Hd' Hkey.
  pose proof (daysInMonth_le_31 y m). pose proof (daysInMonth_le_31 y' m').
  pose proof (month_in_year y m Hm) as [Hb Hy].
  pose proof (month_in_year y' m' Hm') as [Hb' Hy'].
  unfold MakeDay.
  assert (Hcases : y < y' \/ (y = y' /\ m < m') \/ (y = y' /\ m = m' /\ d < d')) by lia.
  destruct Hcases as [Hlt|[[-> Hlt]|(-> & -> & Hlt)]].
  - pose proof (DayFromYear_step y) as Hstep.
    pose proof (DayFromYear_mono (y + 1) y' ltac:(lia)) as Hmono.
    destruct (InLeapYear y); lia.
  - pose proof (month_before y' m m' ltac:(lia) Hlt ltac:(lia)). lia.
  - lia.
Qed.

Lemma MakeDay_compare (y m d y' m' d' : Z) :
  1 <= m <= 12 -> 1 <= d <= daysInMonth y m ->
  1 <= m' <= 12 -> 1 <= d' <= daysInMonth y' m' ->
  (MakeDay y m d * msPerDay ?= MakeDay y' m' d' * msPerDay)
  = (10000 * y + 100 * m + d ?= 10000 * y' + 100 * m' + d').
Proof.
  intros Hm Hd Hm' Hd'.
  pose proof (daysInMonth_le_31 y m). pose proof (daysInMonth_le_31 y' m').
  unfold msPerDay.
  destruct (Z.compare_spec (10000 * y + 100 * m + d) (10000 * y' + 100 * m' + d'))
    as [E|E|E].
  - assert (y = y' /\ m = m' /\ d = d') as (-> & -> & ->) by lia. apply Z.compare_refl.
  - apply Z.compare_lt_iff.
    pose proof (MakeDay_lt y m d y' m' d' Hm Hd Hm' Hd' E). lia.
  - apply Z.compare_gt_iff.
    pose proof (MakeDay_lt y' m' d' y m d Hm' Hd' Hm Hd E). lia.
Qed.

Lemma digit_compare (c c' : ascii) (n n' : Z) :
  digitVal c = Some n -> digitVal c' = Some n' ->
  Ascii.compare c c' = (n ?= n').
Proof.
  unfold digitVal, nat_of_ascii. rewrite !N_nat_Z.
  destruct (_ && _); [|discriminate]. destruct (_ && _); [|discriminate].
  intros E E'. assert (Hn : n = Z.of_N (N_of_ascii c) - 48) by congruence.
  assert (Hn' : n' = Z.of_N (N_of_ascii c') - 48) by congruence.
  rewrite ascii_compare_N, <- N2Z.inj_compare. subst n n'.
  destruct (Z.compare_spec (Z.of_N (N_of_ascii c)) (Z.of_N (N_of_ascii c')));
    symmetry; [apply Z.compare_eq_iff | apply Z.compare_lt_iff | apply Z.compare_gt_iff];
    lia.
Qed.

Lemma digits2_inv (a b : ascii) (n : Z) :
  digits2 a b = Some n ->
  exists x y, digitVal a = Some x /\ digitVal b = Some y /\ n = 10 * x + y
              /\ 0 <= x <= 9 /\ 0 <= y <= 9.
Proof.
  unfold digits2.
  destruct (digitVal a) as [x|] eqn:Ea; [|discriminate].
  destruct (digitVal b) as [y|] eqn:Eb; [|discriminate].
  intros E. exists x, y.
  pose proof (digitVal_range a x Ea). pose proof (digitVal_range b y Eb).
  repeat split; try lia. congruence.
Qed.

Lemma digits4_inv (a b c d : ascii) (n : Z) :
  digits4 a b c d = Some n ->
  exists w x y z, digitVal a = Some w /\ digitVal b = Some x
                  /\ digitVal c = Some y /\ digitVal d = Some z
                  /\ n = 1000 * w + 100 * x + 10 * y + z
                  /\ 0 <= w <= 9 /\ 0 <= x <= 9 /\ 0 <= y <= 9 /\ 0 <= z <= 9.
Proof.
  unfold digits4.
  destruct (digits2 a b) as [p|] eqn:Ep; [|discriminate].
  destruct (digits2 c d) as [q|] eqn:Eq; [|discriminate].
  intros E.
  destruct (digits2_inv a b p Ep) as (w & x & Hw & Hx & -> & Bw & Bx).
  destruct (digits2_inv c d q Eq) as (y & z & Hy & Hz & -> & By & Bz).
  exists w, x, y, z. repeat split; try assumption; try lia.
  assert (n = 100 * (10 * w + x) + (10 * y + z)) by congruence. lia.
Qed.

(** Two calendar dates compare as strings the way their days compare. *)
Lemma string_compare_dates (a b : string) (ta tb : Z) :
  parse a = Some ta -> parse b = Some tb ->
  String.compare a b = (ta ?= tb).
Proof.
  intros Ha Hb.
  destruct (parse_inv a ta Ha)
    as (y1 & y2 & y3 & y4 & m1 & m2 & d1 & d2 & y & m & d
        & -> & Hy & Hm & Hd & Bm & Bd & ->).
  destruct (parse_inv b tb Hb)
    as (y1' & y2' & y3' & y4' & m1' & m2' & d1' & d2' & y' & m' & d'
        & -> & Hy' & Hm' & Hd' & Bm' & Bd' & ->).
  rewrite (MakeDay_compare y m d y' m' d' Bm Bd Bm' Bd').
  pose proof (daysInMonth_le_31 y m). pose proof (daysInMonth_le_31 y' m').
  destruct (digits4_inv _ _ _ _ _ Hy)
    as (n1 & n2 & n3 & n4 & D1 & D2 & D3 & D4 & -> & ? & ? & ? & ?).
  destruct (digits2_inv _ _ _ Hm) as (n5 & n6 & D5 & D6 & -> & ? & ?).
  destruct (digits2_inv _ _ _ Hd) as (n7 & n8 & D7 & D8 & -> & ? & ?).
  destruct (digits4_inv _ _ _ _ _ Hy')
    as (k1 & k2 & k3 & k4 & F1 & F2 & F3 & F4 & -> & ? & ? & ? & ?).
  destruct (digits2_inv _ _ _ Hm') as (k5 & k6 & F5 & F6 & -> & ? & ?).
  destruct (digits2_inv _ _ _ Hd') as (k7 & k8 & F7 & F8 & -> & ? & ?).
  cbn [String.compare].
  rewrite (digit_compare _ _ _ _ D1 F1), (digit_compare _ _ _ _ D2 F2),
    (digit_compare _ _ _ _ D3 F3), (digit_compare _ _ _ _ D4 F4),
    (digit_compare _ _ _ _ D5 F5), (digit_compare _ _ _ _ D6 F6),
    (digit_compare _ _ _ _ D7 F7), (digit_compare _ _ _ _ D8 F8).
  change (Ascii.compare "-" "-") with Eq. cbv iota.
  repeat match goal with
         | |- context [?p ?= ?q] =>
             is_var p; is_var q; destruct (Z.compare_spec p q); [subst p| |]
         end;
    symmetry;
    first [ apply Z.compare_eq_iff; lia
          | apply Z.compare_lt_iff; lia
          | apply Z.compare_gt_iff; lia ].
Qed.

End DateOrder.

(** X5. On calendar dates the as-of filter's comparison of strings is the
    comparison of days: a date passes exactly when its day is not after the
    working date's. *)
Theorem asOf_is_calendar_order (s : Store) (d : string) (td tw : Z)
    (Hd : JsDate.parse d = Some td)
    (Hw : JsDate.parse (workingDate s) = Some tw) :
  isBeforeOrOnWorkingDate s d = true <-> (td <= tw)%Z.
Proof.
  unfold isBeforeOrOnWorkingDate, String.leb.
  rewrite (DateOrder.string_compare_dates d (workingDate s) td tw Hd Hw).
  destruct (Z.compare_spec td tw); split; intros; try reflexivity; try lia; discriminate.
Qed.

Lemma compare_app_longer (a b : string) (c : ascii) (suffix : string) :
  String.length a = String.length b ->
  String.compare (a ++ String c suffix) b
  = match String.compare a b with
    | Eq => Gt
    | r => r
    end.
Proof.
  revert b. induction a as [|x a IH]; intros [|y b] Hlen; try discriminate Hlen.
  - reflexivity.
  - cbn [append String.compare]. destruct (Ascii.compare x y); try reflexivity.
    apply IH. cbn [String.length] in Hlen. congruence.
Qed.

Lemma parse_length (str : string) (t : Z) :
  JsDate.parse str = Some t -> String.length str = 10%nat.
Proof.
  intros H. destruct (DateOrder.parse_inv str t H)
    as (? & ? & ? & ? & ? & ? & ? & ? & ? & ? & ? & -> & _). reflexivity.
Qed.

Module MockFacts.
Import Mock.

Lemma getTable_setTable (st : Storage) (table other : string) (rows : list Row) :
  getTable (setTable true st table rows) other
  = if String.eqb other table then rows else getTable st other.
Proof. reflexivity. Qed.

(** X22. [insert] answers with the rows and no error; a following
    [select] of the table returns the old rows followed by the new ones,
    or the old rows alone when the write to local storage failed, and the
    other tables are unchanged. *)
Theorem insert_then_select (lessThan : option Json -> option Json -> bool)
    (writeOk : bool) (st : Storage) (table : string) (rowOrRows : RowOrRows) :
  let rows := match rowOrRows with ManyRows l => l | OneRow r => [r] end in
  let r := insert writeOk st table rowOrRows in
  fst r = mkResponse (Some rows) None
  /\ data (select lessThan (snd r) table None)
     = Some (getTable st table ++ (if writeOk then rows else []))
  /\ (forall other, other <> table ->
        select lessThan (snd r) other None = select lessThan st other None).
Proof.
  intros rows r. subst r rows. unfold insert, select, setTable, getTable. cbn [fst snd data].
  split; [reflexivity|]. split.
  - destruct writeOk; [rewrite String.eqb_refl; reflexivity | rewrite app_nil_r; reflexivity].
  - intros other Hother. destruct writeOk; [|reflexivity].
    apply String.eqb_neq in Hother. rewrite Hother. reflexivity.
Qed.

(** X23. After [delete().eq(col, val)] the table holds exactly the rows
    whose column is not strictly equal to [val]; with no such row it is
    unchanged, and the other tables are untouched. *)
Theorem delete_eq_then_select (lessThan : option Json -> option Json -> bool)
    (st : Storage) (table col : string) (val : option Json) :
  let st' := snd (delete_eq true st table col val) in
  (forall row, In row (getTable st' table)
               <-> In row (getTable st table) /\ strictEq (field row col) val = false)
  /\ ((forall row, In row (getTable st table) -> strictEq (field row col) val = false) ->
      getTable st' table = getTable st table)
  /\ (forall other, other <> table -> getTable st' other = getTable st other).
Proof.
  intros st'. subst st'. unfold delete_eq. cbn [snd]. split; [|split].
  - intros row. rewrite getTable_setTable, String.eqb_refl, filter_In, negb_true_iff.
    reflexivity.
  - intros Hnone. rewrite getTable_setTable, String.eqb_refl. apply filter_all.
    intros row Hrow. rewrite (Hnone row Hrow). reflexivity.
  - intros other Hother. rewrite getTable_setTable.
    apply String.eqb_neq in Hother. rewrite Hother. reflexivity.
Qed.

(** X24. [delete().neq(col, val)] keeps exactly the rows whose column is
    strictly equal to [val]: the table is emptied when no row has that
    value, and nothing changes when the write fails. *)
Theorem delete_neq_wipes (st : Storage) (table col : string) (val : option Json) :
  let st' := snd (delete_neq true st table col val) in
  (forall row, In row (getTable st' table)
               <-> In row (getTable st table) /\ strictEq (field row col) val = true)
  /\ ((forall row, In row (getTable st table) -> strictEq (field row col) val = false) ->
      getTable st' table = [])
  /\ snd (delete_neq false st table col val) = st.
Proof.
  intros st'. subst st'. unfold delete_neq. cbn [snd]. split; [|split].
  - intros row. rewrite getTable_setTable, String.eqb_refl, filter_In. reflexivity.
  - intros Hnone. rewrite getTable_setTable, String.eqb_refl. apply filter_none. exact Hnone.
  - reflexivity.
Qed.

Lemma field_setField (item : Row) (k : string) (v : Json) (c : string) :
  field (setField item k v) c = if String.eqb k c then Some v else field item c.
Proof.
  induction item as [|[k' v'] rest IH]; cbn [setField field]; [reflexivity|].
  destruct (String.eqb k' k) eqn:E; cbn [field].
  - apply String.eqb_eq in E. subst k'. destruct (String.eqb k c); reflexivity.
  - rewrite IH. destruct (String.eqb k c) eqn:Ec; [|reflexivity].
    apply String.eqb_eq in Ec. subst c. rewrite E. reflexivity.
Qed.

Lemma field_absent (updates : Row) (c : string) :
  ~ In c (map fst updates) -> field updates c = None.
Proof.
  induction updates as [|[k v] rest IH]; intros Hc; [reflexivity|].
  cbn [field]. cbn [map fst In] in Hc.
  destruct (String.eqb k c) eqn:E.
  - apply String.eqb_eq in E. tauto.
  - apply IH. tauto.
Qed.

(** With the keys of [updates] distinct, as in an object, a property of the
    merged row is the update's when it has one and the row's otherwise. *)
Lemma field_spread (item updates : Row) (c : string) :
  NoDup (map fst updates) ->
  field (spread item updates) c
  = match field updates c with
    | Some v => Some v
    | None => field item c
    end.
Proof.
  unfold spread. revert item.
  induction updates as [|[k v] rest IH]; intros item Hnd; [reflexivity|].
  cbn [fold_left fst snd field]. inversion Hnd as [|? ? Hk Hrest]; subst.
  rewrite (IH _ Hrest), field_setField.
  destruct (String.eqb k c) eqn:E; [|reflexivity].
  apply String.eqb_eq in E. subst c. rewrite (field_absent rest k Hk). reflexivity.
Qed.

(** X25. [update(updates).eq(col, val)] keeps the rows in place: a row
    whose column is not [val] is unchanged, a row whose column is [val] gets
    the properties of [updates] and keeps its others; the other tables are
    untouched. *)
Theorem update_eq_then_select (st : Storage) (table : string) (updates : Row)
    (col : string) (val : option Json)
    (Hkeys : NoDup (map fst updates)) :
  let st' := snd (update_eq true st table updates col val) in
  Forall2 (fun old new =>
             if strictEq (field old col) val
             then forall c, field new c = match field updates c with
                                          | Some v => Some v
                                          | None => field old c
                                          end
             else new = old)
          (getTable st table) (getTable st' table)
  /\ (forall other, other <> table -> getTable st' other = getTable st other).
Proof.
  intros st'. subst st'. unfold update_eq. cbn [snd]. split.
  - rewrite getTable_setTable, String.eqb_refl.
    induction (getTable st table) as [|item rest IH]; cbn [map]; constructor; [|exact IH].
    destruct (strictEq (field item col) val); [|reflexivity].
    intros c. apply field_spread, Hkeys.
  - intros other Hother. rewrite getTable_setTable.
    apply String.eqb_neq in Hother. rewrite Hother. reflexivity.
Qed.

Section SortedBy.
Context {A : Type}.
Variable comparefn : A -> A -> option Z.
Variable R : A -> A -> Prop.
Variable valid : A -> Prop.
Hypothesis after_R :
  forall x y, valid x -> valid y -> sortsAfter comparefn x y = true -> R y x.
Hypothesis not_after_R :
  forall x y, valid x -> valid y -> sortsAfter comparefn x y = false -> R x y.
Hypothesis R_trans :
  forall x y z, R x y -> R y z -> R x z.

Lemma insertSorted_sorted_by (x : A) (l : list A) :
  valid x -> Forall valid l -> StronglySorted R l ->
  StronglySorted R (insertSorted comparefn x l).
Proof.
  intros Hx Hl Hs. induction Hs as [|y l Hs IH Hy]; cbn [insertSorted].
  - constructor; constructor.
  - inversion Hl as [|? ? Hvy Hvl]; subst.
    destruct (sortsAfter comparefn x y) eqn:E.
    + constructor; [apply IH, Hvl|].
      eapply Permutation_Forall; [apply Permutation_sym, insertSorted_perm|].
      constructor; [apply after_R; assumption | exact Hy].
    + pose proof (not_after_R x y Hx Hvy E) as Hxy.
      constructor; [constructor; assumption|].
      constructor; [exact Hxy|].
      eapply Forall_impl; [|exact Hy]. intros z Hz. exact (R_trans _ _ _ Hxy Hz).
Qed.

Lemma Array_sort_sorted_by (l : list A) :
  Forall valid l -> StronglySorted R (Array_sort comparefn l).
Proof.
  induction 1 as [|x l Hx Hl IH]; cbn [Array_sort fold_right]; [constructor|].
  apply insertSorted_sorted_by; [exact Hx | | exact IH].
  eapply Permutation_Forall; [apply Permutation_sym, Array_sort_perm | exact Hl].
Qed.
End SortedBy.

Lemma string_ltb_leb (a b : string) : String.ltb a b = true -> String.leb a b = true.
Proof. unfold String.ltb, String.leb. destruct (String.compare a b); congruence. Qed.

Lemma string_not_ltb_leb (a b : string) : String.ltb a b = false -> String.leb b a = true.
Proof.
  unfold String.ltb, String.leb. rewrite (String.compare_antisym b a).
  destruct (String.compare a b); cbn; congruence.
Qed.

(** X26. [select().order(column, { ascending })] returns all the rows of
    the table and, on a column of strings, in ascending or descending order
    of that column. *)
Theorem select_order_sorted (lessThan : option Json -> option Json -> bool)
    (st : Storage) (table column : string) (ascending : bool) (sorted : list Row)
    (Hstrings : forall a b,
        lessThan (Some (JStr a)) (Some (JStr b)) = String.ltb a b)
    (Hcolumn : Forall (holdsString column) (getTable st table))
    (Hselect : data (select lessThan st table (Some (column, ascending))) = Some sorted) :
  Permutation sorted (getTable st table)
  /\ StronglySorted
       (fun a b => if ascending
                   then String.leb (columnString column a) (columnString column b) = true
                   else String.leb (columnString column b) (columnString column a) = true)
       sorted.
Proof.
  unfold select in Hselect. cbn [data] in Hselect. injection Hselect as <-.
  split; [apply Array_sort_perm|].
  apply Array_sort_sorted_by with (valid := holdsString column); [| | |exact Hcolumn].
  - intros x y (a & Ha) (b & Hb). unfold sortsAfter, orderCompare, columnString.
    rewrite Ha, Hb, !Hstrings.
    destruct (String.ltb a b) eqn:Eab; [|destruct (String.ltb b a) eqn:Eba];
      destruct ascending; cbn; try discriminate; intros _.
    + apply string_ltb_leb, Eab.
    + apply string_ltb_leb, Eba.
  - intros x y (a & Ha) (b & Hb). unfold sortsAfter, orderCompare, columnString.
    rewrite Ha, Hb, !Hstrings.
    destruct (String.ltb a b) eqn:Eab; [|destruct (String.ltb b a) eqn:Eba];
      destruct ascending; cbn; try discriminate; intros _.
    + apply string_ltb_leb, Eab.
    + apply string_ltb_leb, Eba.
    + apply string_not_ltb_leb, Eba.
    + apply string_not_ltb_leb, Eab.
  - intros x y z. destruct ascending; intros Hxy Hyz.
    + exact (string_leb_trans _ _ _ Hxy Hyz).
    + exact (string_leb_trans _ _ _ Hyz Hxy).
Qed.

End MockFacts.

Module OfflineFacts.
Import Mock MockFacts Offline.
Local Open Scope string_scope.

Lemma contributionBatch_run (uuidv4 : nat -> string) (s : Store) (member : Member)
    (memberId : string) (amount : Q) (accountId date notes : string) :
  find (fun m => String.eqb (m_id m) memberId) (members s) = Some member ->
  snd (addContribution uuidv4 s memberId amount accountId date notes)
  = updateMember
      (setTransactions
         (fun prev => (prev ++ fst (contributionBatch uuidv4 s member memberId amount
                                      accountId date notes))%list) s)
      memberId
      (advanceCreditOnly (snd (contributionBatch uuidv4 s member memberId amount
                                 accountId date notes))).
Proof.
  intros Hfind. unfold addContribution, contributionBatch. rewrite Hfind. cbv zeta.
  destruct (if Qgtb _ 0 then _ else _) as [repayments credit]. reflexivity.
Qed.

End OfflineFacts.

Section MoreWorkedExamples.
Local Open Scope string_scope.

Lemma later_working_date_sees_more_witness :
  String.leb (workingDate ledgerE) "2024-03-10" = true
  /\ forall d, isBeforeOrOnWorkingDate ledgerE d = true ->
               isBeforeOrOnWorkingDate (setWorkingDate "2024-03-10" ledgerE) d = true.
Proof.
  split; [reflexivity|].
  exact (proj1 (later_working_date_sees_more ledgerE "2024-03-10" eq_refl)).
Defined.

Lemma asOf_is_calendar_order_witness :
  JsDate.parse "2024-02-29" = Some 1709164800000%Z
  /\ JsDate.parse (workingDate ledgerA) = Some 1710028800000%Z
  /\ (isBeforeOrOnWorkingDate ledgerA "2024-02-29" = true
      <-> (1709164800000 <= 1710028800000)%Z).
Proof.
  split; [reflexivity|]. split; [reflexivity|].
  exact (asOf_is_calendar_order ledgerA "2024-02-29" 1709164800000 1710028800000
           eq_refl eq_refl).
Defined.

Lemma ledgerT_lent_run :
  addLoan "L9" "g9" false ledgerT "m1" 300 "acc" "2024-03-05" 10
  = Normal (RetNull, ledgerT_lent).
Proof. reflexivity. Qed.

Lemma addLoan_keeps_single_outstanding_witness :
  singleOutstandingLoan ledgerT /\ singleOutstandingLoan ledgerT_lent.
Proof.
  assert (H : singleOutstandingLoan ledgerT) by (intros m; cbn; lia).
  split; [exact H|].
  exact (addLoan_keeps_single_outstanding "L9" "g9" false ledgerT "m1" 300 "acc"
           "2024-03-05" 10 RetNull ledgerT_lent H ledgerT_lent_run).
Defined.

Lemma addLoan_blocks_next_loan_witness :
  exists msg,
    addLoan "L10" "g10" false ledgerT_lent "m1" 100 "acc" "2024-03-06" 10
    = Normal (RetMessage msg, ledgerT_lent)
    /\ (msg = InsufficientFunds \/ msg = OutstandingLoan).
Proof.
  apply (addLoan_blocks_next_loan "L9" "g9" false ledgerT "m1" 300 "acc" "2024-03-05" 10
           RetNull ledgerT_lent ledgerT_lent_run).
  - left. reflexivity.
  - intros t [<-|[<-|[<-|[]]]]; discriminate.
  - reflexivity.
  - discriminate.
Defined.

Lemma addContribution_credit_nonneg_witness :
  find (fun m => String.eqb (m_id m) "m1") (members ledgerD)
  = Some (mkMember "m1" "Ann" true 0)
  /\ forall m,
       In m (members (snd (addContribution demoIds ledgerD "m1" 400 "acc" "2024-03-10" ""))) ->
       m_id m = "m1" -> 0 <= m_advance_credit m.
Proof.
  split; [reflexivity|].
  exact (addContribution_credit_nonneg demoIds ledgerD "m1" 400 "acc" "2024-03-10" ""
           (mkMember "m1" "Ann" true 0) eq_refl).
Defined.


Lemma deleteTransaction_undoes_single_entry_witness :
  deleteTransaction false
    (snd (addOpeningBalance "z1" ledgerT "acc" 75 PRINCIPAL "2024-03-04" "")) "z1"
  = ledgerT.
Proof.
  apply (deleteTransaction_undoes_single_entry "z1" ledgerT).
  intros t [<-|[<-|[<-|[]]]]; discriminate.
Defined.

Lemma addMember_then_found_witness :
  find (fun m => String.eqb (m_id m) "m2")
       (members (snd (addMember "m2" ledgerA "Ben" 25)))
  = Some (mkMember "m2" "Ben" true 25).
Proof.
  apply (addMember_then_found "m2" ledgerA "Ben" 25).
  intros m [<-|[]]. discriminate.
Defined.

Lemma deleteAccount_undoes_addAccount_witness :
  deleteAccount (snd (addAccount "a9" ledgerT "Safe" CASH None)) "a9" = (RetNull, ledgerT).
Proof.
  apply (deleteAccount_undoes_addAccount "a9" ledgerT "Safe" CASH None).
  - intros a [<-|[<-|[]]]; discriminate.
  - intros t [<-|[<-|[<-|[]]]]; discriminate.
Defined.

Lemma update_eq_then_select_witness :
  NoDup (map fst [("advance_credit", Mock.JNum 5)])
  /\ Mock.getTable
       (snd (Mock.update_eq true twoMembers "members" [("advance_credit", Mock.JNum 5)]
               "id" (Some (Mock.JStr "m1")))) "accounts"
     = Mock.getTable twoMembers "accounts".
Proof.
  assert (H : NoDup (map fst [("advance_credit", Mock.JNum 5)])).
  { constructor; [intros []|constructor]. }
  split; [exact H|].
  apply (MockFacts.update_eq_then_select twoMembers "members"
           [("advance_credit", Mock.JNum 5)] "id" (Some (Mock.JStr "m1")) H).
  discriminate.
Defined.

Lemma select_order_sorted_witness :
  Permutation
    [Offline.memberRow (mkMember "m1" "Ann" true 0);
     Offline.memberRow (mkMember "m2" "Zoe" true 0)]
    (Mock.getTable twoMembers "members")
  /\ StronglySorted
       (fun a b => String.leb (Mock.columnString "name" a) (Mock.columnString "name" b)
                   = true)
       [Offline.memberRow (mkMember "m1" "Ann" true 0);
        Offline.memberRow (mkMember "m2" "Zoe" true 0)].
Proof.
  apply (MockFacts.select_order_sorted stringsLessThan twoMembers "members" "name" true).
  - intros a b. reflexivity.
  - repeat constructor; eexists; reflexivity.
  - reflexivity.
Defined.

End MoreWorkedExamples.

(** ** Reloading from the offline backend *)

Module ReloadFacts.
Import Mock MockFacts Offline Reload.
Local Open Scope string_scope.

Lemma readAll_map {A : Type} (read : Row -> option A) (row : A -> Row) (l : list A) :
  (forall x, In x l -> read (row x) = Some x) ->
  readAll read (map row l) = Some l.
Proof.
  induction l as [|x l IH]; intros H; [reflexivity|].
  cbn [map readAll]. rewrite (H x (or_introl eq_refl)), IH; [reflexivity|].
  intros y Hy. apply H. right. exact Hy.
Qed.

Lemma readMember_row (m : Member) : readMember (memberRow m) = Some m.
Proof. destruct m. reflexivity. Qed.

Lemma readLoan_row (l : Loan) : readLoan (loanRow l) = Some l.
Proof. destruct l. reflexivity. Qed.

Lemma readTransaction_row (t : Transaction) : readTransaction (transactionRow t) = Some t.
Proof.
  destruct t as [id date memberId accountId fund kind amount loanId notes].
  destruct memberId, loanId, fund, kind; reflexivity.
Qed.

Lemma readAccount_row (a : Account) :
  a_memberId a <> Some "" -> readAccount (accountRow a) = Some a.
Proof.
  destruct a as [id name type active memberId]. cbn [a_memberId].
  intros Hm. destruct memberId as [m|].
  - unfold readAccount, accountRow. cbn [a_memberId a_id a_account_name a_type a_active].
    destruct (String.eqb m "") eqn:E; [apply String.eqb_eq in E; congruence|].
    destruct type; reflexivity.
  - destruct type; reflexivity.
Qed.

Lemma readAccount_default (a : Account) :
  a_memberId a = None -> readAccount (defaultAccountRow a) = Some a.
Proof.
  destruct a as [id name type active memberId]. cbn [a_memberId]. intros ->.
  destruct type; reflexivity.
Qed.

(** X29. The default accounts are created once: when the store and the
    accounts table are empty, [fetchData] puts Cash, Airtel Money, Mpamba
    and Bank in the store and their rows in the table and keeps everything
    else; a further [fetchData], whatever identifiers it would draw, reads
    these accounts back and creates none, although their rows carry no
    [member_id].  When the write to local storage fails the store holds the
    accounts and the table stays empty. *)
Theorem fetchData_seeds_once (lessThan : option Json -> option Json -> bool)
    (uuidv4 uuidv4' : nat -> string) (writeOk' : bool) (s : Store) (st : Storage)
    (Hmirror : mirrors s st)
    (Hnone : accounts s = []) :
  let s' := setAccounts (fun _ => defaultAccounts uuidv4) s in
  let st' := snd (insert true st "accounts"
                    (ManyRows (map defaultAccountRow (defaultAccounts uuidv4)))) in
  fetchData lessThan uuidv4 true s st = Some (s', st')
  /\ getTable st' "accounts" = map defaultAccountRow (defaultAccounts uuidv4)
  /\ fetchData lessThan uuidv4' writeOk' s' st' = Some (s', st')
  /\ fetchData lessThan uuidv4 false s st = Some (s', st).
Proof.
  destruct Hmirror as (Hm & Ha & Hl & Ht). rewrite Hnone in Ha. cbn [map] in Ha.
  assert (Hfirst : forall w,
             fetchData lessThan uuidv4 w s st
             = Some (setAccounts (fun _ => defaultAccounts uuidv4) s,
                     snd (insert w st "accounts"
                            (ManyRows (map defaultAccountRow (defaultAccounts uuidv4)))))).
  { intros w. unfold fetchData, fetched, select. cbn [data]. rewrite Hm, Ha, Hl, Ht.
    rewrite (readAll_map readMember memberRow) by (intros; apply readMember_row).
    rewrite (readAll_map readLoan loanRow) by (intros; apply readLoan_row).
    rewrite (readAll_map readTransaction transactionRow)
      by (intros; apply readTransaction_row).
    reflexivity. }
  assert (Hrows : getTable (snd (insert true st "accounts"
                     (ManyRows (map defaultAccountRow (defaultAccounts uuidv4))))) "accounts"
                  = map defaultAccountRow (defaultAccounts uuidv4)).
  { unfold insert. cbn [snd]. rewrite getTable_setTable, Ha. reflexivity. }
  intros s' st'. split; [apply Hfirst|]. split; [exact Hrows|]. split; [|apply Hfirst].
  change (getTable st' "accounts" = map defaultAccountRow (defaultAccounts uuidv4)) in Hrows.
  unfold fetchData, fetched, select. cbn [data]. rewrite Hrows.
  assert (Hother : forall other, String.eqb other "accounts" = false ->
                                 getTable st' other = getTable st other).
  { intros other Ho. unfold st', insert. cbn [snd]. rewrite getTable_setTable, Ho.
    reflexivity. }
  rewrite (Hother "members"), (Hother "loans"), (Hother "transactions") by reflexivity.
  rewrite Hm, Hl, Ht.
  rewrite (readAll_map readMember memberRow) by (intros; apply readMember_row).
  rewrite (readAll_map readLoan loanRow) by (intros; apply readLoan_row).
  rewrite (readAll_map readTransaction transactionRow)
    by (intros; apply readTransaction_row).
  rewrite (readAll_map readAccount defaultAccountRow).
  - unfold s'. destruct s; reflexivity.
  - intros a Hin. apply readAccount_default.
    destruct Hin as [<-|[<-|[<-|[<-|[]]]]]; reflexivity.
Qed.

End ReloadFacts.

Section ReloadWorkedExamples.
Local Open Scope string_scope.

Lemma fetchData_seeds_once_witness :
  Offline.mirrors ledgerNew emptyStorage
  /\ accounts ledgerNew = []
  /\ Reload.fetchData stringsLessThan demoIds true ledgerNew emptyStorage
     = Some (setAccounts (fun _ => Reload.defaultAccounts demoIds) ledgerNew,
             snd (Mock.insert true emptyStorage "accounts"
                    (Mock.ManyRows (map Reload.defaultAccountRow
                                        (Reload.defaultAccounts demoIds))))).
Proof.
  assert (H : Offline.mirrors ledgerNew emptyStorage) by (repeat split).
  split; [exact H|]. split; [reflexivity|].
  exact (proj1 (ReloadFacts.fetchData_seeds_once stringsLessThan demoIds demoIds true
                  ledgerNew emptyStorage H eq_refl)).
Defined.

End ReloadWorkedExamples.

(** * Properties of the binary64 store *)

Module Binary64.
Local Open Scope float_scope.

(** ** Comparisons of binary64 numbers *)

Lemma SFcompare_antisym (x y : spec_float) :
  SFcompare y x = option_map CompOpp (SFcompare x y).
Proof.
  destruct x as [sx|sx| |sx mx ex], y as [sy|sy| |sy my ey]; cbn [SFcompare option_map];
    try reflexivity;
    try (destruct sx; reflexivity); try (destruct sy; reflexivity);
    try (destruct sx, sy; reflexivity).
  rewrite (Z.compare_antisym ex ey).
  change (PosDef.Pos.compare_cont Eq my mx) with (Pos.compare my mx).
  change (PosDef.Pos.compare_cont Eq mx my) with (Pos.compare mx my).
  rewrite (Pos.compare_antisym mx my).
  destruct sx, sy; cbn [CompOpp]; try reflexivity;
    destruct (ex ?= ey)%Z; cbn [CompOpp]; try reflexivity;
    destruct (mx ?= my)%positive; reflexivity.
Qed.

Lemma SFcompare_refl (x : spec_float) :
  SFcompare x x = match x with S754_nan => None | _ => Some Eq end.
Proof.
  destruct x as [s|s| |s m e]; cbn [SFcompare]; try reflexivity.
  - destruct s; reflexivity.
  - rewrite Z.compare_refl.
    change (PosDef.Pos.compare_cont Eq m m) with (Pos.compare m m).
    rewrite Pos.compare_refl. destruct s; reflexivity.
Qed.

Lemma SFcompare_nan_l (y : spec_float) : SFcompare S754_nan y = None.
Proof. reflexivity. Qed.

Lemma SFcompare_nan_r (x : spec_float) : SFcompare x S754_nan = None.
Proof. destruct x; reflexivity. Qed.

Lemma SFcompare_some (x y : spec_float) :
  x <> S754_nan -> y <> S754_nan -> exists c, SFcompare x y = Some c.
Proof.
  destruct x, y; intros Hx Hy; try congruence; cbn [SFcompare]; eexists; reflexivity.
Qed.

(** [is_nan] recognises the one NaN. *)
Lemma is_nan_Prim2SF (x : float) :
  is_nan x = match Prim2SF x with S754_nan => true | _ => false end.
Proof.
  unfold is_nan. rewrite FloatAxioms.eqb_spec. unfold SFeqb. rewrite SFcompare_refl.
  destruct (Prim2SF x); reflexivity.
Qed.

Lemma not_nan_Prim2SF (x : float) : is_nan x = false <-> Prim2SF x <> S754_nan.
Proof.
  pose proof (is_nan_Prim2SF x) as H.
  destruct (Prim2SF x); rewrite H; split; congruence.
Qed.

(** A comparison that holds has two numbers. *)
Lemma ltb_numbers (a b : float) :
  (a <? b) = true -> is_nan a = false /\ is_nan b = false.
Proof.
  rewrite FloatAxioms.ltb_spec, !is_nan_Prim2SF. unfold SFltb.
  destruct (Prim2SF a), (Prim2SF b); cbn [SFcompare]; intros H;
    try discriminate; split; reflexivity.
Qed.

Lemma leb_numbers (a b : float) :
  (a <=? b) = true -> is_nan a = false /\ is_nan b = false.
Proof.
  rewrite FloatAxioms.leb_spec, !is_nan_Prim2SF. unfold SFleb.
  destruct (Prim2SF a), (Prim2SF b); cbn [SFcompare]; intros H;
    try discriminate; split; reflexivity.
Qed.

(** On two numbers, [a <= b] fails exactly when [b < a]. *)
Lemma ltb_negb_leb (a b : float) :
  is_nan a = false -> is_nan b = false -> (b <? a) = negb (a <=? b).
Proof.
  intros Ha Hb. apply not_nan_Prim2SF in Ha. apply not_nan_Prim2SF in Hb.
  rewrite FloatAxioms.ltb_spec, FloatAxioms.leb_spec. unfold SFltb, SFleb. rewrite (SFcompare_antisym (Prim2SF a) (Prim2SF b)).
  destruct (SFcompare_some _ _ Ha Hb) as [c ->]. destruct c; reflexivity.
Qed.

Lemma leb_true_ltb_false (a b : float) : (a <=? b) = true -> (b <? a) = false.
Proof.
  intros H. destruct (leb_numbers a b H) as [Ha Hb].
  rewrite (ltb_negb_leb a b Ha Hb), H. reflexivity.
Qed.

Lemma ltb_true_leb_false (a b : float) : (b <? a) = true -> (a <=? b) = false.
Proof.
  intros H. destruct (ltb_numbers b a H) as [Hb Ha].
  rewrite (ltb_negb_leb a b Ha Hb) in H. apply negb_true_iff in H. exact H.
Qed.

Lemma is_nan_abs (x : float) : is_nan (abs x) = is_nan x.
Proof.
  rewrite !is_nan_Prim2SF, FloatAxioms.abs_spec. destruct (Prim2SF x); reflexivity.
Qed.

Lemma is_nan_opp (x : float) : is_nan (- x) = is_nan x.
Proof.
  rewrite !is_nan_Prim2SF, FloatAxioms.opp_spec. destruct (Prim2SF x); reflexivity.
Qed.

End Binary64.

Module DoubleFacts.
Import Binary64 Double DoubleExamples.
Local Open Scope string_scope.
Local Open Scope list_scope.
Local Open Scope float_scope.

(** ** Sums in the order of the log *)

Lemma sumAmounts_last (l : list Transaction) (t : Transaction) :
  sumAmounts (l ++ [t]) = sumAmounts l + t_amount t.
Proof. unfold sumAmounts. rewrite fold_left_app. reflexivity. Qed.

(** [reduce] adds the amounts in the order of the log. *)
Lemma sumAmounts_inOrder (l : list Transaction) :
  sumAmounts l = sumInOrder (amounts l).
Proof.
  induction l as [|t l IH] using rev_ind; [reflexivity|].
  rewrite sumAmounts_last, IH. unfold sumInOrder, amounts.
  rewrite map_app, rev_app_distr. reflexivity.
Qed.

(** C3. In binary64 arithmetic [getLoanDetails] returns interestAmount =
    principal x (rate / 100), the quotient taken first as the source has it,
    totalDue = principal + interestAmount, amountPaid = the sum, added in the
    order of the log, of the LOAN_REPAYMENT entries that reference the loan
    and are dated on or before the working date ([paid] is any test deciding
    [countsTowards]), balance = totalDue - amountPaid, and status PAID when
    balance <= 0, else OVERDUE when the working date is strictly after the
    due date, else UNPAID. *)
Theorem getLoanDetails_spec (s : Store) (loan : Loan) (paid : Transaction -> bool)
    (Hpaid : forall t, paid t = true <-> countsTowards s loan t) :
  let d := getLoanDetails s loan in
  interestAmount d = l_amount_given loan * (l_interest_rate loan / 100)
  /\ totalDue d = l_amount_given loan + interestAmount d
  /\ amountPaid d = sumInOrder (amounts (filter paid (transactions s)))
  /\ balance d = totalDue d - amountPaid d
  /\ ((balance d <=? 0) = true -> status d = PAID)
  /\ ((balance d <=? 0) = false ->
      String.ltb (l_due_date loan) (workingDate s) = true -> status d = OVERDUE)
  /\ ((balance d <=? 0) = false ->
      String.ltb (l_due_date loan) (workingDate s) = false -> status d = UNPAID).
Proof.
  intros d. subst d. unfold getLoanDetails.
  cbn [interestAmount totalDue amountPaid balance status].
  split; [reflexivity|]. split; [reflexivity|].
  split.
  { rewrite sumAmounts_inOrder. do 2 f_equal. apply filter_agree. intros t.
    rewrite Hpaid. unfold countsTowards, isBeforeOrOnWorkingDate.
    rewrite !andb_true_iff, optEq_eq, TransactionType_eqb_eq. tauto. }
  split; [reflexivity|].
  split; [|split].
  - intros ->. reflexivity.
  - intros -> ->. reflexivity.
  - intros -> ->. reflexivity.
Qed.


(** C9. [deleteAccount] adds up, in the order of the log and in binary64
    arithmetic, all the entries of the account, whatever their dates
    ([ofAccount] is any test deciding that an entry is on the account).  It
    returns the refusal message and leaves the store unchanged when the
    absolute value of that sum exceeds 0.01, and removes the account
    otherwise; when the sum is a number, the account is removed if and only
    if the absolute value is within 0.01. *)
Theorem deleteAccount_spec (s : Store) (id : string) (ofAccount : Transaction -> bool)
    (Hof : forall t, ofAccount t = true <-> t_accountId t = id) :
  let totalBalance := sumInOrder (amounts (filter ofAccount (transactions s))) in
  let r := deleteAccount s id in
  ((0.01 <? abs totalBalance) = false ->
   fst r = RetNull
   /\ accounts (snd r) = filter (fun a => negb (String.eqb (a_id a) id)) (accounts s)
   /\ (forall a, In a (accounts (snd r)) <-> In a (accounts s) /\ a_id a <> id)
   /\ transactions (snd r) = transactions s
   /\ members (snd r) = members s /\ loans (snd r) = loans s)
  /\ ((0.01 <? abs totalBalance) = true ->
      r = (RetMessage (CannotDeleteAccount totalBalance), s))
  /\ (is_nan totalBalance = false ->
      ((0.01 <? abs totalBalance) = false <-> (abs totalBalance <=? 0.01) = true)
      /\ forall a, In a (accounts s) -> a_id a = id ->
           (~ In a (accounts (snd r)) <-> (abs totalBalance <=? 0.01) = true)).
Proof.
  intros totalBalance r.
  assert (Hsum : sumAmounts (filter (fun t => String.eqb (t_accountId t) id)
                                    (transactions s)) = totalBalance).
  { subst totalBalance. rewrite sumAmounts_inOrder. do 2 f_equal.
    apply filter_agree. intros t. rewrite Hof, String.eqb_eq. tauto. }
  assert (Hmem : forall a,
             In a (filter (fun a => negb (String.eqb (a_id a) id)) (accounts s))
             <-> In a (accounts s) /\ a_id a <> id).
  { intros a. rewrite filter_In, negb_true_iff, String.eqb_neq. tauto. }
  assert (Htol : is_nan totalBalance = false ->
                 (0.01 <? abs totalBalance) = negb (abs totalBalance <=? 0.01)).
  { intros Hnum. apply ltb_negb_leb; [|reflexivity]. rewrite is_nan_abs. exact Hnum. }
  subst r. unfold deleteAccount. rewrite Hsum.
  destruct (0.01 <? abs totalBalance) eqn:E; cbn [fst snd].
  - split; [discriminate|]. split; [reflexivity|].
    intros Hnum. specialize (Htol Hnum). symmetry in Htol.
    apply negb_true_iff in Htol. rewrite Htol.
    split; [split; discriminate|].
    intros a Hin Hid. split; [contradiction | discriminate].
  - split.
    { intros _. split; [reflexivity|]. split; [reflexivity|].
      split; [exact Hmem|]. repeat split. }
    split; [discriminate|].
    intros Hnum. specialize (Htol Hnum). symmetry in Htol.
    apply negb_false_iff in Htol. rewrite Htol.
    split; [split; reflexivity|].
    intros a Hin Hid. split; [reflexivity|].
    intros _ Hstill. apply Hmem in Hstill. tauto.
Qed.

(** ** The contribution allocator *)

Lemma is_nan_eq (x : float) : is_nan x = true -> x = nan.
Proof.
  intros H. apply Prim2SF_inj. rewrite is_nan_Prim2SF in H.
  destruct (Prim2SF x); try discriminate. reflexivity.
Qed.

Lemma Math_min_cases (a b : float) :
  is_nan a = false -> is_nan b = false -> Math_min a b = a \/ Math_min a b = b.
Proof.
  intros Ha Hb. unfold Math_min. rewrite Ha, Hb. cbn [orb].
  destruct (a <? b); [left; reflexivity|].
  destruct (b <? a); [right; reflexivity|].
  destruct (get_sign a); [left | right]; reflexivity.
Qed.

Lemma Math_min_nan (a b : float) : is_nan a = true -> Math_min a b = nan.
Proof. intros Ha. unfold Math_min. rewrite Ha. reflexivity. Qed.

Lemma Math_min_pos (a b : float) :
  (0 <? a) = true -> (0 <? b) = true -> (0 <? Math_min a b) = true.
Proof.
  intros Ha Hb.
  destruct (ltb_numbers _ _ Ha) as [_ Na]. destruct (ltb_numbers _ _ Hb) as [_ Nb].
  destruct (Math_min_cases a b Na Nb) as [-> | ->]; assumption.
Qed.

(** A balance that is a number and does not make the loan PAID is positive. *)
Lemma unpaid_balance_positive (s : Store) (l : Loan) :
  is_nan (balance (getLoanDetails s l)) = false ->
  status (getLoanDetails s l) <> PAID ->
  (0 <? balance (getLoanDetails s l)) = true.
Proof.
  intros Hnum. unfold getLoanDetails in *. cbn [status balance] in *.
  set (b := _ - _) in *.
  rewrite (ltb_negb_leb b 0 Hnum eq_refl).
  destruct (b <=? 0); [congruence | reflexivity].
Qed.

Section AutoRepayLoop.
Variable uuidv4 : nat -> string.
Variables memberId accountId date : string.

Lemma autoRepay_entries_shape (queue : list (Loan * LoanDetails)) (extra : float) (drawn : nat) :
  Forall (autoRepaymentShape memberId accountId date)
         (fst (autoRepay uuidv4 memberId accountId date queue extra drawn)).
Proof.
  revert extra drawn.
  induction queue as [|loan rest IH]; intros extra drawn; cbn [autoRepay fst].
  - constructor.
  - destruct (extra <=? 0); [constructor|].
    destruct (0 <? Math_min extra (balance (snd loan))).
    + specialize (IH (extra - Math_min extra (balance (snd loan))) (S drawn)).
      destruct (autoRepay _ _ _ _ rest _ _) as [pushed leftOver]. cbn [fst] in *.
      constructor; [|exact IH]. repeat split.
    + apply IH.
Qed.

(** With NaN left to allocate the loop pushes nothing. *)
Lemma autoRepay_nan (queue : list (Loan * LoanDetails)) (extra : float) (drawn : nat) :
  is_nan extra = true ->
  autoRepay uuidv4 memberId accountId date queue extra drawn = ([], extra).
Proof.
  intros Hnan. apply is_nan_eq in Hnan. subst extra. revert drawn.
  induction queue as [|loan rest IH]; intros drawn; cbn [autoRepay]; [reflexivity|].
  change (nan <=? 0) with false. cbv iota.
  rewrite (Math_min_nan nan (balance (snd loan)) eq_refl).
  change (0 <? nan) with false. cbv iota. apply IH.
Qed.

(** On a queue of loans with a positive balance the loop is the waterfall. *)
Lemma autoRepay_is_waterfall (queue : list (Loan * LoanDetails)) (extra : float) (drawn : nat) :
  Forall (fun loan => (0 <? balance (snd loan)) = true) queue ->
  map repaymentView (fst (autoRepay uuidv4 memberId accountId date queue extra drawn))
  = map (fun r => (Some (fst r), snd r)) (fst (waterfall queue extra))
  /\ snd (autoRepay uuidv4 memberId accountId date queue extra drawn)
     = snd (waterfall queue extra).
Proof.
  intros Hpos. revert extra drawn.
  induction Hpos as [|loan rest Hbal Hpos IH]; intros extra drawn.
  - split; reflexivity.
  - destruct (is_nan extra) eqn:Hnan.
    + rewrite (autoRepay_nan (loan :: rest) extra drawn Hnan). cbn [waterfall].
      replace (0 <? extra) with false; [split; reflexivity|].
      symmetry. destruct (0 <? extra) eqn:E; [|reflexivity].
      apply ltb_numbers in E. destruct E as [_ E]. congruence.
    + cbn [autoRepay waterfall].
      rewrite (ltb_negb_leb extra 0 Hnan eq_refl).
      destruct (extra <=? 0) eqn:E; cbn [negb]; [split; reflexivity|].
      assert (Hextra : (0 <? extra) = true).
      { rewrite (ltb_negb_leb extra 0 Hnan eq_refl), E. reflexivity. }
      rewrite (Math_min_pos extra (balance (snd loan)) Hextra Hbal).
      specialize (IH (extra - Math_min extra (balance (snd loan))) (S drawn)).
      destruct (autoRepay _ _ _ _ rest _ _) as [pushed leftOver].
      destruct (waterfall rest _) as [more final]. cbn [fst snd map] in *.
      destruct IH as [IH1 IH2]. split; [|exact IH2].
      unfold repaymentView at 1. cbn [repaymentEntry t_related_loan_id t_amount].
      f_equal. exact IH1.
Qed.
End AutoRepayLoop.

(** *** The queue of unpaid loans *)

Lemma owed_filter_map (s : Store) (memberId : string) (l : list Loan) :
  filter (fun p : Loan * LoanDetails => negb (LoanStatus_eqb (status (snd p)) PAID))
    (map (fun l => (l, getLoanDetails s l))
       (filter (fun l => String.eqb (l_memberId l) memberId) l))
  = map (fun l => (l, getLoanDetails s l)) (filter (owedBy s memberId) l).
Proof.
  induction l as [|x l IH]; [reflexivity|].
  cbn [filter]. unfold owedBy at 1.
  destruct (String.eqb (l_memberId x) memberId); cbn [andb map filter snd]; [|exact IH].
  destruct (negb (LoanStatus_eqb (status (getLoanDetails s x)) PAID));
    cbn [map]; [f_equal|]; exact IH.
Qed.

Lemma unpaidLoans_permutation (host : Engine) (s : Store) (memberId : string) :
  Permutation (unpaidLoans host s memberId)
    (map (fun l => (l, getLoanDetails s l)) (filter (owedBy s memberId) (loans s))).
Proof.
  unfold unpaidLoans. rewrite owed_filter_map. apply Array_sort_perm.
Qed.

Lemma owedBy_iff (s : Store) (memberId : string) (l : Loan) :
  owedBy s memberId l = true
  <-> l_memberId l = memberId /\ status (getLoanDetails s l) <> PAID.
Proof.
  unfold owedBy. rewrite andb_true_iff, String.eqb_eq, LoanStatus_neqb. tauto.
Qed.

Lemma unpaidLoans_members (host : Engine) (s : Store) (memberId : string) :
  Forall (fun p => In (fst p) (loans s)
                   /\ l_memberId (fst p) = memberId
                   /\ snd p = getLoanDetails s (fst p)
                   /\ status (snd p) <> PAID)
         (unpaidLoans host s memberId).
Proof.
  eapply Permutation_Forall; [apply Permutation_sym, unpaidLoans_permutation|].
  apply Forall_forall. intros p Hp.
  apply in_map_iff in Hp. destruct Hp as (l & <- & Hl).
  apply filter_In in Hl. destruct Hl as [Hin Howed].
  apply owedBy_iff in Howed. cbn [fst snd]. tauto.
Qed.

Lemma unpaidLoans_balances_positive (host : Engine) (s : Store) (memberId : string) :
  (forall l, In l (loans s) -> l_memberId l = memberId ->
             is_nan (balance (getLoanDetails s l)) = false) ->
  Forall (fun p => (0 <? balance (snd p)) = true) (unpaidLoans host s memberId).
Proof.
  intros Hnum. eapply Forall_impl; [|apply unpaidLoans_members].
  intros p (Hin & Hm & E & Hst). rewrite E in *.
  apply unpaid_balance_positive; [apply Hnum; assumption | exact Hst].
Qed.

Lemma oldestFirst_days (host : Engine) (a b : Loan * LoanDetails) :
  calendarDate (l_date_given (fst a)) -> calendarDate (l_date_given (fst b)) ->
  oldestFirst host a b
  = Some (dayOf (l_date_given (fst a)) - dayOf (l_date_given (fst b)))%Z.
Proof.
  unfold calendarDate, oldestFirst, getTime, Date_parse, dayOf.
  intros [x ->] [y ->]. reflexivity.
Qed.

Lemma dayOf_order (a b : string) :
  calendarDate a -> calendarDate b -> (dayOf a <= dayOf b)%Z -> String.leb a b = true.
Proof.
  unfold calendarDate, dayOf. intros [x Hx] [y Hy]. rewrite Hx, Hy. intros Hle.
  unfold String.leb. rewrite (DateOrder.string_compare_dates a b x y Hx Hy).
  destruct (Z.compare_spec x y); try reflexivity. lia.
Qed.

Lemma unpaidLoans_by_date (host : Engine) (s : Store) (memberId : string) :
  (forall l, In l (loans s) -> owedBy s memberId l = true ->
             calendarDate (l_date_given l)) ->
  StronglySorted (fun a b => issuedNoLaterThan (fst a) (fst b))
                 (unpaidLoans host s memberId).
Proof.
  intros Hdates.
  assert (Hvalid : Forall (fun p : Loan * LoanDetails => calendarDate (l_date_given (fst p)))
             (filter (fun p => negb (LoanStatus_eqb (status (snd p)) PAID))
                (map (fun l => (l, getLoanDetails s l))
                   (filter (fun l => String.eqb (l_memberId l) memberId) (loans s))))).
  { rewrite owed_filter_map. apply Forall_forall. intros p Hp.
    apply in_map_iff in Hp. destruct Hp as (l & <- & Hl).
    apply filter_In in Hl. cbn [fst]. apply Hdates; tauto. }
  apply StronglySorted_weaken
    with (P := fun p => calendarDate (l_date_given (fst p)))
         (R := fun a b => (dayOf (l_date_given (fst a)) <= dayOf (l_date_given (fst b)))%Z).
  - intros a b Ha Hb Hle. apply dayOf_order; assumption.
  - eapply Permutation_Forall; [apply Permutation_sym, Array_sort_perm | exact Hvalid].
  - unfold unpaidLoans.
    apply Array_sort_sorted
      with (key := fun p => dayOf (l_date_given (fst p)))
           (valid := fun p => calendarDate (l_date_given (fst p))).
    + intros x y. apply oldestFirst_days.
    + exact Hvalid.
Qed.

(** *** The allocator's effect on the store *)

Lemma members_updateAdvanceCredit (s : Store) (memberId : string) (credit : float) :
  members (updateAdvanceCredit s memberId credit)
  = map (withCredit memberId credit) (members s).
Proof. reflexivity. Qed.

Lemma addContribution_registered (host : Engine) (uuidv4 : nat -> string) (s : Store)
    (memberId : string) (amount : float) (accountId date notes : string)
    (member : Member) :
  find (fun m => String.eqb (m_id m) memberId) (members s) = Some member ->
  let share := allocatedShare s member memberId amount date in
  let extra := amount + m_advance_credit member - share in
  let shareEntries :=
    if 0 <? share
    then [contributionEntry (uuidv4 O) date memberId accountId share notes]
    else [] in
  let auto :=
    if 0 <? extra
    then autoRepay uuidv4 memberId accountId date (unpaidLoans host s memberId) extra
                   (List.length shareEntries)
    else ([], 0) in
  addContribution host uuidv4 s memberId amount accountId date notes
  = (RetNull,
     updateAdvanceCredit (setTransactions (fun prev => prev ++ shareEntries ++ fst auto) s)
                         memberId (snd auto)).
Proof.
  intros Hfind. unfold addContribution. rewrite Hfind. cbv zeta.
  fold (allocatedShare s member memberId amount date).
  destruct (if 0 <? (amount + m_advance_credit member
                     - allocatedShare s member memberId amount date)
            then _ else _) as [repayments credit].
  reflexivity.
Qed.


Lemma existingContribution_inOrder (s : Store) (memberId date : string)
    (today : Transaction -> bool) :
  (forall t, today t = true <-> contributedOn memberId date t) ->
  existingContributionAmountOnDate s memberId date
  = sumInOrder (amounts (filter today (transactions s))).
Proof.
  intros Htoday. unfold existingContributionAmountOnDate.
  rewrite sumAmounts_inOrder. do 2 f_equal.
  apply filter_agree. intros t. rewrite Htoday. unfold contributedOn.
  rewrite !andb_true_iff, optEq_eq, String.eqb_eq, TransactionType_eqb_eq. tauto.
Qed.



(** C2. With extra = pool - share (share as in C1): when extra > 0 the
    allocator takes the member's loans whose status at the working date is
    not PAID, with the details [getLoanDetails] gives them, in ascending
    order of date of issue when these dates are calendar dates (whatever the
    host makes of other strings), and appends for each in that order, while
    extra > 0, one LOAN_REPAYMENT entry with fund pool PRINCIPAL of
    min(extra, the loan's balance) referencing the loan, decrementing extra
    by it (the [waterfall]); what is left becomes the member's carried
    credit, replacing the previous value (the balances of the member's
    loans being numbers, not NaN).  When extra is not positive nothing is
    repaid and the carried credit becomes 0. *)
Theorem addContribution_waterfall (host : Engine) (uuidv4 : nat -> string) (s : Store)
    (memberId : string) (amount : float) (accountId date notes : string)
    (member : Member) (today : Transaction -> bool)
    (Hmember : find (fun m => String.eqb (m_id m) memberId) (members s) = Some member)
    (Htoday : forall t, today t = true <-> contributedOn memberId date t) :
  let pool := amount + m_advance_credit member in
  let share :=
    Math_min (Math_max 0 (1000 - sumInOrder (amounts (filter today (transactions s)))))
             pool in
  let extra := pool - share in
  let queue := unpaidLoans host s memberId in
  let s' := snd (addContribution host uuidv4 s memberId amount accountId date notes) in
  Permutation (map fst queue) (filter (owedBy s memberId) (loans s))
  /\ Forall (fun p => snd p = getLoanDetails s (fst p)) queue
  /\ ((forall l, In l (loans s) -> owedBy s memberId l = true ->
                 calendarDate (l_date_given l)) ->
      StronglySorted (fun a b => issuedNoLaterThan (fst a) (fst b)) queue)
  /\ exists shareEntries repayments,
       transactions s' = transactions s ++ shareEntries ++ repayments
       /\ Forall (fun t => t_transaction_type t = CONTRIBUTION) shareEntries
       /\ Forall (autoRepaymentShape memberId accountId date) repayments
       /\ ((0 <? extra) = true ->
           (forall l, In l (loans s) -> l_memberId l = memberId ->
                      is_nan (balance (getLoanDetails s l)) = false) ->
           map repaymentView repayments
           = map (fun r => (Some (fst r), snd r)) (fst (waterfall queue extra))
           /\ members s' = map (withCredit memberId (snd (waterfall queue extra)))
                               (members s))
       /\ ((0 <? extra) = false ->
           repayments = []
           /\ members s' = map (withCredit memberId 0) (members s)).
Proof.
  intros pool share extra queue s'.
  assert (Hshare : allocatedShare s member memberId amount date = share).
  { unfold allocatedShare.
    rewrite (existingContribution_inOrder s memberId date today Htoday).
    reflexivity. }
  split.
  { subst queue.
    rewrite (Permutation_map fst (unpaidLoans_permutation host s memberId)).
    rewrite map_map. cbn [fst]. rewrite map_id. apply Permutation_refl. }
  split.
  { eapply Forall_impl; [|apply unpaidLoans_members]. cbn beta. tauto. }
  split; [apply unpaidLoans_by_date|].
  pose proof (addContribution_registered host uuidv4 s memberId amount accountId date notes
                member Hmember) as Hrun.
  cbv zeta in Hrun. rewrite Hshare in Hrun. fold pool extra queue in Hrun.
  subst s'. rewrite Hrun. cbn [snd].
  rewrite members_updateAdvanceCredit.
  set (shareEntries := if 0 <? share then _ else _).
  exists shareEntries.
  exists (fst (if 0 <? extra
               then autoRepay uuidv4 memberId accountId date queue extra
                              (List.length shareEntries)
               else ([], 0))).
  split; [reflexivity|].
  split.
  { subst shareEntries. destruct (0 <? share); repeat constructor. }
  split.
  { destruct (0 <? extra); [apply autoRepay_entries_shape | constructor]. }
  split.
  - intros Hpos Hnumbers. rewrite Hpos.
    destruct (autoRepay_is_waterfall uuidv4 memberId accountId date queue extra
                (List.length shareEntries) (unpaidLoans_balances_positive host s memberId Hnumbers))
      as [Hview Hleft].
    split; [exact Hview|]. rewrite Hleft. reflexivity.
  - intros Hnpos. rewrite Hnpos. split; reflexivity.
Qed.

(** ** The due date *)

(** Where the local clock shows the same offset 30 days on, advancing the
    day of the month by 30 advances the time value by 30 days. *)
Lemma setDate_thirty_days (host : Engine) (t : Z) :
  LocalTZA host (LocalTime host t + 30 * JsDate.msPerDay) false = LocalTZA host t true ->
  setDate host t (getDate host t + 30) = TimeClip (t + 30 * JsDate.msPerDay).
Proof.
  intros Hoffset. unfold setDate, getDate.
  pose proof (JsDateFacts.civilFromDay_spec (LocalTime host t / JsDate.msPerDay)) as Hcivil.
  destruct (JsDate.civilFromDay (LocalTime host t / JsDate.msPerDay)) as [[y m] d].
  destruct Hcivil as (_ & _ & _ & Hmake).
  assert (Hnew : (JsDate.MakeDay y m (d + 30) * JsDate.msPerDay
                  + LocalTime host t mod JsDate.msPerDay
                  = LocalTime host t + 30 * JsDate.msPerDay)%Z).
  { replace (JsDate.MakeDay y m (d + 30)) with (JsDate.MakeDay y m d + 30)%Z
      by (unfold JsDate.MakeDay; lia).
    rewrite Hmake.
    pose proof (Z.div_mod (LocalTime host t) JsDate.msPerDay ltac:(discriminate)). lia. }
  rewrite Hnew. f_equal. unfold UTC. rewrite Hoffset. unfold LocalTime. lia.
Qed.




(** ** A loan from issue to repayment *)

Lemma addLoan_granted (host : Engine) (loanId transId : string) (lError : bool)
    (s : Store) (memberId : string) (amount : float) (accountId date : string)
    (interestRate : float) (ret : Returned) (s' : Store) :
  addLoan host loanId transId lError s memberId amount accountId date interestRate
  = Normal (ret, s') ->
  ret = RetNull \/ ret = RetMessage DatabaseError ->
  exists t due,
    Date_parse host date = Some t
    /\ setDate host t (getDate host t + 30) = Some due
    /\ s' = setTransactions
              (fun prev => prev ++ [mkTransaction transId date (Some memberId) accountId
                                      PRINCIPAL LOAN_GIVEN (- amount) None
                                      "Loan given to member"])
              (setLoans
                 (fun prev => prev ++ [mkLoan loanId memberId amount interestRate date
                                         (JsDate.toISOString due)]) s).
Proof.
  unfold addLoan. intros Hrun Hgranted.
  destruct (total (getAccountBalance s accountId) <? amount).
  { injection Hrun as <- _. destruct Hgranted; discriminate. }
  destruct (existsb _ _).
  { injection Hrun as <- _. destruct Hgranted; discriminate. }
  destruct (Date_parse host date) as [t|] eqn:Ht; [|discriminate].
  destruct (setDate host t (getDate host t + 30)) as [due|] eqn:Hdue; [|discriminate].
  injection Hrun as _ <-. exists t, due. split; [reflexivity|]. split; [exact Hdue | reflexivity].
Qed.

Lemma status_cases (s : Store) (l : Loan) :
  status (getLoanDetails s l)
  = if balance (getLoanDetails s l) <=? 0 then PAID
    else if String.ltb (l_due_date l) (workingDate s) then OVERDUE
    else UNPAID.
Proof. reflexivity. Qed.

(** X6. A loan granted by [addLoan] on a calendar date (due before year
    10000), on a host whose local clock shows the same offset from UTC 30
    days later, is OVERDUE at a working date exactly when its balance is not
    <= 0 and the working date is more than 30 days after the date of issue;
    on the due date itself it is not yet overdue. *)
Theorem issued_loan_overdue_after_thirty_days (host : Engine) (loanId transId : string)
    (lError : bool) (s : Store) (memberId : string) (amount : float)
    (accountId date : string) (interestRate : float) (ret : Returned) (s' : Store) (t : Z)
    (Hrun : addLoan host loanId transId lError s memberId amount accountId date
                    interestRate = Normal (ret, s'))
    (Hgranted : ret = RetNull \/ ret = RetMessage DatabaseError)
    (Hdate : JsDate.parse date = Some t)
    (Hoffset : LocalTZA host (LocalTime host t + 30 * JsDate.msPerDay) false
               = LocalTZA host t true)
    (Hyear : (t + 30 * JsDate.msPerDay < JsDate.DayFromYear 10000 * JsDate.msPerDay)%Z) :
  exists loan,
    loans s' = loans s ++ [loan] /\ l_id loan = loanId
    /\ forall (later : Store) (w : Z),
         JsDate.parse (workingDate later) = Some w ->
         (status (getLoanDetails later loan) = OVERDUE
          <-> (balance (getLoanDetails later loan) <=? 0) = false
              /\ (t + 30 * JsDate.msPerDay < w)%Z).
Proof.
  destruct (addLoan_granted _ _ _ _ _ _ _ _ _ _ _ _ Hrun Hgranted)
    as (t0 & dueTime & Ht0 & Hdue & ->).
  assert (t0 = t) by (unfold Date_parse in Ht0; rewrite Hdate in Ht0; congruence).
  subst t0.
  rewrite (setDate_thirty_days host t Hoffset) in Hdue.
  assert (dueTime = (t + 30 * JsDate.msPerDay)%Z).
  { unfold TimeClip in Hdue. destruct (Z.abs _ <=? _)%Z; congruence. }
  subst dueTime.
  destruct (JsDateFacts.dueDate_thirty_days_later date t Hdate Hyear) as (due & Hiso & Hparse).
  unfold JsDate.addDays in Hiso.
  eexists. split; [reflexivity|]. split; [reflexivity|].
  intros later w Hw.
  assert (Hover : String.ltb (JsDate.toISOString (t + 30 * JsDate.msPerDay))
                             (workingDate later) = true
                  <-> (t + 30 * JsDate.msPerDay < w)%Z).
  { rewrite Hiso. unfold String.ltb.
    rewrite compare_app_longer
      by (rewrite (parse_length _ _ Hparse), (parse_length _ _ Hw); reflexivity).
    rewrite (DateOrder.string_compare_dates due (workingDate later) _ w Hparse Hw).
    destruct (Z.compare_spec (t + 30 * JsDate.msPerDay) w);
      split; intros; try reflexivity; try lia; discriminate. }
  rewrite status_cases. cbn [l_due_date].
  destruct (balance _ <=? 0).
  - split; [discriminate|]. intros [H _]. discriminate H.
  - destruct (String.ltb _ (workingDate later)).
    + split; [intros _; split; [reflexivity | apply Hover; reflexivity] | reflexivity].
    + split; [discriminate|]. intros [_ Hlt]. apply Hover in Hlt. discriminate.
Qed.

Lemma getLoanDetails_after_entry (s : Store) (e : Transaction) (l : Loan) :
  let s' := setTransactions (fun prev => prev ++ [e]) s in
  let counted := optEq (t_related_loan_id e) (l_id l)
                 && TransactionType_eqb (t_transaction_type e) LOAN_REPAYMENT
                 && isBeforeOrOnWorkingDate s (t_date e) in
  totalDue (getLoanDetails s' l) = totalDue (getLoanDetails s l)
  /\ amountPaid (getLoanDetails s' l)
     = (if counted then amountPaid (getLoanDetails s l) + t_amount e
        else amountPaid (getLoanDetails s l)).
Proof.
  intros s' counted. subst s' counted. split; [reflexivity|].
  set (f := fun t => optEq (t_related_loan_id t) (l_id l)
                     && TransactionType_eqb (t_transaction_type t) LOAN_REPAYMENT
                     && String.leb (t_date t) (workingDate s)).
  change (amountPaid (getLoanDetails (setTransactions (fun prev => prev ++ [e]) s) l))
    with (sumAmounts (filter f (transactions s ++ [e]))).
  change (amountPaid (getLoanDetails s l)) with (sumAmounts (filter f (transactions s))).
  change (optEq (t_related_loan_id e) (l_id l)
          && TransactionType_eqb (t_transaction_type e) LOAN_REPAYMENT
          && isBeforeOrOnWorkingDate s (t_date e)) with (f e).
  rewrite filter_app. cbn [filter]. destruct (f e).
  - apply sumAmounts_last.
  - rewrite app_nil_r. reflexivity.
Qed.

(** X7. A direct repayment on an existing loan leaves every total due as
    it was; when it is dated on or before the working date it adds its
    amount, as the last term of the sum, to what is paid on the loans with
    that identifier, and otherwise changes nothing; the balance is the total
    due minus the new sum. *)
Theorem addRepayment_adds_to_paid (tId : string) (s : Store) (loanId : string)
    (amount : float) (accountId date notes : string) (loan : Loan)
    (Hfind : find (fun l => String.eqb (l_id l) loanId) (loans s) = Some loan) :
  let s' := snd (addRepayment tId s loanId amount accountId date notes) in
  forall l,
    totalDue (getLoanDetails s' l) = totalDue (getLoanDetails s l)
    /\ amountPaid (getLoanDetails s' l)
       = (if String.eqb (l_id l) loanId && String.leb date (workingDate s)
          then amountPaid (getLoanDetails s l) + amount
          else amountPaid (getLoanDetails s l))
    /\ balance (getLoanDetails s' l)
       = totalDue (getLoanDetails s l) - amountPaid (getLoanDetails s' l).
Proof.
  intros s' l. subst s'. unfold addRepayment. rewrite Hfind. cbn [snd].
  set (e := mkTransaction _ _ _ _ _ _ _ _ _).
  destruct (getLoanDetails_after_entry s e l) as [Hdue Hpaid].
  split; [exact Hdue|]. split.
  - rewrite Hpaid. subst e.
    cbn [t_related_loan_id t_transaction_type t_date t_amount optEq TransactionType_eqb].
    unfold isBeforeOrOnWorkingDate. rewrite andb_true_r, (String.eqb_sym loanId).
    reflexivity.
  - rewrite <- Hdue. reflexivity.
Qed.

(** ** Member statistics *)

Lemma lastContributionDate_sorted (host : Engine) (s : Store) (memberId : string) :
  lastContributionDate (getMemberStats host s memberId)
  = match Array_sort (newestFirst host)
            (filter (fun t => TransactionType_eqb (t_transaction_type t) CONTRIBUTION)
               (filter (fun t => optEq (t_memberId t) memberId
                                 && isBeforeOrOnWorkingDate s (t_date t))
                  (transactions s))) with
    | c :: _ => Some (t_date c)
    | [] => None
    end.
Proof.
  unfold getMemberStats.
  destruct (fold_left (countLoan s) (memberLoans s memberId) (O, 0)). reflexivity.
Qed.

Lemma visibleContribution_filter (s : Store) (memberId : string) (t : Transaction) :
  In t (filter (fun t => TransactionType_eqb (t_transaction_type t) CONTRIBUTION)
          (filter (fun t => optEq (t_memberId t) memberId
                            && isBeforeOrOnWorkingDate s (t_date t))
             (transactions s)))
  <-> visibleContribution s memberId t.
Proof.
  unfold visibleContribution, isBeforeOrOnWorkingDate.
  rewrite !filter_In, andb_true_iff, optEq_eq, TransactionType_eqb_eq. tauto.
Qed.

Lemma newestFirst_days (host : Engine) (a b : Transaction) :
  calendarDate (t_date a) -> calendarDate (t_date b) ->
  newestFirst host a b = Some (- dayOf (t_date a) - - dayOf (t_date b))%Z.
Proof.
  unfold calendarDate, newestFirst, getTime, Date_parse, dayOf.
  intros [x ->] [y ->]. cbn [timeDiff]. f_equal. lia.
Qed.

(** X21. [lastContributionDate] is absent exactly when the member has no
    contribution dated on or before the working date; otherwise it is the
    date of one of them, and, when these dates are calendar dates, none of
    them is later: every such date is at or before it in the order of the
    strings, which on calendar dates is the order of the days.  This holds
    on every host. *)
Theorem lastContributionDate_latest (host : Engine) (s : Store) (memberId : string) :
  let last := lastContributionDate (getMemberStats host s memberId) in
  (last = None <-> forall t, ~ visibleContribution s memberId t)
  /\ (forall d, last = Some d ->
        exists t, visibleContribution s memberId t /\ t_date t = d)
  /\ ((forall t, visibleContribution s memberId t -> calendarDate (t_date t)) ->
      forall d t, last = Some d -> visibleContribution s memberId t ->
        String.leb (t_date t) d = true).
Proof.
  intros last. subst last. rewrite lastContributionDate_sorted.
  set (visible := filter _ (filter _ (transactions s))).
  pose proof (Array_sort_perm (newestFirst host) visible) as Hperm.
  assert (Hin : forall t, In t (Array_sort (newestFirst host) visible)
                          <-> visibleContribution s memberId t).
  { intros t. rewrite <- visibleContribution_filter. fold visible.
    split; apply Permutation_in; [exact Hperm | apply Permutation_sym, Hperm]. }
  split; [|split].
  - destruct (Array_sort (newestFirst host) visible) as [|c rest].
    + split; [|reflexivity]. intros _ t Ht. apply Hin in Ht. exact Ht.
    + split; [discriminate|]. intros Hnone. exfalso.
      apply (Hnone c), Hin. left. reflexivity.
  - intros d Hd.
    destruct (Array_sort (newestFirst host) visible) as [|c rest]; [discriminate|].
    injection Hd as <-. exists c. split; [apply Hin; left|]; reflexivity.
  - intros Hdates d t Hd Ht.
    assert (Hvalid : Forall (fun t => calendarDate (t_date t)) visible).
    { apply Forall_forall. intros x Hx. apply Hdates, visibleContribution_filter, Hx. }
    pose proof (Array_sort_sorted (newestFirst host) (fun t => (- dayOf (t_date t))%Z)
                  (fun t => calendarDate (t_date t))
                  (newestFirst_days host) visible Hvalid) as Hsorted.
    assert (Hc : forall c, In c (Array_sort (newestFirst host) visible) ->
                           calendarDate (t_date c)).
    { intros c Hc. apply Hdates, Hin, Hc. }
    apply Hin in Ht.
    destruct (Array_sort (newestFirst host) visible) as [|c rest]; [discriminate|].
    injection Hd as <-.
    apply dayOf_order; [apply Hc, Ht | apply Hc; left; reflexivity |].
    destruct Ht as [<-|Ht]; [lia|].
    inversion Hsorted as [|? ? _ Hall]; subst.
    rewrite Forall_forall in Hall. specialize (Hall t Ht). lia.
Qed.

(** ** Where rounding shows *)

(** X14. A repayment of a loan's whole balance can leave the loan open.  On
    [oddBalance] the loan has a balance of 1031.7159999999999; a
    contribution of 1100 on a day on which the cap is reached repays exactly
    that much and carries 68.28 over as credit, yet the sum of what is paid
    then is 1603.6459999999997 against 1603.646 due: the loan keeps a
    balance of 2.27e-13, is still OVERDUE, and the member's next loan is
    refused as outstanding. *)
Theorem full_repayment_can_leave_dust :
  let s' := snd (addContribution malawi demoIds oddBalance "m1" 1100 "acc"
                                 "2024-03-10" "") in
  balance (getLoanDetails oddBalance loanOdd) = 1031.7159999999999
  /\ transactions s'
     = transactions oddBalance
       ++ [mkTransaction "t0" "2024-03-10" (Some "m1") "acc" PRINCIPAL LOAN_REPAYMENT
                         1031.7159999999999 (Some "L1")
                         "Auto-repayment from extra contribution"]
  /\ members s' = [mkMember "m1" "Ann" true 68.284000000000106]
  /\ getLoanDetails s' loanOdd
     = mkLoanDetails 145.786 1603.646 1603.6459999999997 2.2737367544323206e-13 OVERDUE
  /\ addLoan malawi "L2" "g2" false s' "m1" 100 "acc" "2024-03-10" 10
     = Normal (RetMessage OutstandingLoan, s').
Proof. repeat split. Qed.

(** X3. [deleteAccount] and [getAccountBalance] add the same entries in
    different orders and can disagree about the tolerance.  On [mixedPools]
    the account shows a total of 0.010000000000000009, above 0.01, while
    the entries added in the order of the log give 0.009999999999999981:
    the account is removed. *)
Theorem deleteAccount_total_can_disagree :
  getAccountBalance mixedPools "acc"
  = mkAccountBalance (-0.26) 0.27000000000000002 0.010000000000000009
  /\ (0.01 <? abs (total (getAccountBalance mixedPools "acc"))) = true
  /\ sumAmounts (transactions mixedPools) = 0.0099999999999999811
  /\ deleteAccount mixedPools "acc" = (RetNull, setAccounts (fun _ => []) mixedPools).
Proof. repeat split. Qed.

(** ** Worked examples *)

Lemma contributedOnb_iff (memberId date : string) (t : Transaction) :
  contributedOnb memberId date t = true <-> contributedOn memberId date t.
Proof.
  unfold contributedOnb, contributedOn.
  rewrite !andb_true_iff, optEq_eq, TransactionType_eqb_eq, String.eqb_eq. tauto.
Qed.

Lemma countsTowardsb_iff (s : Store) (loan : Loan) (t : Transaction) :
  countsTowardsb s loan t = true <-> countsTowards s loan t.
Proof.
  unfold countsTowardsb, countsTowards.
  rewrite !andb_true_iff, optEq_eq, TransactionType_eqb_eq. tauto.
Qed.



Lemma onAccountb_iff (id : string) (t : Transaction) :
  onAccountb id t = true <-> t_accountId t = id.
Proof. apply String.eqb_eq. Qed.



(** C3 on [threeRepayments]: [loanTen] has 55.89 + 46.62 + 7.49 paid by the working
    date, which is 109.99999999999999, so it is not PAID; [loanSeven] at 7 per
    cent bears 7.000000000000001 of interest. *)
Lemma getLoanDetails_spec_witness :
  (forall t, countsTowardsb threeRepayments loanTen t = true <-> countsTowards threeRepayments loanTen t)
  /\ getLoanDetails threeRepayments loanTen
     = mkLoanDetails 10 110 109.99999999999999 1.4210854715202004e-14 OVERDUE
  /\ interestAmount (getLoanDetails threeRepayments loanSeven) = 7.0000000000000009.
Proof.
  split; [apply countsTowardsb_iff|].
  destruct (getLoanDetails_spec threeRepayments loanTen (countsTowardsb threeRepayments loanTen)
              (countsTowardsb_iff threeRepayments loanTen))
    as (Hi & Ht & Hp & Hb & _ & Hover & _).
  destruct (getLoanDetails_spec threeRepayments loanSeven (countsTowardsb threeRepayments loanSeven)
              (countsTowardsb_iff threeRepayments loanSeven)) as (Hi' & _).
  split; [|rewrite Hi'; reflexivity].
  specialize (Hover eq_refl eq_refl).
  destruct (getLoanDetails threeRepayments loanTen) as [i d p b st].
  cbn [interestAmount totalDue amountPaid balance status] in *.
  subst. reflexivity.
Defined.


(** C9 on [threeBoxes]: the entries of [old] add up to 0.07 - 0.06, which is
    0.010000000000000009, so it stays; those of [box] add up to 0 over all
    dates, so it is removed. *)
Lemma deleteAccount_spec_witness :
  (forall t, onAccountb "old" t = true <-> t_accountId t = "old")
  /\ deleteAccount threeBoxes "old"
     = (RetMessage (CannotDeleteAccount 0.010000000000000009), threeBoxes)
  /\ fst (deleteAccount threeBoxes "box") = RetNull
  /\ accounts (snd (deleteAccount threeBoxes "box"))
     = [cash; mkAccount "old" "Old" CASH true None].
Proof.
  split; [apply onAccountb_iff|]. split.
  - exact (proj1 (proj2 (deleteAccount_spec threeBoxes "old" (onAccountb "old")
                           (onAccountb_iff "old"))) eq_refl).
  - destruct (proj1 (deleteAccount_spec threeBoxes "box" (onAccountb "box")
                       (onAccountb_iff "box")) eq_refl) as (Hret & Hacc & _).
    split; [exact Hret|]. rewrite Hacc. reflexivity.
Defined.

(** C2 on [twoLoansOwed]: of the pool of 1225 the share takes 400; the 825 left
    repay [loanFirst], issued first, in full and then [loanSecond], and what is left
    replaces Ann's credit of 25. *)
Lemma addContribution_waterfall_witness :
  find (fun m => String.eqb (m_id m) "m1") (members twoLoansOwed)
  = Some (mkMember "m1" "Ann" true 25)
  /\ (forall l, In l (loans twoLoansOwed) -> l_memberId l = "m1" ->
                is_nan (balance (getLoanDetails twoLoansOwed l)) = false)
  /\ (forall l, In l (loans twoLoansOwed) -> owedBy twoLoansOwed "m1" l = true ->
                calendarDate (l_date_given l))
  /\ map fst (unpaidLoans malawi twoLoansOwed "m1") = [loanFirst; loanSecond]
  /\ StronglySorted (fun a b => issuedNoLaterThan (fst a) (fst b))
                    (unpaidLoans malawi twoLoansOwed "m1")
  /\ exists shareEntries repayments,
       transactions (snd (addContribution malawi demoIds twoLoansOwed "m1" 1200 "acc"
                                          "2024-03-10" ""))
       = transactions twoLoansOwed ++ shareEntries ++ repayments
       /\ map repaymentView repayments
          = [(Some "L1", 229.44999999999999); (Some "L2", 550)]
       /\ members (snd (addContribution malawi demoIds twoLoansOwed "m1" 1200 "acc"
                                        "2024-03-10" ""))
          = [mkMember "m1" "Ann" true 45.549999999999955; mkMember "m2" "Ben" true 10].
Proof.
  assert (Hnum : forall l, In l (loans twoLoansOwed) -> l_memberId l = "m1" ->
                           is_nan (balance (getLoanDetails twoLoansOwed l)) = false).
  { intros l [<-|[<-|[<-|[<-|[]]]]] _; reflexivity. }
  assert (Hdates : forall l, In l (loans twoLoansOwed) -> owedBy twoLoansOwed "m1" l = true ->
                             calendarDate (l_date_given l)).
  { intros l [<-|[<-|[<-|[<-|[]]]]] H; try discriminate H; eexists; reflexivity. }
  split; [reflexivity|]. split; [exact Hnum|]. split; [exact Hdates|].
  split; [reflexivity|].
  destruct (addContribution_waterfall malawi demoIds twoLoansOwed "m1" 1200 "acc" "2024-03-10" ""
              (mkMember "m1" "Ann" true 25) (contributedOnb "m1" "2024-03-10")
              eq_refl (contributedOnb_iff "m1" "2024-03-10"))
    as (_ & _ & Hsorted & shareEntries & repayments & Hlog & _ & _ & Hpos & _).
  split; [exact (Hsorted Hdates)|].
  exists shareEntries, repayments. split; [exact Hlog|].
  destruct (Hpos eq_refl Hnum) as [Hview Hmembers].
  split; [rewrite Hview; reflexivity | rewrite Hmembers; reflexivity].
Defined.



(** X6 on [fundedLater]: the loan of 2024-03-05 is due on 2024-04-04; it is
    still UNPAID at that working date and OVERDUE the day after. *)
Lemma issued_loan_overdue_after_thirty_days_witness :
  JsDate.parse "2024-03-05" = Some 1709596800000%Z
  /\ exists loan,
       l_due_date loan = "2024-04-04T00:00:00.000Z"
       /\ status (getLoanDetails
                    (setWorkingDate "2024-04-04" (setLoans (fun _ => [loan]) fundedLater)) loan)
          = UNPAID
       /\ status (getLoanDetails
                    (setWorkingDate "2024-04-05" (setLoans (fun _ => [loan]) fundedLater)) loan)
          = OVERDUE.
Proof.
  split; [reflexivity|].
  destruct (issued_loan_overdue_after_thirty_days malawi "L9" "g9" false
              (setWorkingDate "2024-03-10" fundedLater) "m1" 300 "acc" "2024-03-05" 10
              RetNull _ 1709596800000%Z eq_refl (or_introl eq_refl) eq_refl eq_refl
              ltac:(vm_compute; reflexivity))
    as (loan & Hloans & _ & Hover).
  cbn [loans setWorkingDate setLoans setTransactions fundedLater app] in Hloans.
  injection Hloans as <-.
  exists (mkLoan "L9" "m1" 300 10 "2024-03-05" "2024-04-04T00:00:00.000Z").
  split; [reflexivity|]. split; [reflexivity|].
  apply (proj2 (Hover (setWorkingDate "2024-04-05"
                         (setLoans (fun _ => [mkLoan "L9" "m1" 300 10 "2024-03-05"
                                                "2024-04-04T00:00:00.000Z"]) fundedLater))
                      1712275200000%Z eq_refl)).
  split; [reflexivity | vm_compute; reflexivity].
Defined.

(** X7 on [oddBalance]: 571.93 is paid on [loanOdd]; a repayment of its
    balance brings what is paid to 1603.6459999999997. *)
Lemma addRepayment_adds_to_paid_witness :
  find (fun l => String.eqb (l_id l) "L1") (loans oddBalance) = Some loanOdd
  /\ amountPaid (getLoanDetails oddBalance loanOdd) = 571.92999999999995
  /\ balance (getLoanDetails oddBalance loanOdd) = 1031.7159999999999
  /\ amountPaid (getLoanDetails (snd (addRepayment "r9" oddBalance "L1" 1031.7159999999999
                                                   "acc" "2024-03-10" "")) loanOdd)
     = 1603.6459999999997
  /\ balance (getLoanDetails (snd (addRepayment "r9" oddBalance "L1" 1031.7159999999999
                                                "acc" "2024-03-10" "")) loanOdd)
     = 2.2737367544323206e-13.
Proof.
  split; [reflexivity|]. split; [reflexivity|]. split; [reflexivity|].
  destruct (addRepayment_adds_to_paid "r9" oddBalance "L1" 1031.7159999999999 "acc"
              "2024-03-10" "" loanOdd eq_refl loanOdd) as (_ & Hpaid & Hbal).
  split; [rewrite Hpaid; reflexivity | rewrite Hbal, Hpaid; reflexivity].
Defined.

(** X21 on [threeDays]: of the contributions of 5, 9 and 7 March seen at the
    working date the last is that of 9 March. *)
Lemma lastContributionDate_latest_witness :
  lastContributionDate (getMemberStats lenient threeDays "m1") = Some "2024-03-09"
  /\ (forall t, visibleContribution threeDays "m1" t -> calendarDate (t_date t))
  /\ forall t, visibleContribution threeDays "m1" t ->
               String.leb (t_date t) "2024-03-09" = true.
Proof.
  assert (Hdates : forall t, visibleContribution threeDays "m1" t ->
                             calendarDate (t_date t)).
  { intros t (Hin & _).
    destruct Hin as [<-|[<-|[<-|[<-|[<-|[]]]]]]; eexists; reflexivity. }
  split; [reflexivity|]. split; [exact Hdates|].
  intros t Ht.
  exact (proj2 (proj2 (lastContributionDate_latest lenient threeDays "m1"))
               Hdates "2024-03-09" t eq_refl Ht).
Defined.

End DoubleFacts.

(** * The offline backend after the first start *)

Module OfflineReload.
Import Mock MockFacts Offline Reload ReloadFacts.
Local Open Scope string_scope.

(** ** Reading back what the operations wrote *)

Lemma readAll_app {A : Type} (read : Row -> option A) (rows more : list Row)
    (xs ys : list A) :
  readAll read rows = Some xs -> readAll read more = Some ys ->
  readAll read (rows ++ more) = Some (xs ++ ys)%list.
Proof.
  revert xs. induction rows as [|row rows IH]; intros xs Hx Hy.
  - injection Hx as <-. exact Hy.
  - cbn [readAll app] in *. destruct (read row) as [x|]; [|discriminate].
    destruct (readAll read rows) as [xs'|]; [|discriminate].
    injection Hx as <-. rewrite (IH xs' eq_refl Hy). reflexivity.
Qed.

Lemma readAll_filter {A : Type} (read : Row -> option A) (keepRow : Row -> bool)
    (keep : A -> bool) (rows : list Row) (xs : list A) :
  (forall row x, read row = Some x -> keepRow row = keep x) ->
  readAll read rows = Some xs ->
  readAll read (filter keepRow rows) = Some (filter keep xs).
Proof.
  intros Hkeep. revert xs. induction rows as [|row rows IH]; intros xs Hx.
  - injection Hx as <-. reflexivity.
  - cbn [readAll filter] in *. destruct (read row) as [x|] eqn:Er; [|discriminate].
    destruct (readAll read rows) as [xs'|]; [|discriminate].
    injection Hx as <-. rewrite (Hkeep row x Er). cbn [filter].
    destruct (keep x); cbn [readAll]; rewrite ?Er, (IH xs' eq_refl); reflexivity.
Qed.

Lemma readAll_change {A : Type} (read : Row -> option A) (change : Row -> Row)
    (update : A -> A) (rows : list Row) (xs : list A) :
  (forall row x, read row = Some x -> read (change row) = Some (update x)) ->
  readAll read rows = Some xs ->
  readAll read (map change rows) = Some (map update xs).
Proof.
  intros Hchange. revert xs. induction rows as [|row rows IH]; intros xs Hx.
  - injection Hx as <-. reflexivity.
  - cbn [readAll map] in *. destruct (read row) as [x|] eqn:Er; [|discriminate].
    destruct (readAll read rows) as [xs'|]; [|discriminate].
    injection Hx as <-. rewrite (Hchange row x Er), (IH xs' eq_refl). reflexivity.
Qed.

Lemma readAll_In {A : Type} (read : Row -> option A) (rows : list Row) (xs : list A) :
  readAll read rows = Some xs ->
  forall row, In row rows -> exists x, read row = Some x /\ In x xs.
Proof.
  revert xs. induction rows as [|r rows IH]; intros xs Hx row Hin; [destruct Hin|].
  cbn [readAll] in Hx. destruct (read r) as [x|] eqn:Er; [|discriminate].
  destruct (readAll read rows) as [xs'|]; [|discriminate].
  injection Hx as <-. destruct Hin as [<-|Hin].
  - exists x. split; [exact Er | left; reflexivity].
  - destruct (IH xs' eq_refl row Hin) as (y & Hy & Hiny).
    exists y. split; [exact Hy | right; exact Hiny].
Qed.

Lemma readMember_id (row : Row) (m : Member) :
  readMember row = Some m -> field row "id" = Some (JStr (m_id m)).
Proof.
  unfold readMember.
  destruct (field row "id") as [[| | |i| |]|]; try discriminate.
  destruct (field row "name") as [[| | |n| |]|]; try discriminate.
  destruct (field row "active") as [[|a| | | |]|]; try discriminate.
  destruct (field row "advance_credit") as [[| |c| | |]|]; try discriminate.
  intros [= <-]. reflexivity.
Qed.

Lemma readAccount_id (row : Row) (a : Account) :
  readAccount row = Some a -> field row "id" = Some (JStr (a_id a)).
Proof.
  unfold readAccount.
  destruct (field row "id") as [[| | |i| |]|]; try discriminate.
  destruct (field row "account_name") as [[| | |n| |]|]; try discriminate.
  destruct (readAccountType _); try discriminate.
  destruct (field row "active") as [[|b| | | |]|]; try discriminate.
  destruct (readReference _); try discriminate.
  intros [= <-]. reflexivity.
Qed.

Lemma readLoan_id (row : Row) (l : Loan) :
  readLoan row = Some l -> field row "id" = Some (JStr (l_id l)).
Proof.
  unfold readLoan.
  destruct (field row "id") as [[| | |i| |]|]; try discriminate.
  destruct (field row "member_id") as [[| | |n| |]|]; try discriminate.
  destruct (field row "amount_given") as [[| |a| | |]|]; try discriminate.
  destruct (field row "interest_rate") as [[| |r| | |]|]; try discriminate.
  destruct (field row "date_given") as [[| | |g| |]|]; try discriminate.
  destruct (field row "due_date") as [[| | |d| |]|]; try discriminate.
  intros [= <-]. reflexivity.
Qed.

Lemma readTransaction_id (row : Row) (t : Transaction) :
  readTransaction row = Some t -> field row "id" = Some (JStr (t_id t)).
Proof.
  unfold readTransaction.
  destruct (field row "id") as [[| | |i| |]|]; try discriminate.
  destruct (field row "date") as [[| | |d| |]|]; try discriminate.
  destruct (readReference (field row "member_id")); try discriminate.
  destruct (field row "account_id") as [[| | |a| |]|]; try discriminate.
  destruct (readFundType _); try discriminate.
  destruct (readTransactionType _); try discriminate.
  destruct (field row "amount") as [[| |q| | |]|]; try discriminate.
  destruct (readReference (field row "related_loan_id")); try discriminate.
  destruct (field row "notes") as [[| | |n| |]|]; try discriminate.
  intros [= <-]. reflexivity.
Qed.

Lemma updatesRow_NoDup (u : MemberUpdates) : NoDup (map fst (updatesRow u)).
Proof.
  destruct u as [[i|] [n|] [a|] [c|]]; cbn;
    repeat (constructor; [cbn; intuition discriminate|]); constructor.
Qed.

(** Updating a row that reads as a member gives a row that reads as the
    updated member. *)
Lemma readMember_update (row : Row) (m : Member) (id : string) (u : MemberUpdates) :
  readMember row = Some m ->
  readMember (if strictEq (field row "id") (Some (JStr id))
              then spread row (updatesRow u) else row)
  = Some (if String.eqb (m_id m) id then spreadUpdates m u else m).
Proof.
  intros Hread. rewrite (readMember_id row m Hread). cbn [strictEq].
  destruct (String.eqb (m_id m) id); [|exact Hread].
  unfold readMember in *. rewrite !(field_spread row) by apply updatesRow_NoDup.
  destruct (field row "id") as [[| | |i| |]|]; try discriminate.
  destruct (field row "name") as [[| | |n| |]|]; try discriminate.
  destruct (field row "active") as [[|a| | | |]|]; try discriminate.
  destruct (field row "advance_credit") as [[| |c| | |]|]; try discriminate.
  injection Hread as <-.
  destruct u as [[i'|] [n'|] [a'|] [c'|]]; reflexivity.
Qed.

Lemma readsBack_tables (s : Store) (st : Storage) :
  readAll readMember (getTable st "members") = Some (members s) ->
  readAll readAccount (getTable st "accounts") = Some (accounts s) ->
  readAll readLoan (getTable st "loans") = Some (loans s) ->
  readAll readTransaction (getTable st "transactions") = Some (transactions s) ->
  readsBack s st.
Proof. intros. repeat split; assumption. Qed.

Lemma readAll_rows {A : Type} (read : Row -> option A) (row : A -> Row) (l : list A) :
  (forall x, read (row x) = Some x) -> readAll read (map row l) = Some l.
Proof. intros H. apply readAll_map. intros x _. apply H. Qed.

Lemma filter_nothing {A : Type} (f : A -> bool) (l : list A) :
  (forall x, In x l -> f x = false) -> filter f l = [].
Proof.
  induction l as [|x l IH]; intros H; [reflexivity|].
  cbn [filter]. rewrite (H x (or_introl eq_refl)). apply IH.
  intros y Hy. apply H. right. exact Hy.
Qed.

(** Deleting all rows but those with the all-zero identifier leaves none
    when no record has it. *)
Lemma readAll_wiped {A : Type} (read : Row -> option A) (idOf : A -> string)
    (rows : list Row) (xs : list A) :
  (forall row x, read row = Some x -> field row "id" = Some (JStr (idOf x))) ->
  (forall x, In x xs -> idOf x <> zeroId) ->
  readAll read rows = Some xs ->
  filter (fun item => strictEq (field item "id") (Some (JStr zeroId))) rows = [].
Proof.
  intros Hid Hzero Hread. apply filter_nothing. intros row Hrow.
  destruct (readAll_In read rows xs Hread row Hrow) as (x & Hx & Hin).
  rewrite (Hid row x Hx). cbn [strictEq]. apply String.eqb_neq, Hzero, Hin.
Qed.

Ltac tables :=
  repeat (rewrite getTable_setTable;
          match goal with
          | |- context [String.eqb ?a ?b] =>
              let v := eval vm_compute in (String.eqb a b) in
              change (String.eqb a b) with v; cbv iota
          end).

Ltac readsBack_goals :=
  apply readsBack_tables;
  cbn [snd members accounts loans transactions
           setMembers setAccounts setLoans setTransactions];
  tables; try assumption.

Lemma readsBack_step (op : Mutation) (s : Store) (st : Storage) :
  readsBack s st ->
  offlineInputs op = true ->
  keepsLink op = true ->
  (op = ResetData -> noZeroId s) ->
  readsBack (run op s) (persist op s st).
Proof.
  intros (Hm & Ha & Hl & Ht) Hoffline Hlink Hzero.
  destruct op; cbn [run persist].
  - (* addMember *)
    unfold addMember, insert. cbn [snd members accounts loans transactions setMembers].
    readsBack_goals.
    apply readAll_app; [exact Hm|]. cbn [readAll]. rewrite readMember_row. reflexivity.
  - (* updateMember *)
    unfold updateMember, update_eq. cbn [snd members accounts loans transactions setMembers].
    readsBack_goals.
    apply readAll_change; [|exact Hm]. intros row m Hrow. apply readMember_update, Hrow.
  - (* addAccount *)
    unfold addAccount, insert. cbn [snd members accounts loans transactions setAccounts].
    readsBack_goals.
    apply readAll_app; [exact Ha|]. cbn [readAll]. rewrite readAccount_row; [reflexivity|].
    cbn [a_memberId keepsLink] in *. destruct memberId as [m|]; [|discriminate].
    apply negb_true_iff, String.eqb_neq in Hlink. congruence.
  - (* deleteAccount *)
    unfold deleteAccount. cbv zeta. destruct (Qgtb _ _); cbn [fst snd].
    + repeat split; assumption.
    + unfold delete_eq. cbn [snd members accounts loans transactions setAccounts].
      readsBack_goals.
      apply readAll_filter; [|exact Ha]. intros row a Hrow.
      rewrite (readAccount_id row a Hrow). reflexivity.
  - (* addContribution *)
    destruct (find (fun m => String.eqb (m_id m) memberId) (members s)) as [member|] eqn:Hfind.
    + rewrite (OfflineFacts.contributionBatch_run uuidv4 s member memberId amount accountId
                 date notes Hfind).
      destruct (contributionBatch uuidv4 s member memberId amount accountId date notes)
        as [newTransactions credit].
      cbn [fst snd]. unfold updateMember, update_eq.
      cbn [snd members accounts loans transactions setMembers setTransactions].
      destruct newTransactions as [|t rest].
      * readsBack_goals.
        -- apply readAll_change; [|exact Hm]. intros row m Hrow.
           apply readMember_update, Hrow.
        -- rewrite app_nil_r. exact Ht.
      * unfold insert. cbn [snd].
        readsBack_goals.
        -- apply readAll_change; [|exact Hm]. intros row m Hrow.
           apply readMember_update, Hrow.
        -- apply readAll_app; [exact Ht|]. apply readAll_rows, readTransaction_row.
    + unfold addContribution. rewrite Hfind. repeat split; assumption.
  - (* addLoan *)
    unfold addLoan. destruct (Qltb _ amount); [repeat split; assumption|].
    destruct (existsb _ _); [repeat split; assumption|].
    destruct (JsDate.parse date); [|repeat split; assumption].
    unfold insert. cbn [snd members accounts loans transactions setLoans setTransactions].
    readsBack_goals.
    + apply readAll_app; [exact Hl|]. cbn [readAll]. rewrite readLoan_row. reflexivity.
    + apply readAll_app; [exact Ht|]. cbn [readAll]. rewrite readTransaction_row.
      reflexivity.
  - (* addRepayment *)
    unfold addRepayment. destruct (find _ (loans s)); [|repeat split; assumption].
    unfold insert. cbn [snd members accounts loans transactions setTransactions].
    readsBack_goals.
    apply readAll_app; [exact Ht|]. cbn [readAll]. rewrite readTransaction_row. reflexivity.
  - (* addExpense *)
    unfold addExpense. destruct (Qltb _ amount); [repeat split; assumption|].
    unfold insert. cbn [snd members accounts loans transactions setTransactions].
    readsBack_goals.
    apply readAll_app; [exact Ht|]. cbn [readAll]. rewrite readTransaction_row. reflexivity.
  - (* addTransfer *)
    unfold addTransfer, insert. cbn [snd members accounts loans transactions setTransactions].
    readsBack_goals.
    apply readAll_app; [exact Ht|]. cbn [readAll]. rewrite !readTransaction_row. reflexivity.
  - (* addOpeningBalance *)
    unfold addOpeningBalance, insert.
    cbn [snd members accounts loans transactions setTransactions].
    readsBack_goals.
    apply readAll_app; [exact Ht|]. cbn [readAll]. rewrite readTransaction_row. reflexivity.
  - (* deleteTransaction *)
    cbn [offlineInputs] in Hoffline. apply negb_true_iff in Hoffline. subst dbError.
    unfold deleteTransaction, delete_eq.
    cbn [snd members accounts loans transactions setTransactions].
    readsBack_goals.
    apply readAll_filter; [|exact Ht]. intros row t Hrow.
    rewrite (readTransaction_id row t Hrow). reflexivity.
  - (* setWorkingDate *)
    repeat split; assumption.
  - (* resetData *)
    destruct (Hzero eq_refl) as (Zm & Za & Zl & Zt).
    unfold resetData, delete_neq.
    cbn [snd members accounts loans transactions setMembers setAccounts setLoans
           setTransactions].
    readsBack_goals.
    + rewrite (readAll_wiped readMember m_id _ _ readMember_id Zm Hm). reflexivity.
    + rewrite (readAll_wiped readAccount a_id _ _ readAccount_id Za Ha). reflexivity.
    + rewrite (readAll_wiped readLoan l_id _ _ readLoan_id Zl Hl). reflexivity.
    + rewrite (readAll_wiped readTransaction t_id _ _ readTransaction_id Zt Ht).
      reflexivity.
Qed.

(** A reload that changes nothing: the tables read back as the store and
    the accounts table is not empty. *)
Lemma fetchData_fixed (lessThan : option Json -> option Json -> bool)
    (uuidv4 : nat -> string) (s : Store) (st : Storage) :
  fetchData lessThan uuidv4 true s st = Some (s, st) ->
  readsBack s st /\ accounts s <> [].
Proof.
  unfold fetchData, fetched, select. cbn [data].
  destruct (readAll readMember _) as [ms|] eqn:Em; [|discriminate].
  destruct (readAll readAccount _) as [acs|] eqn:Ea; [|discriminate].
  destruct (readAll readLoan _) as [ls|] eqn:El; [|discriminate].
  destruct (readAll readTransaction _) as [ts|] eqn:Et; [|discriminate].
  destruct (getTable st "accounts") as [|row rows] eqn:E.
  - intros H. exfalso. injection H as _ Hst.
    apply (f_equal (fun x => getTable x "accounts")) in Hst.
    cbv beta in Hst. rewrite E in Hst. cbn in Hst. discriminate Hst.
  - intros H. injection H as <-.
    split.
    + apply readsBack_tables; cbn [members accounts loans transactions];
        rewrite ?E; assumption.
    + cbn [accounts readAll] in *. destruct (readAccount row); [|discriminate Ea].
      destruct (readAll readAccount rows); [|discriminate Ea].
      injection Ea as <-. discriminate.
Qed.

Lemma fetchData_readsBack (lessThan : option Json -> option Json -> bool)
    (uuidv4 : nat -> string) (writeOk : bool) (s : Store) (st : Storage) :
  readsBack s st -> accounts s <> [] ->
  fetchData lessThan uuidv4 writeOk s st = Some (s, st).
Proof.
  intros (Hm & Ha & Hl & Ht) Hacc. unfold fetchData, fetched, select. cbn [data].
  rewrite Hm, Ha, Hl, Ht.
  destruct (getTable st "accounts") as [|row rows].
  - cbn [readAll] in Ha. injection Ha as Ha. congruence.
  - rewrite Store_eta. reflexivity.
Qed.

(** X27. In offline mode a reload follows the store.  If a reload would
    give back the store as it is in memory, then after any operation (no
    backend error, no account linked to the empty member identifier, which
    is stored as [null], and for [resetData] no record with the all-zero
    identifier its deletion spares) a reload gives back the store as the
    operation left it, whatever identifiers it would draw, as long as an
    account is left: with none the reload creates the default accounts. *)
Theorem offline_reload_follows_store (lessThan : option Json -> option Json -> bool)
    (uuidv4 uuidv4' : nat -> string) (writeOk' : bool) (op : Mutation)
    (s : Store) (st : Storage)
    (Hsync : fetchData lessThan uuidv4 true s st = Some (s, st))
    (Hoffline : offlineInputs op = true)
    (Hlink : keepsLink op = true)
    (Hzero : op = ResetData -> noZeroId s)
    (Hleft : accounts (run op s) <> []) :
  fetchData lessThan uuidv4' writeOk' (run op s) (persist op s st)
  = Some (run op s, persist op s st).
Proof.
  destruct (fetchData_fixed lessThan uuidv4 s st Hsync) as [Hreads _].
  apply fetchData_readsBack; [|exact Hleft].
  apply readsBack_step; assumption.
Qed.

End OfflineReload.

Section OfflineWorkedExamples.
Local Open Scope string_scope.

(** X27 on the store as the first start leaves it, with the default
    accounts: after a member is added a reload gives back the store. *)
Lemma offline_reload_follows_store_witness :
  Reload.fetchData stringsLessThan demoIds true ledgerStarted storageStarted
  = Some (ledgerStarted, storageStarted)
  /\ Reload.fetchData stringsLessThan (fun _ => "other") false
       (run (AddMember "m1" "Ann" 0) ledgerStarted)
       (Offline.persist (AddMember "m1" "Ann" 0) ledgerStarted storageStarted)
     = Some (run (AddMember "m1" "Ann" 0) ledgerStarted,
             Offline.persist (AddMember "m1" "Ann" 0) ledgerStarted storageStarted).
Proof.
  assert (Hsync : Reload.fetchData stringsLessThan demoIds true ledgerStarted storageStarted
                  = Some (ledgerStarted, storageStarted)) by reflexivity.
  split; [exact Hsync|].
  apply (OfflineReload.offline_reload_follows_store stringsLessThan demoIds
           (fun _ => "other") false (AddMember "m1" "Ann" 0) ledgerStarted storageStarted
           Hsync eq_refl eq_refl).
  - discriminate.
  - discriminate.
Defined.

End OfflineWorkedExamples.
